(** * nes_py: the ctypes binding [NESInterface] over [libfceux.so]

    A shallow embedding of [nes_py/nes_python_interface.py].  The module is
    a foreign-function binding: every method configures the prototype of a
    symbol of the shared library ([argtypes], [restype]), marshals its Python
    arguments through ctypes, calls the symbol and converts the result.
    The embedding therefore has three layers:

    - the data that crosses the boundary: C integers and pointers with
      their wrap-around, numpy arrays held by reference in a store, the
      ctypes conversions in both directions;
    - a state-and-exception monad in which the methods of [NESInterface]
      are written line by line, over an arbitrary native library;
    - the emulator core behind the C surface, which is not part of the
      Python sources and is modelled from the specification. *)

From Stdlib Require Import ZArith List Lia Bool.
From stdpp Require Import base option list functions gmap.

Local Open Scope Z_scope.

(** ** C integers and pointers *)

(** A C [int] is 32 bits wide and signed; ctypes masks Python integers
    into it without any overflow check. *)
Definition c_int_wrap (z : Z) : Z := (z + 2147483648) mod 4294967296 - 2147483648.

(** A [void*] is 64 bits wide. *)
Definition ptr_wrap (z : Z) : Z := z mod 18446744073709551616.

Definition fits_c_int (z : Z) : Prop := -2147483648 <= z < 2147483648.

(** ** numpy arrays *)

Inductive dtype := uint8 | int32.

Definition dtype_wrap (dt : dtype) (z : Z) : Z :=
  match dt with
  | uint8 => z mod 256
  | int32 => c_int_wrap z
  end.

Record ndarray := {
  nd_shape : list Z;
  nd_dtype : dtype;
  nd_data : list Z;
  nd_contiguous : bool;
  nd_writeable : bool
}.

(** [a.size]: the product of the dimensions. *)
Definition nd_size (a : ndarray) : Z := fold_right Z.mul 1 (nd_shape a).

(** A native write through the pointer to an array's memory: the array
    keeps its length; the elements written replace the old ones, read back
    at the array's element type. *)
Definition overwrite (dt : dtype) (old new : list Z) : list Z :=
  take (length old) (map (dtype_wrap dt) new) ++ drop (length new) old.

Definition store (new : list Z) (a : ndarray) : ndarray :=
  {| nd_shape := nd_shape a; nd_dtype := nd_dtype a;
     nd_data := overwrite (nd_dtype a) (nd_data a) new;
     nd_contiguous := nd_contiguous a; nd_writeable := nd_writeable a |}.

(** An array after a call that handed it over as the first buffer: what
    the native code wrote, if it wrote at all. *)
Definition written (outs : list (list Z)) (a : ndarray) : ndarray :=
  match outs with
  | o :: _ => store o a
  | [] => a
  end.

(** ** Python values *)

(** The values the binding is called with and returns.  Arrays are
    references into the store of numpy arrays. *)
Inductive pyval :=
| PyNone
| PyBool (b : bool)
| PyInt (z : Z)
| PyArr (l : nat).

Inductive exn :=
| ValueError
| TypeError
| AttributeError
| ArgumentError
| UnicodeEncodeError.

Inductive result (A : Type) :=
| Ok (a : A)
| Raise (e : exn).
Arguments Ok {A} a.
Arguments Raise {A} e.

(** What a foreign function of ctypes can be handed: a plain Python
    value, a [bytes] object, the ctypes array [as_ctypes(a)] sharing the
    memory of the numpy array [a], a [c_int] instance, or the ctypes scalar
    [as_ctypes] makes of a 0-dimensional array, a [c_ubyte] or a [c_int] by
    the element type, holding the element. *)
Inductive carg :=
| AVal (v : pyval)
| ABytes (bs : list Z)
| ACArray (l : nat)
| ACInt (z : Z)
| ACScalar (dt : dtype) (z : Z).

(** ** The C side of a call *)

Inductive ctype := c_void_p | c_int | c_bool | c_char_p.

(** What the native code receives for one parameter. *)
Inductive cval :=
| CInt (z : Z)
| CPtr (p : Z)
| CStr (bs : list Z)
| CBuf (l : nat) (dt : dtype) (data : list Z).

(** The symbols of [libfceux.so] the module refers to. *)
Inductive symbol :=
| N_NESInterface | N_act | N_gameOver | N_resetGame
| N_getNumLegalActions | N_getLegalActionSet
| N_getFrameNumber | N_lives | N_getEpisodeFrameNumber
| N_getScreenHeight | N_getScreenWidth | N_getScreen | N_fillRGBfromPalette
| N_getRAMSize | N_getRAM
| N_saveState | N_loadState
| N_cloneState | N_restoreState | N_cloneSystemState | N_restoreSystemState
| N_deleteState | N_encodeStateLen | N_encodeState | N_decodeState
| N_delete_NES.

#[global] Instance symbol_eq_dec : EqDecision symbol.
Proof. solve_decision. Defined.

Definition symbol_index (f : symbol) : nat :=
  match f with
  | N_NESInterface => 0
  | N_act => 1
  | N_gameOver => 2
  | N_resetGame => 3
  | N_getNumLegalActions => 4
  | N_getLegalActionSet => 5
  | N_getFrameNumber => 6
  | N_lives => 7
  | N_getEpisodeFrameNumber => 8
  | N_getScreenHeight => 9
  | N_getScreenWidth => 10
  | N_getScreen => 11
  | N_fillRGBfromPalette => 12
  | N_getRAMSize => 13
  | N_getRAM => 14
  | N_saveState => 15
  | N_loadState => 16
  | N_cloneState => 17
  | N_restoreState => 18
  | N_cloneSystemState => 19
  | N_restoreSystemState => 20
  | N_deleteState => 21
  | N_encodeStateLen => 22
  | N_encodeState => 23
  | N_decodeState => 24
  | N_delete_NES => 25
  end.

Definition symbol_at (n : nat) : option symbol :=
  match n with
  | 0 => Some N_NESInterface
  | 1 => Some N_act
  | 2 => Some N_gameOver
  | 3 => Some N_resetGame
  | 4 => Some N_getNumLegalActions
  | 5 => Some N_getLegalActionSet
  | 6 => Some N_getFrameNumber
  | 7 => Some N_lives
  | 8 => Some N_getEpisodeFrameNumber
  | 9 => Some N_getScreenHeight
  | 10 => Some N_getScreenWidth
  | 11 => Some N_getScreen
  | 12 => Some N_fillRGBfromPalette
  | 13 => Some N_getRAMSize
  | 14 => Some N_getRAM
  | 15 => Some N_saveState
  | 16 => Some N_loadState
  | 17 => Some N_cloneState
  | 18 => Some N_restoreState
  | 19 => Some N_cloneSystemState
  | 20 => Some N_restoreSystemState
  | 21 => Some N_deleteState
  | 22 => Some N_encodeStateLen
  | 23 => Some N_encodeState
  | 24 => Some N_decodeState
  | 25 => Some N_delete_NES
  | _ => None
  end%nat.

#[global] Instance symbol_countable : Countable symbol.
Proof.
  apply (inj_countable symbol_index symbol_at).
  intros f. destruct f; reflexivity.
Defined.

(** The prototype attributes of a ctypes function object.  Unset
    [argtypes] is [None]; the default [restype] is [c_int], and a [restype]
    of [None] stands for [void]. *)
Record fproto := {
  argtypes : option (list ctype);
  restype : option ctype
}.

Definition fproto_default : fproto :=
  {| argtypes := None; restype := Some c_int |}.

(** The outcome of running native code: the raw return register, the
    bytes written through each buffer parameter (in parameter order) and
    the library's new state. *)
Record nres (W : Type) := {
  n_ret : Z;
  n_out : list (list Z);
  n_world : W
}.
Arguments n_ret {W} _.
Arguments n_out {W} _.
Arguments n_world {W} _.

(** ** ctypes conversions *)

Definition int_of_bool (b : bool) : Z := if b then 1 else 0.

(** The pointer to the memory of array [l]. *)
Definition buffer_of (h : list ndarray) (l : nat) : result cval :=
  match h !! l with
  | Some a => Ok (CBuf l (nd_dtype a) (nd_data a))
  | None => Raise TypeError
  end.

(** [from_param] of a declared parameter type. *)
Definition from_param (h : list ndarray) (t : ctype) (a : carg) : result cval :=
  match t, a with
  | c_void_p, AVal PyNone => Ok (CPtr 0)
  | c_void_p, AVal (PyInt z) => Ok (CPtr (ptr_wrap z))
  | c_void_p, AVal (PyBool b) => Ok (CPtr (int_of_bool b))
  | c_void_p, ABytes bs => Ok (CStr bs)
  | c_void_p, ACArray l => buffer_of h l
  | c_int, AVal (PyInt z) => Ok (CInt (c_int_wrap z))
  | c_int, AVal (PyBool b) => Ok (CInt (int_of_bool b))
  | c_int, ACInt z => Ok (CInt z)
  | c_int, ACScalar int32 z => Ok (CInt z)
  | c_bool, AVal (PyBool b) => Ok (CInt (int_of_bool b))
  | c_bool, AVal (PyInt z) => Ok (CInt (int_of_bool (negb (z =? 0))))
  | c_char_p, AVal PyNone => Ok (CPtr 0)
  | c_char_p, ABytes bs => Ok (CStr bs)
  | _, _ => Raise ArgumentError
  end.

(** The conversion of an argument when no [argtypes] are declared:
    [None] is the null pointer, an integer is passed as a C [int] holding
    its low 32 bits, ctypes instances pass themselves: an array as the
    pointer to its memory, a scalar by value. *)
Definition default_param (h : list ndarray) (a : carg) : result cval :=
  match a with
  | AVal PyNone => Ok (CPtr 0)
  | AVal (PyInt z) =>
      if decide (-9223372036854775808 <= z < 18446744073709551616)
      then Ok (CInt (c_int_wrap z)) else Raise ArgumentError
  | AVal (PyBool b) => Ok (CInt (int_of_bool b))
  | AVal (PyArr _) => Raise ArgumentError
  | ABytes bs => Ok (CStr bs)
  | ACArray l => buffer_of h l
  | ACInt z => Ok (CInt z)
  | ACScalar _ z => Ok (CInt z)
  end.

Fixpoint marshal_typed (h : list ndarray) (ts : list ctype) (args : list carg)
  : result (list cval) :=
  match ts, args with
  | [], [] => Ok []
  | [], a :: args' =>
      match default_param h a, marshal_typed h [] args' with
      | Ok c, Ok cs => Ok (c :: cs)
      | Raise e, _ => Raise e
      | _, Raise e => Raise e
      end
  | _ :: _, [] => Raise TypeError
  | t :: ts', a :: args' =>
      match from_param h t a, marshal_typed h ts' args' with
      | Ok c, Ok cs => Ok (c :: cs)
      | Raise e, _ => Raise e
      | _, Raise e => Raise e
      end
  end.

Definition marshal (h : list ndarray) (p : fproto) (args : list carg)
  : result (list cval) :=
  match argtypes p with
  | Some ts => marshal_typed h ts args
  | None => marshal_typed h [] args
  end.

(** The conversion of the raw return value by [restype]. *)
Definition convert_result (rt : option ctype) (raw : Z) : pyval :=
  match rt with
  | None => PyNone
  | Some c_int => PyInt (c_int_wrap raw)
  | Some c_bool => PyBool (negb (raw mod 256 =? 0))
  | Some c_void_p => if ptr_wrap raw =? 0 then PyNone else PyInt (ptr_wrap raw)
  | Some c_char_p => if ptr_wrap raw =? 0 then PyNone else PyInt (ptr_wrap raw)
  end.

(** After the call, the memory of every array handed over as a buffer
    holds what the native code wrote into it. *)
Fixpoint write_back (cs : list cval) (outs : list (list Z)) (h : list ndarray)
  : list ndarray :=
  match cs with
  | [] => h
  | CBuf l _ _ :: cs' =>
      match outs with
      | o :: outs' => write_back cs' outs' (alter (store o) l h)
      | [] => h
      end
  | _ :: cs' => write_back cs' outs h
  end.

(** ** Python text *)

(** [str.encode('utf-8')] on a string given by its code points.  Lone
    surrogates and values outside Unicode cannot be encoded. *)
Definition utf8_char (c : Z) : option (list Z) :=
  if decide (0 <= c < 128) then Some [c]
  else if decide (128 <= c < 2048) then
    Some [192 + c / 64; 128 + c mod 64]
  else if decide (55296 <= c < 57344) then None
  else if decide (2048 <= c < 65536) then
    Some [224 + c / 4096; 128 + (c / 64) mod 64; 128 + c mod 64]
  else if decide (65536 <= c < 1114112) then
    Some [240 + c / 262144; 128 + (c / 4096) mod 64;
          128 + (c / 64) mod 64; 128 + c mod 64]
  else None.

Fixpoint utf8_encode (s : list Z) : option (list Z) :=
  match s with
  | [] => Some []
  | c :: s' =>
      match utf8_char c, utf8_encode s' with
      | Some bs, Some rest => Some (bs ++ rest)
      | _, _ => None
      end
  end.

(** ** The interpreter state and its monad *)

(** [n] zeroed elements, as [np.zeros] lays them out. *)
Definition zeros (n : Z) : list Z := repeat 0 (Z.to_nat n).

(** An instance of the class: [self.obj], and [self.width] and
    [self.height] once [__init__] has assigned them. *)
Record NESInterface := {
  obj : pyval;
  width : option pyval;
  height : option pyval
}.

(** A call that hands the native code a handle, a buffer and, as a C
    [int], the number [n] of elements of that buffer. *)
Definition sized_call (c : symbol * list cval) (n : Z) : Prop :=
  exists h l dt d, snd c = [h; CBuf l dt d; CInt n] /\ length d = Z.to_nat n.

(** ** Handles *)

(** The pointer a handle-valued attribute stands for: [None] is the null
    pointer, an integer within the width of a pointer is that address. *)
Definition handle_ptr (v : pyval) : option Z :=
  match v with
  | PyNone => Some 0
  | PyInt p => if decide (0 <= p < 18446744073709551616) then Some p else None
  | _ => None
  end.

(** What the native code receives for a handle passed to a function
    without declared [argtypes]. *)
Definition untyped_handle (v : pyval) : cval :=
  match v with
  | PyInt p => CInt (c_int_wrap p)
  | _ => CPtr 0
  end.

(** What the binding runs on: the state of the native library and the
    library itself, the content of freshly allocated uninitialised memory
    ([np.empty]) by allocation and offset, and whether numpy refuses the
    truth value of an empty array (it does from 2.2 on, and answers [False]
    before). *)
Class Platform := {
  World : Type;
  native : symbol -> list cval -> World -> nres World;
  uninit : nat -> nat -> Z;
  empty_truth_raises : bool
}.

Section Binding.

Context `{Platform}.

(** The state of the Python process: the numpy arrays by reference, the
    prototypes assigned so far to the function objects of [nes_lib], the
    state of the native library, and the native calls made so far. *)
Record pystate := {
  heap : list ndarray;
  ftab : gmap symbol fproto;
  world : World;
  calls : list (symbol * list cval)
}.

Definition proto_of (s : pystate) (f : symbol) : fproto :=
  default fproto_default (ftab s !! f).

Definition upd_proto (f : symbol) (p : fproto) (s : pystate) : pystate :=
  {| heap := heap s; ftab := <[f := p]> (ftab s);
     world := world s; calls := calls s |}.

Definition upd_heap (h : list ndarray) (s : pystate) : pystate :=
  {| heap := h; ftab := ftab s; world := world s; calls := calls s |}.

(** The state after the native code of [f] has run on [cs]. *)
Definition after_call (f : symbol) (cs : list cval) (s : pystate) : pystate :=
  {| heap := write_back cs (n_out (native f cs (world s))) (heap s);
     ftab := ftab s;
     world := n_world (native f cs (world s));
     calls := calls s ++ [(f, cs)] |}.

Definition M (A : Type) : Type := pystate -> result A * pystate.

Definition ret {A} (a : A) : M A := fun s => (Ok a, s).

Definition raise {A} (e : exn) : M A := fun s => (Raise e, s).

Definition bind {A B} (m : M A) (k : A -> M B) : M B :=
  fun s =>
    match m s with
    | (Ok a, s') => k a s'
    | (Raise e, s') => (Raise e, s')
    end.

Notation "'let!' x ':=' m 'in' k" := (bind m (fun x => k))
  (at level 10, x name, m at level 100, k at level 200).
Notation "m '>>' k" := (bind m (fun _ => k))
  (at level 100, k at level 200, right associativity).

(** The function objects whose prototype the module never assigns are
    as ctypes created them. *)
Definition undeclared (s : pystate) : Prop :=
  ftab s !! N_getRAMSize = None /\ ftab s !! N_getRAM = None /\
  ftab s !! N_cloneState = None /\ ftab s !! N_restoreState = None.

(** [nes_lib.f.argtypes = ts] and [nes_lib.f.restype = t]. *)
Definition set_argtypes (f : symbol) (ts : list ctype) : M unit :=
  fun s =>
    (Ok tt, upd_proto f {| argtypes := Some ts; restype := restype (proto_of s f) |} s).

Definition set_restype (f : symbol) (t : option ctype) : M unit :=
  fun s =>
    (Ok tt, upd_proto f {| argtypes := argtypes (proto_of s f); restype := t |} s).

(** [nes_lib.f(args)]: marshal by the current prototype of [f], run the
    native code, store what it wrote into the buffers, convert the result. *)
Definition foreign_call (f : symbol) (args : list carg) : M pyval :=
  fun s =>
    match marshal (heap s) (proto_of s f) args with
    | Raise e => (Raise e, s)
    | Ok cs =>
        (Ok (convert_result (restype (proto_of s f)) (n_ret (native f cs (world s)))),
         after_call f cs s)
    end.

(** *** numpy and builtins *)

Definition alloc (a : ndarray) : M pyval :=
  fun s => (Ok (PyArr (length (heap s))), upd_heap (heap s ++ [a]) s).

Definition fresh (sh : list Z) (dt : dtype) (d : list Z) : ndarray :=
  {| nd_shape := sh; nd_dtype := dt; nd_data := d;
     nd_contiguous := true; nd_writeable := true |}.

Definition shape_size (sh : list Z) : Z := fold_right Z.mul 1 sh.

(** A dimension of a shape must be an integer. *)
Definition dim_of (v : pyval) : result Z :=
  match v with
  | PyInt z => Ok z
  | PyBool b => Ok (int_of_bool b)
  | _ => Raise TypeError
  end.

Fixpoint dims_of (vs : list pyval) : result (list Z) :=
  match vs with
  | [] => Ok []
  | v :: vs' =>
      match dim_of v, dims_of vs' with
      | Ok d, Ok ds => Ok (d :: ds)
      | Raise e, _ => Raise e
      | _, Raise e => Raise e
      end
  end.

Definition nonneg_shape (sh : list Z) : bool := forallb (fun d => 0 <=? d) sh.

(** [np.zeros(shape, dtype)] *)
Definition np_zeros (shape : list pyval) (dt : dtype) : M pyval :=
  match dims_of shape with
  | Raise e => raise e
  | Ok sh =>
      if nonneg_shape sh
      then alloc (fresh sh dt (repeat 0 (Z.to_nat (shape_size sh))))
      else raise ValueError
  end.

(** What [n] elements of uninitialised memory read as, for the array
    allocated as number [l]. *)
Definition garbage (dt : dtype) (l : nat) (n : Z) : list Z :=
  map (fun i => dtype_wrap dt (uninit l i)) (seq 0 (Z.to_nat n)).

(** [np.empty(shape, dtype)]: the memory is not initialised. *)
Definition np_empty (shape : list pyval) (dt : dtype) : M pyval :=
  match dims_of shape with
  | Raise e => raise e
  | Ok sh =>
      if nonneg_shape sh
      then fun s => alloc (fresh sh dt (garbage dt (length (heap s)) (shape_size sh))) s
      else raise ValueError
  end.

Definition deref (l : nat) : M ndarray :=
  fun s =>
    match heap s !! l with
    | Some a => (Ok a, s)
    | None => (Raise AttributeError, s)
    end.

(** [numpy.ctypeslib.as_ctypes(v)]: a strided or read-only array is
    refused; an array of one dimension or more gives a ctypes array on its
    memory, a 0-dimensional array the ctypes scalar of its element. *)
Definition as_ctypes (v : pyval) : M carg :=
  match v with
  | PyArr l =>
      let! a := deref l in
      if nd_contiguous a && nd_writeable a then
        match nd_shape a with
        | [] => ret (ACScalar (nd_dtype a) (hd 0 (nd_data a)))
        | _ :: _ => ret (ACArray l)
        end
      else raise TypeError
  | _ => raise AttributeError
  end.

(** [v.size] *)
Definition py_size (v : pyval) : M pyval :=
  match v with
  | PyArr l => let! a := deref l in ret (PyInt (nd_size a))
  | _ => raise AttributeError
  end.

(** [len(v)] *)
Definition py_len (v : pyval) : M pyval :=
  match v with
  | PyArr l =>
      let! a := deref l in
      match nd_shape a with
      | d :: _ => ret (PyInt d)
      | [] => raise TypeError
      end
  | _ => raise TypeError
  end.

(** [int(v)] *)
Definition py_int (v : pyval) : M pyval :=
  match v with
  | PyInt z => ret (PyInt z)
  | PyBool b => ret (PyInt (int_of_bool b))
  | PyArr l =>
      let! a := deref l in
      match nd_data a with
      | [x] => ret (PyInt x)
      | _ => raise TypeError
      end
  | PyNone => raise TypeError
  end.

(** [v * w] on numbers *)
Definition py_mul (v w : pyval) : M pyval :=
  match dim_of v, dim_of w with
  | Ok a, Ok b => ret (PyInt (a * b))
  | _, _ => raise TypeError
  end.

(** [c_int(v)] *)
Definition mk_c_int (v : pyval) : M carg :=
  match v with
  | PyInt z => ret (ACInt (c_int_wrap z))
  | PyBool b => ret (ACInt (int_of_bool b))
  | _ => raise TypeError
  end.

(** [v is None] *)
Definition is_None (v : pyval) : bool :=
  match v with
  | PyNone => true
  | _ => false
  end.

(** The truth value of [v == None], as an [if] takes it.  On an array the
    comparison is elementwise: its result has the array's shape and is
    [False] everywhere, and only an array of one element has a truth
    value. *)
Definition eq_None_truth (v : pyval) : M bool :=
  match v with
  | PyNone => ret true
  | PyBool _ | PyInt _ => ret false
  | PyArr l =>
      let! a := deref l in
      match nd_data a with
      | [] => if empty_truth_raises then raise ValueError else ret false
      | [_] => ret false
      | _ :: _ :: _ => raise ValueError
      end
  end.

(** [self.name] for an attribute that [__init__] assigns late. *)
Definition attr (o : option pyval) : M pyval :=
  match o with
  | Some v => ret v
  | None => raise AttributeError
  end.

(** ** The methods of [NESInterface] *)

Definition getScreenDims (self : NESInterface) : M (pyval * pyval) :=
  set_argtypes N_getScreenHeight [c_void_p] >>
  set_restype N_getScreenHeight (Some c_int) >>
  set_argtypes N_getScreenWidth [c_void_p] >>
  set_restype N_getScreenWidth (Some c_int) >>
  let! width := foreign_call N_getScreenWidth [AVal (obj self)] in
  let! height := foreign_call N_getScreenHeight [AVal (obj self)] in
  ret (width, height).

Definition init (rom : list Z) : M NESInterface :=
  set_argtypes N_NESInterface [c_char_p] >>
  set_restype N_NESInterface (Some c_void_p) >>
  let! byte_string_rom :=
    match utf8_encode rom with
    | Some bs => ret bs
    | None => raise UnicodeEncodeError
    end in
  let! o := foreign_call N_NESInterface [ABytes byte_string_rom] in
  let! dims := getScreenDims {| obj := o; width := None; height := None |} in
  ret {| obj := o; width := Some (fst dims); height := Some (snd dims) |}.

Definition act (self : NESInterface) (action : pyval) : M pyval :=
  set_argtypes N_act [c_void_p; c_int] >>
  set_restype N_act (Some c_int) >>
  let! a := py_int action in
  foreign_call N_act [AVal (obj self); AVal a].

Definition game_over (self : NESInterface) : M pyval :=
  set_argtypes N_gameOver [c_void_p] >>
  set_restype N_gameOver (Some c_bool) >>
  foreign_call N_gameOver [AVal (obj self)].

Definition reset_game (self : NESInterface) : M pyval :=
  set_argtypes N_resetGame [c_void_p] >>
  set_restype N_resetGame None >>
  foreign_call N_resetGame [AVal (obj self)] >>
  ret PyNone.

Definition getLegalActionSet (self : NESInterface) : M pyval :=
  set_argtypes N_getNumLegalActions [c_void_p] >>
  set_restype N_getNumLegalActions (Some c_int) >>
  let! act_size := foreign_call N_getNumLegalActions [AVal (obj self)] in
  let! act := np_zeros [act_size] int32 in
  set_argtypes N_getLegalActionSet [c_void_p; c_void_p] >>
  set_restype N_getLegalActionSet None >>
  let! b := as_ctypes act in
  foreign_call N_getLegalActionSet [AVal (obj self); b] >>
  ret act.

Definition getMinimalActionSet (self : NESInterface) : M pyval :=
  getLegalActionSet self.

Definition getFrameNumber (self : NESInterface) : M pyval :=
  set_argtypes N_getFrameNumber [c_void_p] >>
  set_restype N_getFrameNumber (Some c_int) >>
  foreign_call N_getFrameNumber [AVal (obj self)].

Definition lives (self : NESInterface) : M pyval :=
  set_argtypes N_lives [c_void_p] >>
  set_restype N_lives (Some c_int) >>
  foreign_call N_lives [AVal (obj self)].

Definition getEpisodeFrameNumber (self : NESInterface) : M pyval :=
  set_argtypes N_getEpisodeFrameNumber [c_void_p] >>
  set_restype N_getEpisodeFrameNumber (Some c_int) >>
  foreign_call N_getEpisodeFrameNumber [AVal (obj self)].

Definition getScreen (self : NESInterface) (screen_data : pyval) : M pyval :=
  let! screen_data :=
    if is_None screen_data then
      let! w := attr (width self) in
      let! h := attr (height self) in
      let! n := py_mul w h in
      np_zeros [n] uint8
    else ret screen_data in
  set_argtypes N_getScreen [c_void_p; c_void_p; c_int] >>
  set_restype N_getScreen None >>
  let! b := as_ctypes screen_data in
  let! n := py_size screen_data in
  let! size := mk_c_int n in
  foreign_call N_getScreen [AVal (obj self); b; size] >>
  ret screen_data.

Definition getScreenRBG (self : NESInterface) (screen_data : pyval) : M pyval :=
  let! screen_data :=
    if is_None screen_data then
      let! h := attr (height self) in
      let! w := attr (width self) in
      np_empty [h; w; PyInt 1] uint8
    else ret screen_data in
  set_argtypes N_getScreen [c_void_p; c_void_p; c_int] >>
  set_restype N_getScreen None >>
  let! b := as_ctypes screen_data in
  let! n := py_size screen_data in
  let! size := mk_c_int n in
  foreign_call N_getScreen [AVal (obj self); b; size] >>
  let! h := attr (height self) in
  let! w := attr (width self) in
  let! rgb_screen := np_empty [h; w; PyInt 3] uint8 in
  set_argtypes N_fillRGBfromPalette [c_void_p; c_void_p; c_void_p; c_int] >>
  set_restype N_fillRGBfromPalette None >>
  let! b := as_ctypes screen_data in
  let! rgb := as_ctypes rgb_screen in
  let! n := py_size screen_data in
  let! size := mk_c_int n in
  foreign_call N_fillRGBfromPalette [AVal (obj self); b; rgb; size] >>
  ret rgb_screen.

Definition getRAMSize (self : NESInterface) : M pyval :=
  foreign_call N_getRAMSize [AVal (obj self)].

Definition getRAM (self : NESInterface) (ram : pyval) : M pyval :=
  let! ram :=
    if is_None ram then
      let! ram_size := foreign_call N_getRAMSize [AVal (obj self)] in
      np_zeros [ram_size] uint8
    else ret ram in
  let! b := as_ctypes ram in
  foreign_call N_getRAM [AVal (obj self); b] >>
  ret ram.

Definition saveState (self : NESInterface) : M pyval :=
  set_argtypes N_saveState [c_void_p] >>
  set_restype N_saveState None >>
  foreign_call N_saveState [AVal (obj self)].

Definition loadState (self : NESInterface) : M pyval :=
  set_argtypes N_loadState [c_void_p] >>
  set_restype N_loadState (Some c_bool) >>
  foreign_call N_loadState [AVal (obj self)].

Definition cloneState (self : NESInterface) : M pyval :=
  foreign_call N_cloneState [AVal (obj self)].

Definition restoreState (self : NESInterface) (state : pyval) : M pyval :=
  foreign_call N_restoreState [AVal (obj self); AVal state] >>
  ret PyNone.

Definition cloneSystemState (self : NESInterface) : M pyval :=
  foreign_call N_cloneSystemState [AVal (obj self)].

Definition restoreSystemState (self : NESInterface) (state : pyval) : M pyval :=
  foreign_call N_restoreSystemState [AVal (obj self); AVal state] >>
  ret PyNone.

Definition deleteState (self : NESInterface) (state : pyval) : M pyval :=
  foreign_call N_deleteState [AVal state] >>
  ret PyNone.

Definition encodeStateLen (self : NESInterface) (state : pyval) : M pyval :=
  foreign_call N_encodeStateLen [AVal state].

Definition encodeState (self : NESInterface) (state buf : pyval) : M pyval :=
  let! c := eq_None_truth buf in
  let! buf :=
    if c then
      let! length := foreign_call N_encodeStateLen [AVal state] in
      np_zeros [length] uint8
    else ret buf in
  let! b := as_ctypes buf in
  let! n := py_len buf in
  let! size := mk_c_int n in
  foreign_call N_encodeState [AVal state; b; size] >>
  ret PyNone.

Definition decodeState (self : NESInterface) (serialized : pyval) : M pyval :=
  let! b := as_ctypes serialized in
  let! n := py_len serialized in
  foreign_call N_decodeState [b; AVal n].

Definition __del__ (self : NESInterface) : M pyval :=
  set_argtypes N_delete_NES [c_void_p] >>
  set_restype N_delete_NES None >>
  foreign_call N_delete_NES [AVal (obj self)] >>
  ret PyNone.

(** *** [getScreenGrayscale] *)

(** [getScreenGrayscale] hands over a slice of its buffer,
    [screen_data[:]], and the slice of a 0-dimensional array raises
    [IndexError], which nothing else in the module raises: the method runs
    in the monad of the others extended by that exception. *)
Inductive exn_sliced :=
| Std (e : exn)
| IndexError.

Inductive sliced (A : Type) :=
| Fine (a : A)
| Failed (e : exn_sliced).
Arguments Fine {A} a.
Arguments Failed {A} e.

Definition MS (A : Type) : Type := pystate -> sliced A * pystate.

Definition lift {A} (m : M A) : MS A :=
  fun s =>
    match m s with
    | (Ok a, s') => (Fine a, s')
    | (Raise e, s') => (Failed (Std e), s')
    end.

Definition bindS {A B} (m : MS A) (k : A -> MS B) : MS B :=
  fun s =>
    match m s with
    | (Fine a, s') => k a s'
    | (Failed e, s') => (Failed e, s')
    end.

(** [v[:]].  The full slice of an array is a view on the same memory with
    the shape and the flags of the array; arrays are held by reference, and
    the view is that reference.  Nothing but an array can be sliced here. *)
Definition slice_all (v : pyval) : MS pyval :=
  match v with
  | PyArr l =>
      bindS (lift (deref l)) (fun a =>
        match nd_shape a with
        | [] => fun s => (Failed IndexError, s)
        | _ :: _ => lift (ret (PyArr l))
        end)
  | _ => lift (raise TypeError)
  end.

Definition getScreenGrayscale (self : NESInterface) (screen_data : pyval)
  : MS pyval :=
  bindS (lift (if is_None screen_data then
                 let! h := attr (height self) in
                 let! w := attr (width self) in
                 np_empty [h; w; PyInt 1] uint8
               else ret screen_data)) (fun screen_data =>
  bindS (lift (set_argtypes N_getScreen [c_void_p; c_void_p; c_int])) (fun _ =>
  bindS (lift (set_restype N_getScreen None)) (fun _ =>
  bindS (slice_all screen_data) (fun view =>
  bindS (lift (as_ctypes view)) (fun b =>
  bindS (lift (py_size screen_data)) (fun n =>
  bindS (lift (mk_c_int n)) (fun size =>
  bindS (lift (foreign_call N_getScreen [AVal (obj self); b; size])) (fun _ =>
  lift (ret screen_data))))))))).

(** ** The class as a whole *)

(** A call of a method of an instance, with its arguments.
    ([saveScreenPNG], which takes a file name, is not among them.) *)
Inductive call :=
| Call_act (action : pyval)
| Call_game_over
| Call_reset_game
| Call_getLegalActionSet
| Call_getMinimalActionSet
| Call_getFrameNumber
| Call_lives
| Call_getEpisodeFrameNumber
| Call_getScreenDims
| Call_getScreen (screen_data : pyval)
| Call_getScreenRBG (screen_data : pyval)
| Call_getScreenGrayscale (screen_data : pyval)
| Call_getRAMSize
| Call_getRAM (ram : pyval)
| Call_saveState
| Call_loadState
| Call_cloneState
| Call_restoreState (state : pyval)
| Call_cloneSystemState
| Call_restoreSystemState (state : pyval)
| Call_deleteState (state : pyval)
| Call_encodeStateLen (state : pyval)
| Call_encodeState (state buf : pyval)
| Call_decodeState (serialized : pyval)
| Call_del.

(** The process after a call, whether it returned or raised. *)
Definition effect (self : NESInterface) (c : call) (s : pystate) : pystate :=
  match c with
  | Call_act action => snd (act self action s)
  | Call_game_over => snd (game_over self s)
  | Call_reset_game => snd (reset_game self s)
  | Call_getLegalActionSet => snd (getLegalActionSet self s)
  | Call_getMinimalActionSet => snd (getMinimalActionSet self s)
  | Call_getFrameNumber => snd (getFrameNumber self s)
  | Call_lives => snd (lives self s)
  | Call_getEpisodeFrameNumber => snd (getEpisodeFrameNumber self s)
  | Call_getScreenDims => snd (getScreenDims self s)
  | Call_getScreen screen_data => snd (getScreen self screen_data s)
  | Call_getScreenRBG screen_data => snd (getScreenRBG self screen_data s)
  | Call_getScreenGrayscale screen_data => snd (getScreenGrayscale self screen_data s)
  | Call_getRAMSize => snd (getRAMSize self s)
  | Call_getRAM ram => snd (getRAM self ram s)
  | Call_saveState => snd (saveState self s)
  | Call_loadState => snd (loadState self s)
  | Call_cloneState => snd (cloneState self s)
  | Call_restoreState state => snd (restoreState self state s)
  | Call_cloneSystemState => snd (cloneSystemState self s)
  | Call_restoreSystemState state => snd (restoreSystemState self state s)
  | Call_deleteState state => snd (deleteState self state s)
  | Call_encodeStateLen state => snd (encodeStateLen self state s)
  | Call_encodeState state buf => snd (encodeState self state buf s)
  | Call_decodeState serialized => snd (decodeState self serialized s)
  | Call_del => snd (__del__ self s)
  end.

(** Any use of an instance: one call after the other. *)
Definition effects (self : NESInterface) (cs : list call) (s : pystate) : pystate :=
  fold_left (fun s c => effect self c s) cs s.

(** The calls that hand the native code numbers and handles only. *)
Definition scalar (c : call) : bool :=
  match c with
  | Call_act _ | Call_game_over | Call_reset_game
  | Call_getFrameNumber | Call_lives | Call_getEpisodeFrameNumber
  | Call_getScreenDims | Call_getRAMSize
  | Call_saveState | Call_loadState
  | Call_cloneState | Call_restoreState _
  | Call_cloneSystemState | Call_restoreSystemState _
  | Call_deleteState _ | Call_encodeStateLen _ | Call_del => true
  | _ => false
  end.

(** The symbols the module calls without ever assigning them a
    prototype. *)
Definition never_declared : list symbol :=
  [N_getRAMSize; N_getRAM; N_cloneState; N_restoreState; N_cloneSystemState;
   N_restoreSystemState; N_deleteState; N_encodeStateLen; N_encodeState;
   N_decodeState].

(** The prototype the module assigns to a symbol, wherever it assigns
    one. *)
Definition module_proto (f : symbol) : option fproto :=
  match f with
  | N_NESInterface =>
      Some {| argtypes := Some [c_char_p]; restype := Some c_void_p |}
  | N_act => Some {| argtypes := Some [c_void_p; c_int]; restype := Some c_int |}
  | N_gameOver | N_loadState =>
      Some {| argtypes := Some [c_void_p]; restype := Some c_bool |}
  | N_resetGame | N_saveState | N_delete_NES =>
      Some {| argtypes := Some [c_void_p]; restype := None |}
  | N_getNumLegalActions | N_getFrameNumber | N_lives | N_getEpisodeFrameNumber
  | N_getScreenHeight | N_getScreenWidth =>
      Some {| argtypes := Some [c_void_p]; restype := Some c_int |}
  | N_getLegalActionSet =>
      Some {| argtypes := Some [c_void_p; c_void_p]; restype := None |}
  | N_getScreen =>
      Some {| argtypes := Some [c_void_p; c_void_p; c_int]; restype := None |}
  | N_fillRGBfromPalette =>
      Some {| argtypes := Some [c_void_p; c_void_p; c_void_p; c_int];
              restype := None |}
  | N_getRAMSize | N_getRAM | N_cloneState | N_restoreState | N_cloneSystemState
  | N_restoreSystemState | N_deleteState | N_encodeStateLen | N_encodeState
  | N_decodeState => None
  end.

(** The prototype of [f] is as it was, or it is the module's. *)
Definition declared_or_same (f : symbol) (s s' : pystate) : Prop :=
  ftab s' !! f = ftab s !! f \/ ftab s' !! f = module_proto f.

(** The process as ctypes leaves it when nobody assigns these symbols a
    prototype. *)
Definition unset (s : pystate) : Prop :=
  Forall (fun f => ftab s !! f = None) never_declared.

(** A relation between the process before and after that a computation
    keeps, however it ends. *)
Definition keeps {A} (R : pystate -> pystate -> Prop) (m : pystate -> A * pystate)
  : Prop :=
  forall s, R s (snd (m s)).

(** The prototype of [f] is as it was; the arrays are as they were. *)
Definition same_proto (f : symbol) (s s' : pystate) : Prop :=
  ftab s' !! f = ftab s !! f.

Definition same_heap (s s' : pystate) : Prop := heap s' = heap s.

(** A computation that leaves the process as it is. *)
Definition inert {A} (m : M A) : Prop := forall s, snd (m s) = s.

(** ** What a caller observes *)

(** The elements of the array a method returned. *)
Definition contents (v : pyval) : M (list Z) :=
  match v with
  | PyArr l => let! a := deref l in ret (nd_data a)
  | _ => raise TypeError
  end.

(** RAM, frame buffer and action set, each read into a new array. *)
Definition read_ram (self : NESInterface) : M (list Z) :=
  let! ram := getRAM self PyNone in
  contents ram.

Definition read_screen (self : NESInterface) : M (list Z) :=
  let! screen := getScreen self PyNone in
  contents screen.

Definition read_actions (self : NESInterface) : M (list Z) :=
  let! acts := getLegalActionSet self in
  contents acts.

Definition observe (self : NESInterface) : M (list Z * list Z * list Z) :=
  let! r := read_ram self in
  let! s := read_screen self in
  let! a := read_actions self in
  ret (r, s, a).

(** A sequence of [act] calls. *)
Fixpoint play (self : NESInterface) (actions : list Z) : M unit :=
  match actions with
  | [] => ret tt
  | a :: rest => act self (PyInt a) >> play self rest
  end.

(** A sequence of [act] calls, with the reward, the frame buffer and the
    RAM read after every step. *)
Fixpoint episode (self : NESInterface) (actions : list Z)
  : M (list (pyval * list Z * list Z)) :=
  match actions with
  | [] => ret []
  | a :: rest =>
      let! reward := act self (PyInt a) in
      let! s := read_screen self in
      let! r := read_ram self in
      let! tl := episode self rest in
      ret ((reward, s, r) :: tl)
  end.

(** A fresh instance on a ROM, driven through a sequence of actions. *)
Definition session (rom : list Z) (actions : list Z)
  : M (list (pyval * list Z * list Z)) :=
  let! self := init rom in
  episode self actions.

(** [restoreState(cloneState())] *)
Definition restore_clone (self : NESInterface) : M pyval :=
  let! state := cloneState self in
  restoreState self state.

(** A snapshot restored at once, and restored after further actions. *)
Definition restore_now (self : NESInterface) : M (list Z * list Z * list Z) :=
  let! state := cloneState self in
  restoreState self state >>
  observe self.

Definition restore_later (self : NESInterface) (actions : list Z)
  : M (list Z * list Z * list Z) :=
  let! state := cloneState self in
  play self actions >>
  restoreState self state >>
  observe self.

(** [decodeState(encodeState(state))] *)
Definition decode_encode (self : NESInterface) (state : pyval) : M pyval :=
  let! bytes := encodeState self state PyNone in
  decodeState self bytes.

End Binding.

Arguments pystate {_}.
Arguments M {_} A.
Arguments MS {_} A.
Arguments Fine {A} a.
Arguments Failed {A} e.

(** * The emulator core behind the C surface *)

Module Core.

(** Modelled from the spec: the processor state of the native emulator
    core, which is not among the Python sources (data model: program
    counter, stack pointer, accumulator, index registers, status flags,
    cycle counter). *)
Record CpuState := {
  pc : Z; sp : Z; acc : Z; ix : Z; iy : Z; status : Z; cycles : Z
}.

(** Modelled from the spec: the picture unit's state of the missing
    native core (scanline and dot counters, pattern, nametable and palette
    memory, object-attribute memory, internal latches). *)
Record PpuState := {
  scanline : Z; dot : Z;
  pattern : list Z; nametable : list Z; palette : list Z;
  oam : list Z; latches : list Z
}.

(** Modelled from the spec: the live state of one emulator instance of the
    missing native core: processor, system RAM, picture unit and the
    mapper's bank registers. *)
Record Machine := {
  cpu : CpuState;
  ram : list Z;
  ppu : PpuState;
  mapper : list Z
}.

(** Modelled from the spec: a snapshot of the missing native core, a
    versioned blob holding its own copy of processor state, RAM, picture
    unit state and mapper state. *)
Record Snapshot := {
  snap_version : Z;
  snap_cpu : CpuState;
  snap_ram : list Z;
  snap_ppu : PpuState;
  snap_mapper : list Z
}.

(** Modelled from the spec: one emulator instance of the missing native
    core: its live state and its frame buffer, the pixel-index bytes of the
    last completed frame, a datum of its own that stays as it is until the
    next frame overwrites it and that no snapshot holds. *)
Record Emulator := {
  live : Machine;
  frame : list Z
}.

(** Modelled from the spec: the parts of the missing native core the
    specification names without defining them: the cartridge loader with
    power-up and its initial frame ([load], failing on a bad header or
    mapper), one action applied and one frame run, with the completed frame
    buffer and the reward ([step]), the palette resolution of a pixel index
    into its RGB triple ([resolve]), the screen dimensions, the actions, the
    terminal signal, and the allocator that places a new object at an
    address not in use, never the null pointer ([allocate]; handles are
    opaque).  System RAM has a fixed size. *)
Class Components := {
  load : list Z -> option Emulator;
  step : Z -> Machine -> Emulator * Z;
  resolve : PpuState -> Z -> list Z;
  screen_width : Z;
  screen_height : Z;
  legal_actions : Machine -> list Z;
  is_over : Machine -> bool;
  allocate : gset Z -> Z;
  step_ram_size : forall a m, length (ram (live (fst (step a m)))) = length (ram m);
  allocate_fresh : forall used, allocate used ∉ used;
  allocate_nonnull : forall used, allocate used <> 0
}.

(** Modelled from the spec: the format version the snapshots of the
    missing native core are tagged with. *)
Definition format_version : Z := 1.

(** Modelled from the spec: [capture] of the snapshot manager of the
    missing native core copies the four parts of the live state. *)
Definition capture (m : Machine) : Snapshot :=
  {| snap_version := format_version;
     snap_cpu := cpu m; snap_ram := ram m;
     snap_ppu := ppu m; snap_mapper := mapper m |}.

(** Modelled from the spec: [restore] of the snapshot manager of the
    missing native core refuses a snapshot whose version or memory size
    does not match, and otherwise overwrites all live state at once. *)
Definition restore (m : Machine) (s : Snapshot) : option Machine :=
  if decide (snap_version s = format_version /\ length (snap_ram s) = length (ram m))
  then Some {| cpu := snap_cpu s; ram := snap_ram s;
               ppu := snap_ppu s; mapper := snap_mapper s |}
  else None.

(** Modelled from the spec: the state of the missing native library: the
    instances and the snapshots it has handed out, each owned under its
    handle, the address it lives at.  There is no state shared between
    instances. *)
Record library := {
  instances : gmap Z Emulator;
  snapshots : gmap Z Snapshot
}.

(** Modelled from the spec: the addresses in use in the missing native
    library. *)
Definition used (w : library) : gset Z := dom (instances w) ∪ dom (snapshots w).

(** Modelled from the spec: how the missing native core reads a handle
    parameter: a pointer as it is, a C [int] widened to the register. *)
Definition handle_of (c : cval) : option Z :=
  match c with
  | CPtr p => Some p
  | CInt z => Some (ptr_wrap z)
  | _ => None
  end.

(** Modelled from the spec: the instance of the missing native core a
    handle parameter names, if any. *)
Definition instance (w : library) (c : cval) : option (Z * Emulator) :=
  match handle_of c with
  | Some k => match instances w !! k with
              | Some i => Some (k, i)
              | None => None
              end
  | None => None
  end.

(** Modelled from the spec: the snapshot of the missing native core a
    handle parameter names, if any. *)
Definition snapshot (w : library) (c : cval) : option Snapshot :=
  match handle_of c with
  | Some k => snapshots w !! k
  | None => None
  end.

(** Modelled from the spec: an operation of the missing native core that
    returns a value, writes no buffer and may change the library state. *)
Definition reply (r : Z) (w : library) : nres library :=
  {| n_ret := r; n_out := []; n_world := w |}.

(** Modelled from the spec: an operation of the missing native core that
    fills the caller's buffer and leaves the library state alone. *)
Definition fill (out : list Z) (w : library) : nres library :=
  {| n_ret := 0; n_out := [out]; n_world := w |}.

(** Modelled from the spec: one instance of the missing native core
    replaced, every other instance and snapshot untouched. *)
Definition set_instance (k : Z) (i : Emulator) (w : library) : library :=
  {| instances := <[k := i]> (instances w); snapshots := snapshots w |}.

Section Surface.

Context `{Components}.

(** Modelled from the spec: [create(romPath) -> handle] of the missing
    native core; the null handle when the ROM does not load. *)
Definition create (args : list cval) (w : library) : nres library :=
  match args with
  | [CStr path] =>
      match load path with
      | Some i => reply (allocate (used w)) (set_instance (allocate (used w)) i w)
      | None => reply 0 w
      end
  | _ => reply 0 w
  end.

(** Modelled from the spec: [act(handle, actionIndex) -> reward] of the
    missing native core: the action is applied, one frame is run, and the
    frame buffer is the frame just completed. *)
Definition do_act (args : list cval) (w : library) : nres library :=
  match args with
  | [h; CInt a] =>
      match instance w h with
      | Some (k, i) =>
          reply (snd (step a (live i))) (set_instance k (fst (step a (live i))) w)
      | None => reply 0 w
      end
  | _ => reply 0 w
  end.

(** Modelled from the spec: a query of the missing native core that
    reads the live state of one instance and answers with an integer. *)
Definition query (q : Machine -> Z) (args : list cval) (w : library) : nres library :=
  match args with
  | [h] =>
      match instance w h with
      | Some (_, i) => reply (q (live i)) w
      | None => reply 0 w
      end
  | _ => reply 0 w
  end.

(** Modelled from the spec: [getScreen(handle, outBuffer, bufferSize)] of
    the missing native core: at most [bufferSize] palette-index bytes of the
    frame buffer. *)
Definition get_screen (args : list cval) (w : library) : nres library :=
  match args with
  | [h; CBuf _ _ _; CInt n] =>
      match instance w h with
      | Some (_, i) => fill (take (Z.to_nat n) (frame i)) w
      | None => reply 0 w
      end
  | _ => reply 0 w
  end.

(** Modelled from the spec: the palette resolution behind
    [getScreenRGB(...)] of the missing native core: the pixel indices in the
    first buffer, at most the size given, are resolved into RGB triples
    written to the second; the first is not written. *)
Definition fill_rgb (args : list cval) (w : library) : nres library :=
  match args with
  | [h; CBuf _ _ indices; CBuf _ _ _; CInt n] =>
      match instance w h with
      | Some (_, i) =>
          {| n_ret := 0;
             n_out := [[]; flat_map (resolve (ppu (live i))) (take (Z.to_nat n) indices)];
             n_world := w |}
      | None => reply 0 w
      end
  | _ => reply 0 w
  end.

(** Modelled from the spec: [getRAM(handle, outBuffer)] and
    [getLegalActions(handle, outBuffer)] of the missing native core. *)
Definition get_buffer (q : Machine -> list Z) (args : list cval) (w : library)
  : nres library :=
  match args with
  | [h; CBuf _ _ _] =>
      match instance w h with
      | Some (_, i) => fill (q (live i)) w
      | None => reply 0 w
      end
  | _ => reply 0 w
  end.

(** Modelled from the spec: [cloneState] of the missing native core: the
    captured snapshot is stored at an address of its own. *)
Definition clone_state (args : list cval) (w : library) : nres library :=
  match args with
  | [h] =>
      match instance w h with
      | Some (_, i) =>
          reply (allocate (used w))
            {| instances := instances w;
               snapshots := <[allocate (used w) := capture (live i)]> (snapshots w) |}
      | None => reply 0 w
      end
  | _ => reply 0 w
  end.

(** Modelled from the spec: [restoreState] of the missing native core: on
    an unknown handle or an incompatible snapshot nothing is changed;
    otherwise all live state is overwritten, and the frame buffer, which is
    no part of a snapshot, stays. *)
Definition restore_state (args : list cval) (w : library) : nres library :=
  match args with
  | [h; s] =>
      match instance w h, snapshot w s with
      | Some (k, i), Some sn =>
          match restore (live i) sn with
          | Some m' => reply 0 (set_instance k {| live := m'; frame := frame i |} w)
          | None => reply 0 w
          end
      | _, _ => reply 0 w
      end
  | _ => reply 0 w
  end.

(** Modelled from the spec: [deleteState] of the missing native core. *)
Definition delete_state (args : list cval) (w : library) : nres library :=
  match args with
  | [s] =>
      match handle_of s with
      | Some k =>
          reply 0 {| instances := instances w; snapshots := delete k (snapshots w) |}
      | None => reply 0 w
      end
  | _ => reply 0 w
  end.

(** Modelled from the spec: [destroy(handle)] of the missing native
    core. *)
Definition destroy (args : list cval) (w : library) : nres library :=
  match args with
  | [h] =>
      match handle_of h with
      | Some k =>
          reply 0 {| instances := delete k (instances w); snapshots := snapshots w |}
      | None => reply 0 w
      end
  | _ => reply 0 w
  end.

(** Modelled from the spec: the C-callable surface of the missing native
    core, by symbol.  The operations the specification does not describe
    answer zero and change nothing. *)
Definition surface (f : symbol) (args : list cval) (w : library) : nres library :=
  match f with
  | N_NESInterface => create args w
  | N_act => do_act args w
  | N_gameOver => query (fun m => int_of_bool (is_over m)) args w
  | N_getNumLegalActions => query (fun m => Z.of_nat (length (legal_actions m))) args w
  | N_getLegalActionSet => get_buffer legal_actions args w
  | N_getScreenWidth => query (fun _ => screen_width) args w
  | N_getScreenHeight => query (fun _ => screen_height) args w
  | N_getScreen => get_screen args w
  | N_fillRGBfromPalette => fill_rgb args w
  | N_getRAMSize => query (fun m => Z.of_nat (length (ram m))) args w
  | N_getRAM => get_buffer ram args w
  | N_cloneState => clone_state args w
  | N_restoreState => restore_state args w
  | N_deleteState => delete_state args w
  | N_delete_NES => destroy args w
  | _ => reply 0 w
  end.

(** Modelled from the spec: the binding run on the missing native core. *)
Definition platform (u : nat -> nat -> Z) (e : bool) : Platform :=
  {| World := library; native := surface; uninit := u; empty_truth_raises := e |}.

(** *** What the binding shows of an instance *)

(** An instance after a sequence of actions. *)
Fixpoint advance (actions : list Z) (i : Emulator) : Emulator :=
  match actions with
  | [] => i
  | a :: rest => advance rest (fst (step (c_int_wrap a) (live i)))
  end.

(** An instance whose live state was put back to what it was before a
    sequence of actions: the frame buffer is that of the last frame run. *)
Definition rewound (actions : list Z) (i : Emulator) : Emulator :=
  {| live := live i; frame := frame (advance actions i) |}.

(** The content of the array [getRAM()] returns, for the live state [om]
    (none behind a handle the core does not know). *)
Definition ram_view (om : option Machine) : result (list Z) :=
  let n := c_int_wrap (from_option (fun m => Z.of_nat (length (ram m))) 0 om) in
  if decide (0 <= n)
  then Ok (nd_data (written (from_option (fun m => [ram m]) [] om)
                      (fresh [n] uint8 (zeros n))))
  else Raise ValueError.

(** The content of the array [getScreen()] returns, for the frame buffer
    [ofr]. *)
Definition screen_view (w h : Z) (ofr : option (list Z)) : result (list Z) :=
  if decide (0 <= w * h)
  then Ok (nd_data
             (written
                (from_option (fun fr => [take (Z.to_nat (c_int_wrap (w * h))) fr]) [] ofr)
                (fresh [w * h] uint8 (zeros (w * h)))))
  else Raise ValueError.

(** The content of the array [getLegalActionSet()] returns. *)
Definition actions_view (om : option Machine) : result (list Z) :=
  let n := c_int_wrap (from_option (fun m => Z.of_nat (length (legal_actions m))) 0 om) in
  if decide (0 <= n)
  then Ok (nd_data (written (from_option (fun m => [legal_actions m]) [] om)
                      (fresh [n] int32 (zeros n))))
  else Raise ValueError.

(** RAM, frame buffer and action set together. *)
Definition observation (w h : Z) (oi : option Emulator)
  : result (list Z * list Z * list Z) :=
  match ram_view (live <$> oi) with
  | Raise e => Raise e
  | Ok r =>
      match screen_view w h (frame <$> oi) with
      | Raise e => Raise e
      | Ok s =>
          match actions_view (live <$> oi) with
          | Raise e => Raise e
          | Ok a => Ok (r, s, a)
          end
      end
  end.

(** RAM and action set of what a caller observed. *)
Definition without_screen (r : result (list Z * list Z * list Z))
  : result (list Z * list Z) :=
  match r with
  | Ok (ram, _, actions) => Ok (ram, actions)
  | Raise e => Raise e
  end.

(** An instance of the class attached to the handle [p], a handle that
    fits a C [int], with the dimensions [w] and [h]. *)
Definition bound (self : NESInterface) (p w h : Z) : Prop :=
  handle_ptr (obj self) = Some p /\ 0 <= p < 2147483648 /\
  width self = Some (PyInt w) /\ height self = Some (PyInt h).

End Surface.

End Core.

(** * A small cartridge *)

(** Components on which every operation of the surface does something:
    two bytes of RAM, a screen of two by two pixels, three actions, an
    allocator that places every new object just above the highest address
    in use. *)
Module Demo.

Import Core.

Definition power_up (path : list Z) : Emulator :=
  {| live :=
       {| cpu := {| pc := 32768; sp := 253; acc := 0; ix := 0; iy := 0;
                    status := 52; cycles := 0 |};
          ram := [Z.of_nat (length path); 0];
          ppu := {| scanline := 0; dot := 0; pattern := [1; 2; 3; 4];
                    nametable := []; palette := [0; 85; 170]; oam := [];
                    latches := [] |};
          mapper := [0] |};
     frame := [1; 2; 3; 4] |}.

Definition run (a : Z) (m : Machine) : Emulator * Z :=
  ({| live :=
        {| cpu := {| pc := pc (cpu m); sp := sp (cpu m); acc := a;
                     ix := ix (cpu m); iy := iy (cpu m); status := status (cpu m);
                     cycles := cycles (cpu m) + 29780 |};
           ram := map (fun x => (x + a) mod 256) (ram m);
           ppu := {| scanline := scanline (ppu m); dot := dot (ppu m);
                     pattern := map (fun x => (x + a) mod 64) (pattern (ppu m));
                     nametable := nametable (ppu m); palette := palette (ppu m);
                     oam := oam (ppu m); latches := latches (ppu m) |};
           mapper := mapper m |};
      frame := map (fun x => (x + a) mod 64) (pattern (ppu m)) |},
   a).

(** The colour of a pixel index: the index shifted by each entry of the
    palette memory. *)
Definition shade (p : PpuState) (i : Z) : list Z :=
  map (fun c => (i + c) mod 256) (palette p).

(** The address just above the highest in use. *)
Definition place (used : gset Z) : Z := 1 + set_fold Z.max 0 used.

Lemma run_ram_size a m : length (ram (live (fst (run a m)))) = length (ram m).
Proof. apply length_map. Qed.

Lemma foldr_max_bounds (l : list Z) :
  0 <= foldr Z.max 0 l /\ forall x, x ∈ l -> x <= foldr Z.max 0 l.
Proof.
  induction l as [|y l [IH0 IH]]; cbn.
  - split; [lia|]. intros x Hx. by apply elem_of_nil in Hx.
  - split; [lia|]. intros x Hx. apply elem_of_cons in Hx as [->|Hx]; [lia|].
    specialize (IH x Hx). lia.
Qed.

Lemma place_fresh used : place used ∉ used.
Proof.
  intros Hin. apply elem_of_elements in Hin.
  apply (proj2 (foldr_max_bounds (elements used))) in Hin.
  unfold place, set_fold in Hin. cbn in Hin. lia.
Qed.

Lemma place_nonnull used : place used <> 0.
Proof.
  pose proof (proj1 (foldr_max_bounds (elements used))) as H0.
  unfold place, set_fold. cbn. lia.
Qed.

Definition components : Components :=
  {| load := fun path => if decide (path = []) then None else Some (power_up path);
     step := run;
     resolve := shade;
     screen_width := 2;
     screen_height := 2;
     legal_actions := fun _ => [0; 1; 2];
     is_over := fun _ => false;
     allocate := place;
     step_ram_size := run_ram_size;
     allocate_fresh := place_fresh;
     allocate_nonnull := place_nonnull |}.

(** What an uninitialised array of this process holds. *)
Definition stale : nat -> nat -> Z := fun _ i => Z.of_nat i.

Abbreviation platform := (@Core.platform components stale true).

(** The process before the module has done anything. *)
Definition boot : @pystate platform :=
  @Build_pystate platform [] ∅ {| instances := ∅; snapshots := ∅ |} [].

(** The ROM path ["a.nes"]. *)
Definition rom : list Z := [97; 46; 110; 101; 115].

(** The instance [NESInterface(rom)] and the process after its
    construction. *)
Definition nes : NESInterface :=
  {| obj := PyInt 1; width := Some (PyInt 2); height := Some (PyInt 2) |}.

Definition started : @pystate platform := snd (@init platform rom boot).

(** The process after [screen = nes.getScreen()]: the array number 0 holds
    the four pixels. *)
Definition shown : @pystate platform := snd (@getScreen platform nes PyNone started).

(** The process after [state = nes.cloneState()], which answers 2. *)
Definition saved : @pystate platform := snd (@cloneState platform nes started).

(** The process of [shown] with one more array, read-only: two bytes
    as [np.frombuffer] makes them. *)
Definition frozen : @pystate platform :=
  @upd_heap platform
    (@heap platform shown
       ++ [{| nd_shape := [2]; nd_dtype := uint8; nd_data := [7; 8];
              nd_contiguous := true; nd_writeable := false |}])
    shown.

(** A process whose native library already holds an object at the
    address 2^32: what it creates next lies beyond 32 bits. *)
Definition crowded : @pystate platform :=
  @Build_pystate platform [] ∅
    {| instances := {[4294967296 := power_up [98]]}; snapshots := ∅ |} [].

(** A process late in its life: the instance [nes] has been stepped once
    with action 1 since the snapshot at address 2 was taken of it, and
    another instance lives at 2^32 + 1, so that the next snapshot is placed
    at 2^32 + 2. *)
Definition late : @pystate platform :=
  @Build_pystate platform [] ∅
    {| instances :=
         <[1 := fst (run 1 (live (power_up rom)))]>
           {[4294967297 := power_up rom]};
       snapshots := {[2 := capture (live (power_up rom))]} |} [].

(** The process of [crowded] after [NESInterface(rom)], which is the
    instance [far], at the address 2^32 + 1. *)
Definition distant : @pystate platform := snd (@init platform rom crowded).

(** A native library that answers -1 to every call and writes nothing,
    and a process on it with one instance. *)
Definition refusing : Platform :=
  {| World := unit;
     native := fun _ _ w => {| n_ret := -1; n_out := []; n_world := w |};
     uninit := fun _ _ => 0;
     empty_truth_raises := true |}.

Definition refused : @pystate refusing := @Build_pystate refusing [] ∅ tt [].

Definition unsized : NESInterface :=
  {| obj := PyInt 1; width := Some (PyInt (-1)); height := Some (PyInt 2) |}.

(** An instance whose handle is that of [nes] beyond 32 bits. *)
Definition far : NESInterface :=
  {| obj := PyInt 4294967297; width := Some (PyInt 2); height := Some (PyInt 2) |}.

End Demo.


(** * Facts about the binding, over any native library *)

(** ** The states a method runs through *)

Section States.

Context `{Platform}.

Implicit Types (s : pystate) (f : symbol).

Lemma write_back_ptr p outs (h : list ndarray) : write_back [CPtr p] outs h = h.
Proof. reflexivity. Qed.

(** Projections of the states a method runs through. *)

Lemma world_upd_proto f p s : world (upd_proto f p s) = world s.
Proof. reflexivity. Qed.

Lemma heap_upd_proto f p s : heap (upd_proto f p s) = heap s.
Proof. reflexivity. Qed.

Lemma calls_upd_proto f p s : calls (upd_proto f p s) = calls s.
Proof. reflexivity. Qed.

Lemma world_upd_heap h s : world (upd_heap h s) = world s.
Proof. reflexivity. Qed.

Lemma heap_upd_heap h s : heap (upd_heap h s) = h.
Proof. reflexivity. Qed.

Lemma calls_upd_heap h s : calls (upd_heap h s) = calls s.
Proof. reflexivity. Qed.

Lemma ftab_upd_heap h s : ftab (upd_heap h s) = ftab s.
Proof. reflexivity. Qed.

Lemma heap_after_call f cs s :
  heap (after_call f cs s) = write_back cs (n_out (native f cs (world s))) (heap s).
Proof. reflexivity. Qed.

Lemma world_after_call f cs s :
  world (after_call f cs s) = n_world (native f cs (world s)).
Proof. reflexivity. Qed.

Lemma calls_after_call f cs s :
  calls (after_call f cs s) = calls s ++ [(f, cs)].
Proof. reflexivity. Qed.

Lemma ftab_after_call f cs s : ftab (after_call f cs s) = ftab s.
Proof. reflexivity. Qed.

Lemma proto_of_after_call f cs g s : proto_of (after_call f cs s) g = proto_of s g.
Proof. reflexivity. Qed.

Lemma proto_of_upd_heap h g s : proto_of (upd_heap h s) g = proto_of s g.
Proof. reflexivity. Qed.

Lemma undeclared_ftab s s' : ftab s' = ftab s -> undeclared s -> undeclared s'.
Proof. unfold undeclared. by intros ->. Qed.

Lemma undeclared_upd_proto f p s :
  f <> N_getRAMSize -> f <> N_getRAM -> f <> N_cloneState -> f <> N_restoreState ->
  undeclared s -> undeclared (upd_proto f p s).
Proof.
  intros H1 H2 H3 H4 (U1 & U2 & U3 & U4). unfold undeclared, upd_proto. cbn.
  by rewrite !lookup_insert_ne.
Qed.

End States.

Ltac norm :=
  repeat progress
    rewrite ?world_upd_proto, ?heap_upd_proto, ?calls_upd_proto, ?world_upd_heap,
      ?heap_upd_heap, ?calls_upd_heap, ?ftab_upd_heap, ?heap_after_call,
      ?world_after_call, ?calls_after_call, ?ftab_after_call,
      ?proto_of_after_call, ?proto_of_upd_heap, ?write_back_ptr.

Section BindingFacts.

Context `{Platform}.

Notation "'let!' x ':=' m 'in' k" := (bind m (fun x => k))
  (at level 10, x name, m at level 100, k at level 200).
Notation "m '>>' k" := (bind m (fun _ => k))
  (at level 100, k at level 200, right associativity).

Implicit Types (s : pystate) (self : NESInterface) (f : symbol).

(** ** Integers and handles *)

Lemma c_int_wrap_id z : fits_c_int z -> c_int_wrap z = z.
Proof.
  unfold fits_c_int, c_int_wrap. intros Hz.
  rewrite Z.mod_small by lia. lia.
Qed.

Lemma c_int_wrap_fits z : fits_c_int (c_int_wrap z).
Proof.
  unfold fits_c_int, c_int_wrap.
  pose proof (Z.mod_pos_bound (z + 2147483648) 4294967296). lia.
Qed.

Lemma typed_handle h v p :
  handle_ptr v = Some p -> from_param h c_void_p (AVal v) = Ok (CPtr p).
Proof.
  destruct v as [| |z|]; simpl; try discriminate.
  - intros [= <-]. reflexivity.
  - case_decide; intros [= <-]. unfold ptr_wrap. by rewrite Z.mod_small.
Qed.

Lemma default_handle h v p :
  handle_ptr v = Some p -> default_param h (AVal v) = Ok (untyped_handle v).
Proof.
  destruct v as [| |z|]; simpl; try discriminate; [done|].
  case_decide; [|discriminate]. intros _. by rewrite decide_True by lia.
Qed.

Lemma untyped_handle_no_buffer v outs (h : list ndarray) :
  write_back [untyped_handle v] outs h = h.
Proof. by destruct v. Qed.

(** The handle [__init__] stores is [None] or a pointer. *)
Lemma handle_ptr_result raw :
  handle_ptr (convert_result (Some c_void_p) raw) = Some (ptr_wrap raw).
Proof.
  simpl. destruct (ptr_wrap raw =? 0) eqn:E; simpl.
  - apply Z.eqb_eq in E. by rewrite E.
  - unfold ptr_wrap in *.
    pose proof (Z.mod_pos_bound raw 18446744073709551616).
    by rewrite decide_True by lia.
Qed.

(** ** Prototypes *)

Lemma proto_of_upd_eq f p s : proto_of (upd_proto f p s) f = p.
Proof. unfold proto_of, upd_proto; simpl. by rewrite lookup_insert_eq. Qed.

Lemma proto_of_upd_ne f g p s :
  f <> g -> proto_of (upd_proto f p s) g = proto_of s g.
Proof. intros Hne. unfold proto_of, upd_proto; simpl. by rewrite lookup_insert_ne. Qed.

Lemma upd_proto_twice f p q s :
  upd_proto f p (upd_proto f q s) = upd_proto f p s.
Proof. unfold upd_proto; simpl. by rewrite insert_insert_eq. Qed.

Lemma proto_of_unset f s : ftab s !! f = None -> proto_of s f = fproto_default.
Proof. unfold proto_of. by intros ->. Qed.

(** Assigning [argtypes] and then [restype] fixes the whole prototype. *)
Lemma declare {A} f ts rt (k : M A) s :
  (set_argtypes f ts >> set_restype f rt >> k) s
  = k (upd_proto f {| argtypes := Some ts; restype := rt |} s).
Proof.
  unfold bind, set_argtypes, set_restype.
  rewrite proto_of_upd_eq, upd_proto_twice. reflexivity.
Qed.

(** ** The store of arrays *)

Lemma lookup_fresh (h : list ndarray) a : (h ++ [a]) !! length h = Some a.
Proof. by rewrite lookup_app_r, Nat.sub_diag by lia. Qed.

Lemma buffer_of_lookup (h : list ndarray) l a :
  h !! l = Some a -> buffer_of h l = Ok (CBuf l (nd_dtype a) (nd_data a)).
Proof. unfold buffer_of. by intros ->. Qed.

Lemma length_write_back cs outs (h : list ndarray) :
  length (write_back cs outs h) = length h.
Proof.
  revert outs h. induction cs as [|c cs IH]; intros outs h; simpl; [done|].
  destruct c; try apply IH.
  destruct outs as [|o outs]; [done|].
  rewrite IH. apply length_alter.
Qed.

Lemma length_overwrite dt old new : length (overwrite dt old new) = length old.
Proof.
  unfold overwrite. rewrite length_app, length_take, length_drop, length_map. lia.
Qed.

Lemma overwrite_range old new :
  Forall (fun x => 0 <= x < 256) old ->
  Forall (fun x => 0 <= x < 256) (overwrite uint8 old new).
Proof.
  intros Hold. unfold overwrite. apply Forall_app. split.
  - apply Forall_take, Forall_map, Forall_forall. intros x _. simpl.
    apply Z.mod_pos_bound. lia.
  - by apply Forall_drop.
Qed.


(** ** The methods, step by step *)

(** One statement of a method at a time. *)

Lemma bind_assoc {A B C} (m : M A) (f : A -> M B) (g : B -> M C) s :
  (let! y := (let! x := m in f x) in g y) s = (let! x := m in let! y := f x in g y) s.
Proof. unfold bind. destruct (m s) as [[a|e] s']; reflexivity. Qed.

Lemma bind_run {A B} (m : M A) (k : A -> M B) s r s' :
  m s = (r, s') ->
  bind m k s = match r with
               | Ok a => k a s'
               | Raise e => (Raise e, s')
               end.
Proof. intros Hm. unfold bind. by rewrite Hm. Qed.

Lemma step_ret {A B} (a : A) (k : A -> M B) s :
  (let! x := ret a in k x) s = k a s.
Proof. reflexivity. Qed.

Lemma step_raise {A B} e (k : A -> M B) s :
  (let! x := raise e in k x) s = (Raise e, s).
Proof. reflexivity. Qed.

Lemma step_attr {B} v (k : pyval -> M B) s :
  (let! x := attr (Some v) in k x) s = k v s.
Proof. reflexivity. Qed.

Lemma step_deref {B} l a (k : ndarray -> M B) s :
  heap s !! l = Some a -> (let! x := deref l in k x) s = k a s.
Proof. intros Hl. unfold bind, deref. by rewrite Hl. Qed.

Lemma step_as_ctypes {B} l a (k : carg -> M B) s :
  heap s !! l = Some a -> nd_contiguous a = true -> nd_writeable a = true ->
  nd_shape a <> [] ->
  (let! b := as_ctypes (PyArr l) in k b) s = k (ACArray l) s.
Proof.
  intros Hl Hc Hw Hsh. unfold bind, as_ctypes, bind, deref. rewrite Hl, Hc, Hw.
  by destruct (nd_shape a).
Qed.

(** A 0-dimensional array goes over as the value of its element. *)
Lemma step_as_ctypes_scalar {B} l a (k : carg -> M B) s :
  heap s !! l = Some a -> nd_contiguous a = true -> nd_writeable a = true ->
  nd_shape a = [] ->
  (let! b := as_ctypes (PyArr l) in k b) s
  = k (ACScalar (nd_dtype a) (hd 0 (nd_data a))) s.
Proof.
  intros Hl Hc Hw Hsh. unfold bind, as_ctypes, bind, deref.
  by rewrite Hl, Hc, Hw, Hsh.
Qed.

Lemma step_py_size {B} l a (k : pyval -> M B) s :
  heap s !! l = Some a ->
  (let! n := py_size (PyArr l) in k n) s = k (PyInt (nd_size a)) s.
Proof. intros Hl. unfold bind, py_size, bind, deref. by rewrite Hl. Qed.

Lemma step_py_len {B} l a d sh (k : pyval -> M B) s :
  heap s !! l = Some a -> nd_shape a = d :: sh ->
  (let! n := py_len (PyArr l) in k n) s = k (PyInt d) s.
Proof. intros Hl Hs. unfold bind, py_len, bind, deref. by rewrite Hl, Hs. Qed.

Lemma step_contents {B} l a (k : list Z -> M B) s :
  heap s !! l = Some a ->
  (let! d := contents (PyArr l) in k d) s = k (nd_data a) s.
Proof. intros Hl. unfold bind, contents, bind, deref. by rewrite Hl. Qed.

Lemma step_mk_c_int {B} z (k : carg -> M B) s :
  (let! c := mk_c_int (PyInt z) in k c) s = k (ACInt (c_int_wrap z)) s.
Proof. reflexivity. Qed.

Lemma step_py_mul {B} a b (k : pyval -> M B) s :
  (let! n := py_mul (PyInt a) (PyInt b) in k n) s = k (PyInt (a * b)) s.
Proof. reflexivity. Qed.

Lemma step_call {B} f args cs (k : pyval -> M B) s :
  marshal (heap s) (proto_of s f) args = Ok cs ->
  (let! r := foreign_call f args in k r) s
  = k (convert_result (restype (proto_of s f)) (n_ret (native f cs (world s))))
      (after_call f cs s).
Proof. intros Hm. unfold bind, foreign_call. by rewrite Hm. Qed.

Lemma step_call_raise {B} f args e (k : pyval -> M B) s :
  marshal (heap s) (proto_of s f) args = Raise e ->
  (let! r := foreign_call f args in k r) s = (Raise e, s).
Proof. intros Hm. unfold bind, foreign_call. by rewrite Hm. Qed.

Lemma np_zeros_1 n dt s :
  np_zeros [PyInt n] dt s
  = if decide (0 <= n)
    then (Ok (PyArr (length (heap s))),
          upd_heap (heap s ++ [fresh [n] dt (zeros n)]) s)
    else (Raise ValueError, s).
Proof.
  unfold np_zeros, nonneg_shape, zeros; simpl.
  replace (n * 1) with n by lia.
  case_decide.
  - by rewrite (proj2 (Z.leb_le 0 n)).
  - by rewrite (proj2 (Z.leb_gt 0 n)) by lia.
Qed.

Lemma step_np_zeros {B} n dt (k : pyval -> M B) s :
  (let! a := np_zeros [PyInt n] dt in k a) s
  = if decide (0 <= n)
    then k (PyArr (length (heap s))) (upd_heap (heap s ++ [fresh [n] dt (zeros n)]) s)
    else (Raise ValueError, s).
Proof. unfold bind. rewrite np_zeros_1. by case_decide. Qed.

Lemma getScreen_fresh self s w h p :
  width self = Some (PyInt w) -> height self = Some (PyInt h) ->
  handle_ptr (obj self) = Some p ->
  getScreen self PyNone s
  = if decide (0 <= w * h)
    then
      let l := length (heap s) in
      (Ok (PyArr l),
       after_call N_getScreen
         [CPtr p; CBuf l uint8 (zeros (w * h)); CInt (c_int_wrap (w * h))]
         (upd_proto N_getScreen
            {| argtypes := Some [c_void_p; c_void_p; c_int]; restype := None |}
            (upd_heap (heap s ++ [fresh [w * h] uint8 (zeros (w * h))]) s)))
    else (Raise ValueError, s).
Proof.
  intros Hw Hh Hp. unfold getScreen. rewrite Hw, Hh. simpl is_None. cbv iota.
  rewrite !bind_assoc, step_attr, !bind_assoc, step_attr, bind_assoc, step_py_mul, step_np_zeros.
  case_decide; [|done].
  rewrite declare.
  erewrite step_as_ctypes; [| apply lookup_fresh | done | done | done].
  erewrite step_py_size; [| apply lookup_fresh].
  rewrite step_mk_c_int.
  erewrite step_call; [reflexivity|].
  rewrite proto_of_upd_eq. cbn [marshal marshal_typed argtypes].
  erewrite typed_handle by exact Hp.
  cbn [from_param]. erewrite buffer_of_lookup by apply lookup_fresh.
  unfold nd_size. cbn. by replace (w * h * 1) with (w * h) by lia.
Qed.

Lemma heap_after_untyped f v s : heap (after_call f [untyped_handle v] s) = heap s.
Proof. apply untyped_handle_no_buffer. Qed.

Lemma getRAM_fresh self s p :
  handle_ptr (obj self) = Some p ->
  ftab s !! N_getRAMSize = None -> ftab s !! N_getRAM = None ->
  let uh := untyped_handle (obj self) in
  let s1 := after_call N_getRAMSize [uh] s in
  let n := c_int_wrap (n_ret (native N_getRAMSize [uh] (world s))) in
  getRAM self PyNone s
  = if decide (0 <= n)
    then
      let l := length (heap s) in
      (Ok (PyArr l),
       after_call N_getRAM [uh; CBuf l uint8 (zeros n)]
         (upd_heap (heap s ++ [fresh [n] uint8 (zeros n)]) s1))
    else (Raise ValueError, s1).
Proof.
  intros Hp Hsz Hram. cbv zeta. unfold getRAM. simpl is_None. cbv iota.
  rewrite bind_assoc.
  erewrite step_call; cycle 1.
  { rewrite (proto_of_unset _ _ Hsz). cbn [marshal marshal_typed argtypes fproto_default].
    erewrite default_handle by exact Hp. reflexivity. }
  rewrite (proto_of_unset _ _ Hsz). cbn [restype fproto_default convert_result].
  rewrite step_np_zeros. case_decide; [|done].
  rewrite heap_after_untyped.
  erewrite step_as_ctypes; [| apply lookup_fresh | done | done | done].
  erewrite step_call; [reflexivity|].
  rewrite proto_of_unset by exact Hram.
  cbn [marshal marshal_typed argtypes fproto_default].
  erewrite default_handle by exact Hp.
  cbn [default_param]. erewrite buffer_of_lookup by apply lookup_fresh.
  reflexivity.
Qed.

Lemma getLegalActionSet_spec self s p :
  handle_ptr (obj self) = Some p ->
  let s1 :=
    after_call N_getNumLegalActions [CPtr p]
      (upd_proto N_getNumLegalActions
         {| argtypes := Some [c_void_p]; restype := Some c_int |} s) in
  let n := c_int_wrap (n_ret (native N_getNumLegalActions [CPtr p] (world s))) in
  getLegalActionSet self s
  = if decide (0 <= n)
    then
      let l := length (heap s) in
      (Ok (PyArr l),
       after_call N_getLegalActionSet [CPtr p; CBuf l int32 (zeros n)]
         (upd_proto N_getLegalActionSet
            {| argtypes := Some [c_void_p; c_void_p]; restype := None |}
            (upd_heap (heap s ++ [fresh [n] int32 (zeros n)]) s1)))
    else (Raise ValueError, s1).
Proof.
  intros Hp. cbv zeta. unfold getLegalActionSet. rewrite declare.
  erewrite step_call; cycle 1.
  { rewrite proto_of_upd_eq. cbn [marshal marshal_typed argtypes].
    erewrite typed_handle by exact Hp. reflexivity. }
  rewrite proto_of_upd_eq. cbn [restype convert_result].
  rewrite step_np_zeros. norm. case_decide; [|done].
  rewrite declare.
  erewrite step_as_ctypes; [| apply lookup_fresh | done | done | done].
  erewrite step_call; [reflexivity|].
  rewrite proto_of_upd_eq. cbn [marshal marshal_typed argtypes].
  erewrite typed_handle by exact Hp.
  cbn [from_param]. erewrite buffer_of_lookup by apply lookup_fresh.
  reflexivity.
Qed.

Lemma act_spec self a s p :
  handle_ptr (obj self) = Some p ->
  act self (PyInt a) s
  = (Ok (PyInt (c_int_wrap (n_ret (native N_act [CPtr p; CInt (c_int_wrap a)] (world s))))),
     after_call N_act [CPtr p; CInt (c_int_wrap a)]
       (upd_proto N_act
          {| argtypes := Some [c_void_p; c_int]; restype := Some c_int |} s)).
Proof.
  intros Hp. unfold act. rewrite declare. cbn [py_int]. rewrite step_ret.
  unfold foreign_call. rewrite proto_of_upd_eq.
  cbn [marshal marshal_typed argtypes].
  erewrite typed_handle by exact Hp. reflexivity.
Qed.

Lemma game_over_spec self s p :
  handle_ptr (obj self) = Some p ->
  game_over self s
  = (Ok (PyBool (negb (n_ret (native N_gameOver [CPtr p] (world s)) mod 256 =? 0))),
     after_call N_gameOver [CPtr p]
       (upd_proto N_gameOver
          {| argtypes := Some [c_void_p]; restype := Some c_bool |} s)).
Proof.
  intros Hp. unfold game_over. rewrite declare.
  unfold foreign_call. rewrite proto_of_upd_eq.
  cbn [marshal marshal_typed argtypes].
  erewrite typed_handle by exact Hp. reflexivity.
Qed.

Lemma getScreenDims_spec self s p :
  handle_ptr (obj self) = Some p ->
  let s0 :=
    upd_proto N_getScreenWidth {| argtypes := Some [c_void_p]; restype := Some c_int |}
      (upd_proto N_getScreenHeight
         {| argtypes := Some [c_void_p]; restype := Some c_int |} s) in
  let s1 := after_call N_getScreenWidth [CPtr p] s0 in
  getScreenDims self s
  = (Ok (PyInt (c_int_wrap (n_ret (native N_getScreenWidth [CPtr p] (world s)))),
         PyInt (c_int_wrap (n_ret (native N_getScreenHeight [CPtr p] (world s1))))),
     after_call N_getScreenHeight [CPtr p] s1).
Proof.
  intros Hp. cbv zeta. unfold getScreenDims. rewrite declare, declare.
  erewrite step_call; cycle 1.
  { rewrite proto_of_upd_eq. cbn [marshal marshal_typed argtypes].
    erewrite typed_handle by exact Hp. reflexivity. }
  rewrite proto_of_upd_eq. cbn [restype convert_result].
  erewrite step_call; cycle 1.
  { rewrite proto_of_after_call, proto_of_upd_ne, proto_of_upd_eq by done.
    cbn [marshal marshal_typed argtypes].
    erewrite typed_handle by exact Hp. reflexivity. }
  rewrite proto_of_after_call, proto_of_upd_ne, proto_of_upd_eq by done.
  reflexivity.
Qed.

Lemma init_spec rom bs s :
  utf8_encode rom = Some bs ->
  let s0 :=
    upd_proto N_NESInterface {| argtypes := Some [c_char_p]; restype := Some c_void_p |} s in
  let o := convert_result (Some c_void_p) (n_ret (native N_NESInterface [CStr bs] (world s))) in
  let self0 := {| obj := o; width := None; height := None |} in
  init rom s
  = match getScreenDims self0 (after_call N_NESInterface [CStr bs] s0) with
    | (Ok d, s') => (Ok {| obj := o; width := Some (fst d); height := Some (snd d) |}, s')
    | (Raise e, s') => (Raise e, s')
    end.
Proof.
  intros Hbs. cbv zeta. unfold init. rewrite declare, Hbs, step_ret.
  erewrite step_call; cycle 1.
  { rewrite proto_of_upd_eq. reflexivity. }
  rewrite proto_of_upd_eq. cbn [restype]. reflexivity.
Qed.

Lemma init_encode_error rom s :
  utf8_encode rom = None -> fst (init rom s) = Raise UnicodeEncodeError.
Proof. intros Hbs. unfold init. rewrite declare, Hbs. reflexivity. Qed.

(** *** Snapshots *)

Lemma cloneState_spec self s p :
  handle_ptr (obj self) = Some p -> ftab s !! N_cloneState = None ->
  let uh := untyped_handle (obj self) in
  cloneState self s
  = (Ok (PyInt (c_int_wrap (n_ret (native N_cloneState [uh] (world s))))),
     after_call N_cloneState [uh] s).
Proof.
  intros Hp Hc. cbv zeta. unfold cloneState, foreign_call.
  rewrite (proto_of_unset _ _ Hc). cbn [marshal marshal_typed argtypes fproto_default].
  erewrite default_handle by exact Hp. reflexivity.
Qed.

Lemma restoreState_spec self z s p :
  handle_ptr (obj self) = Some p -> ftab s !! N_restoreState = None ->
  fits_c_int z ->
  let uh := untyped_handle (obj self) in
  restoreState self (PyInt z) s
  = (Ok PyNone, after_call N_restoreState [uh; CInt z] s).
Proof.
  intros Hp Hc Hz. cbv zeta. unfold restoreState.
  erewrite step_call; [reflexivity|].
  rewrite (proto_of_unset _ _ Hc). cbn [marshal marshal_typed argtypes fproto_default].
  erewrite default_handle by exact Hp. cbn [default_param].
  unfold fits_c_int in Hz. rewrite decide_True by lia.
  by rewrite c_int_wrap_id.
Qed.

(** *** Buffers supplied by the caller *)

Lemma getScreen_supplied self l a s p :
  heap s !! l = Some a -> nd_contiguous a = true -> nd_writeable a = true ->
  nd_shape a <> [] ->
  handle_ptr (obj self) = Some p ->
  getScreen self (PyArr l) s
  = (Ok (PyArr l),
     after_call N_getScreen
       [CPtr p; CBuf l (nd_dtype a) (nd_data a); CInt (c_int_wrap (nd_size a))]
       (upd_proto N_getScreen
          {| argtypes := Some [c_void_p; c_void_p; c_int]; restype := None |} s)).
Proof.
  intros Hl Hc Hw Hsh Hp. unfold getScreen. cbn [is_None]. rewrite step_ret, declare.
  erewrite step_as_ctypes; [| exact Hl | done | done | exact Hsh].
  erewrite step_py_size by exact Hl. rewrite step_mk_c_int.
  erewrite step_call; [reflexivity|].
  rewrite proto_of_upd_eq. cbn [marshal marshal_typed argtypes].
  erewrite typed_handle by exact Hp.
  cbn [from_param]. erewrite buffer_of_lookup by exact Hl. reflexivity.
Qed.

Lemma getRAM_supplied self l a s p :
  heap s !! l = Some a -> nd_contiguous a = true -> nd_writeable a = true ->
  nd_shape a <> [] ->
  handle_ptr (obj self) = Some p -> ftab s !! N_getRAM = None ->
  getRAM self (PyArr l) s
  = (Ok (PyArr l),
     after_call N_getRAM
       [untyped_handle (obj self); CBuf l (nd_dtype a) (nd_data a)] s).
Proof.
  intros Hl Hc Hw Hsh Hp Hram. unfold getRAM. cbn [is_None]. rewrite step_ret.
  erewrite step_as_ctypes; [| exact Hl | done | done | exact Hsh].
  erewrite step_call; [reflexivity|].
  rewrite proto_of_unset by exact Hram.
  cbn [marshal marshal_typed argtypes fproto_default].
  erewrite default_handle by exact Hp.
  cbn [default_param]. erewrite buffer_of_lookup by exact Hl. reflexivity.
Qed.

(** A 0-dimensional array is no buffer: the native [getScreen], declared
    to take a pointer, refuses its ctypes scalar, and the native [getRAM],
    not declared, is handed the value of the element and writes nothing. *)
Lemma getScreen_scalar self l a s :
  heap s !! l = Some a -> nd_contiguous a = true -> nd_writeable a = true ->
  nd_shape a = [] ->
  getScreen self (PyArr l) s
  = (Raise ArgumentError,
     upd_proto N_getScreen
       {| argtypes := Some [c_void_p; c_void_p; c_int]; restype := None |} s).
Proof.
  intros Hl Hc Hw Hsh. unfold getScreen. cbn [is_None]. rewrite step_ret, declare.
  erewrite step_as_ctypes_scalar; [| exact Hl | done | done | exact Hsh].
  erewrite step_py_size by exact Hl. rewrite step_mk_c_int.
  erewrite step_call_raise; [reflexivity|].
  rewrite proto_of_upd_eq. cbn [marshal marshal_typed argtypes].
  by destruct (obj self).
Qed.

Lemma getRAM_scalar self l a s uh :
  heap s !! l = Some a -> nd_contiguous a = true -> nd_writeable a = true ->
  nd_shape a = [] ->
  default_param (heap s) (AVal (obj self)) = Ok uh -> ftab s !! N_getRAM = None ->
  getRAM self (PyArr l) s
  = (Ok (PyArr l), after_call N_getRAM [uh; CInt (hd 0 (nd_data a))] s)
  /\ heap (after_call N_getRAM [uh; CInt (hd 0 (nd_data a))] s) = heap s.
Proof.
  intros Hl Hc Hw Hsh Huh Hram. unfold getRAM. cbn [is_None]. rewrite step_ret.
  erewrite step_as_ctypes_scalar; [| exact Hl | done | done | exact Hsh].
  split.
  - erewrite step_call; [reflexivity|].
    rewrite proto_of_unset by exact Hram.
    cbn [marshal marshal_typed argtypes fproto_default]. rewrite Huh. reflexivity.
  - rewrite heap_after_call. cbn [write_back].
    destruct uh; try reflexivity.
    destruct (obj self) as [| |z|]; cbn in Huh; try case_decide; discriminate.
Qed.

(** A call leaves the number of arrays as it is. *)
Lemma foreign_call_heap f args s :
  length (heap (snd (foreign_call f args s))) = length (heap s).
Proof.
  unfold foreign_call. destruct (marshal _ _ _); [|done].
  cbn. apply length_write_back.
Qed.

Lemma getScreen_no_alloc self v s r s' :
  v <> PyNone -> getScreen self v s = (r, s') ->
  length (heap s') = length (heap s) /\ forall x, r = Ok x -> x = v.
Proof.
  intros Hv. unfold getScreen. destruct v as [|b|z|l]; [done|..]; cbn [is_None];
    rewrite step_ret, declare; try (intros [= <- <-]; split; [done|discriminate]).
  unfold as_ctypes. rewrite bind_assoc.
  destruct (heap s !! l) as [a|] eqn:Hl; cycle 1.
  { unfold bind, deref. cbn. rewrite Hl. intros [= <- <-]. split; [done|discriminate]. }
  erewrite step_deref by exact Hl.
  destruct (nd_contiguous a && nd_writeable a);
    [|intros [= <- <-]; split; [done|discriminate]].
  destruct (nd_shape a) as [|d sh];
    rewrite step_ret; erewrite step_py_size by exact Hl; rewrite step_mk_c_int;
    unfold bind;
    match goal with
    | |- context [foreign_call ?f ?args ?st] =>
        pose proof (foreign_call_heap f args st) as Hlen;
        destruct (foreign_call f args st) as [[r0|e] s0]
    end;
    cbn in *; intros [= <- <-]; (split; [done|]);
    first [by intros x [= <-]|discriminate].
Qed.

Lemma getRAM_no_alloc self v s r s' :
  v <> PyNone -> getRAM self v s = (r, s') ->
  length (heap s') = length (heap s) /\ forall x, r = Ok x -> x = v.
Proof.
  intros Hv. unfold getRAM. destruct v as [|b|z|l]; [done|..]; cbn [is_None];
    rewrite step_ret; try (intros [= <- <-]; split; [done|discriminate]).
  unfold as_ctypes. rewrite bind_assoc.
  destruct (heap s !! l) as [a|] eqn:Hl; cycle 1.
  { unfold bind, deref. rewrite Hl. intros [= <- <-]. split; [done|discriminate]. }
  erewrite step_deref by exact Hl.
  destruct (nd_contiguous a && nd_writeable a);
    [|intros [= <- <-]; split; [done|discriminate]].
  destruct (nd_shape a) as [|d sh];
    rewrite step_ret; unfold bind;
    match goal with
    | |- context [foreign_call ?f ?args ?st] =>
        pose proof (foreign_call_heap f args st) as Hlen;
        destruct (foreign_call f args st) as [[r0|e] s0]
    end;
    cbn in *; intros [= <- <-]; (split; [done|]);
    first [by intros x [= <-]|discriminate].
Qed.

(** *** Serialized states *)

Lemma default_param_val (h h' : list ndarray) v :
  default_param h (AVal v) = default_param h' (AVal v).
Proof. by destruct v. Qed.

Lemma default_param_val_no_buffer (h h' : list ndarray) v c outs :
  default_param h (AVal v) = Ok c -> write_back [c] outs h' = h'.
Proof.
  destruct v as [|b|z|l]; cbn; try case_decide; intros [= <-]; reflexivity.
Qed.

Lemma encodeState_result self state buf s r s' :
  encodeState self state buf s = (r, s') -> r = Ok PyNone \/ exists e, r = Raise e.
Proof.
  unfold encodeState, bind. repeat case_match; intros [= <- <-]; eauto.
Qed.

Lemma encodeState_array self state l a x y rest s :
  heap s !! l = Some a -> nd_data a = x :: y :: rest ->
  encodeState self state (PyArr l) s = (Raise ValueError, s).
Proof.
  intros Hl Hd. unfold encodeState, eq_None_truth. rewrite bind_assoc.
  erewrite step_deref by exact Hl. rewrite Hd. reflexivity.
Qed.

Lemma encodeState_fresh self state st s :
  default_param (heap s) (AVal state) = Ok st ->
  ftab s !! N_encodeStateLen = None -> ftab s !! N_encodeState = None ->
  let s1 := after_call N_encodeStateLen [st] s in
  let n := c_int_wrap (n_ret (native N_encodeStateLen [st] (world s))) in
  encodeState self state PyNone s
  = if decide (0 <= n)
    then
      let l := length (heap s) in
      (Ok PyNone,
       after_call N_encodeState [st; CBuf l uint8 (zeros n); CInt n]
         (upd_heap (heap s ++ [fresh [n] uint8 (zeros n)]) s1))
    else (Raise ValueError, s1).
Proof.
  intros Hst Hlen Henc. cbv zeta. unfold encodeState. cbn [eq_None_truth].
  rewrite step_ret, bind_assoc.
  erewrite step_call; cycle 1.
  { rewrite (proto_of_unset _ _ Hlen). cbn [marshal marshal_typed argtypes fproto_default].
    rewrite Hst. reflexivity. }
  rewrite (proto_of_unset _ _ Hlen). cbn [restype fproto_default convert_result].
  rewrite step_np_zeros. case_decide; [|done].
  rewrite heap_after_call, (default_param_val_no_buffer _ _ _ _ _ Hst).
  erewrite step_as_ctypes; [| apply lookup_fresh | done | done | done].
  erewrite step_py_len; [| apply lookup_fresh | reflexivity].
  rewrite step_mk_c_int.
  erewrite step_call; [reflexivity|].
  rewrite proto_of_unset by exact Henc.
  cbn [marshal marshal_typed argtypes fproto_default].
  rewrite (default_param_val _ (heap s)), Hst.
  cbn [default_param]. erewrite buffer_of_lookup by apply lookup_fresh.
  rewrite (c_int_wrap_id (c_int_wrap _)) by apply c_int_wrap_fits.
  reflexivity.
Qed.

Lemma decodeState_None self s : decodeState self PyNone s = (Raise AttributeError, s).
Proof. reflexivity. Qed.

(** *** What a call leaves in a buffer *)

Lemma written_shape outs a : nd_shape (written outs a) = nd_shape a.
Proof. by destruct outs. Qed.

Lemma written_dtype outs a : nd_dtype (written outs a) = nd_dtype a.
Proof. by destruct outs. Qed.

Lemma written_length outs a : length (nd_data (written outs a)) = length (nd_data a).
Proof. destruct outs; [done|]. apply length_overwrite. Qed.

Lemma written_range outs a :
  nd_dtype a = uint8 ->
  Forall (fun x => 0 <= x < 256) (nd_data a) ->
  Forall (fun x => 0 <= x < 256) (nd_data (written outs a)).
Proof.
  intros Hdt Ha. destruct outs as [|o outs]; [done|].
  cbn. rewrite Hdt. by apply overwrite_range.
Qed.

Lemma written_lookup outs l (h : list ndarray) a :
  h !! l = Some a ->
  match outs with
  | o :: _ => alter (store o) l h
  | [] => h
  end !! l = Some (written outs a).
Proof.
  intros Hl. destruct outs as [|o outs]; [done|].
  rewrite list_lookup_alter_eq, Hl. reflexivity.
Qed.

Lemma written_lookup_ne outs l l' (h : list ndarray) :
  l <> l' ->
  match outs with
  | o :: _ => alter (store o) l h
  | [] => h
  end !! l' = h !! l'.
Proof.
  intros Hne. destruct outs as [|o outs]; [done|].
  by rewrite list_lookup_alter_ne.
Qed.

Lemma write_back_typed p l dt d n outs (h : list ndarray) :
  write_back [CPtr p; CBuf l dt d; CInt n] outs h
  = match outs with
    | o :: _ => alter (store o) l h
    | [] => h
    end.
Proof. by destruct outs. Qed.

Lemma write_back_typed2 p l dt d outs (h : list ndarray) :
  write_back [CPtr p; CBuf l dt d] outs h
  = match outs with
    | o :: _ => alter (store o) l h
    | [] => h
    end.
Proof. by destruct outs. Qed.

Lemma write_back_untyped v l dt d outs (h : list ndarray) :
  write_back [untyped_handle v; CBuf l dt d] outs h
  = match outs with
    | o :: _ => alter (store o) l h
    | [] => h
    end.
Proof. by destruct v, outs. Qed.

Lemma length_zeros n : length (zeros n) = Z.to_nat n.
Proof. apply repeat_length. Qed.

(** ** The claims about the binding *)

Lemma py_int_heap action s s' :
  heap s' = heap s -> fst (py_int action s') = fst (py_int action s).
Proof.
  intros Hh. destruct action as [|b|z|l]; try reflexivity.
  unfold py_int, bind, deref. rewrite Hh.
  destruct (heap s !! l) as [a|]; [|done].
  by destruct (nd_data a) as [|? [|? ?]].
Qed.

Lemma py_int_state action s : snd (py_int action s) = s.
Proof.
  destruct action as [|b|z|l]; try reflexivity.
  unfold py_int, bind, deref. destruct (heap s !! l) as [a|]; [|done].
  by destruct (nd_data a) as [|? [|? ?]].
Qed.

(** C6.  [act(a)] hands the native [act] the instance handle, as the
    pointer it is, and [int(a)], for every action whose integer value fits a
    C [int] (as every action index does), and returns the C [int] the native
    code answered; [game_over()] hands the native [gameOver] the instance
    handle and returns its answer as a boolean. *)
Theorem act_game_over_marshal self action a s p :
  handle_ptr (obj self) = Some p ->
  fst (py_int action s) = Ok (PyInt a) ->
  fits_c_int a ->
  act self action s
  = (Ok (PyInt (c_int_wrap (n_ret (native N_act [CPtr p; CInt a] (world s))))),
     after_call N_act [CPtr p; CInt a]
       (upd_proto N_act
          {| argtypes := Some [c_void_p; c_int]; restype := Some c_int |} s))
  /\ game_over self s
     = (Ok (PyBool (negb (n_ret (native N_gameOver [CPtr p] (world s)) mod 256 =? 0))),
        after_call N_gameOver [CPtr p]
          (upd_proto N_gameOver
             {| argtypes := Some [c_void_p]; restype := Some c_bool |} s)).
Proof.
  intros Hp Hint Ha. split; [|by apply game_over_spec].
  unfold act. rewrite declare.
  set (s0 := upd_proto N_act _ s).
  assert (py_int action s0 = (Ok (PyInt a), s0)) as Hrun.
  { rewrite (surjective_pairing (py_int action s0)), py_int_state.
    rewrite (py_int_heap action s s0) by reflexivity. by rewrite Hint. }
  unfold bind. rewrite Hrun.
  unfold foreign_call, s0. rewrite proto_of_upd_eq.
  cbn [marshal marshal_typed argtypes].
  erewrite typed_handle by exact Hp. cbn [from_param].
  by rewrite (c_int_wrap_id a).
Qed.

(** C8.  [getMinimalActionSet()] is [getLegalActionSet()]: from every
    state both return the same result and leave the same state. *)
Theorem minimal_is_legal self s :
  getMinimalActionSet self s = getLegalActionSet self s.
Proof. reflexivity. Qed.

(** C10.  [encodeState] returns [None] whenever it returns; on a numpy
    buffer of two or more elements the test [buf == None] raises
    [ValueError] before anything is handed to the native library; without a
    buffer it sizes one by [encodeStateLen], has the native encoder fill it,
    and still returns [None]. *)
Theorem encodeState_returns_None self state :
  (forall buf s r s',
     encodeState self state buf s = (r, s') ->
     r = Ok PyNone \/ exists e, r = Raise e)
  /\ (forall l a s,
        heap s !! l = Some a -> (2 <= length (nd_data a))%nat ->
        encodeState self state (PyArr l) s = (Raise ValueError, s))
  /\ (forall st s,
        default_param (heap s) (AVal state) = Ok st ->
        ftab s !! N_encodeStateLen = None -> ftab s !! N_encodeState = None ->
        let n := c_int_wrap (n_ret (native N_encodeStateLen [st] (world s))) in
        0 <= n ->
        exists s',
          encodeState self state PyNone s = (Ok PyNone, s') /\
          calls s' = calls s ++
            [(N_encodeStateLen, [st]);
             (N_encodeState, [st; CBuf (length (heap s)) uint8 (zeros n); CInt n])]).
Proof.
  split; [|split].
  - intros buf s r s'. apply encodeState_result.
  - intros l a s Hl Hlen.
    destruct (nd_data a) as [|x [|y rest]] eqn:Hd; cbn in Hlen; try lia.
    by eapply encodeState_array.
  - intros st s Hst Hl He n Hn.
    rewrite (encodeState_fresh _ _ _ _ Hst Hl He). fold n.
    rewrite decide_True by exact Hn. eexists. split; [reflexivity|].
    cbn. by rewrite <- app_assoc.
Qed.

(** C1.  The round trip cannot be made through the binding:
    [encodeState] hands back [None], never the bytes it had the native code
    write, so [decodeState(encodeState(state))] raises for every state and
    yields no handle. *)
Theorem decode_encode_raises self state s :
  exists e, fst (decode_encode self state s) = Raise e.
Proof.
  unfold decode_encode, bind.
  destruct (encodeState self state PyNone s) as [r s'] eqn:E.
  destruct (encodeState_result _ _ _ _ _ _ E) as [-> | [e ->]].
  - exists AttributeError. reflexivity.
  - exists e. reflexivity.
Qed.

(** C2, as amended.  Without a buffer from the caller, [getScreen]
    allocates [width * height] zeroed bytes and hands the native [getScreen]
    the handle, that buffer and its size; [getRAM] allocates as many zeroed
    bytes as [getRAMSize] answers and [getLegalActionSet] as many zeroed C
    [int] slots as [getNumLegalActions] answers, and each hands its native
    call the handle and the buffer only, without a size. *)
Theorem fresh_buffers_sized self s p :
  handle_ptr (obj self) = Some p ->
  let l := length (heap s) in
  (forall w h,
     width self = Some (PyInt w) -> height self = Some (PyInt h) ->
     0 <= w * h < 2147483648 ->
     exists s' a,
       getScreen self PyNone s = (Ok (PyArr l), s') /\
       calls s' = calls s ++
         [(N_getScreen, [CPtr p; CBuf l uint8 (zeros (w * h)); CInt (w * h)])] /\
       heap s' !! l = Some a /\ nd_shape a = [w * h] /\ nd_dtype a = uint8 /\
       length (nd_data a) = Z.to_nat (w * h))
  /\ (ftab s !! N_getRAMSize = None -> ftab s !! N_getRAM = None ->
      let uh := untyped_handle (obj self) in
      forall n,
        fst (getRAMSize self s) = Ok (PyInt n) -> 0 <= n ->
        exists s' a,
          getRAM self PyNone s = (Ok (PyArr l), s') /\
          calls s' = calls s ++
            [(N_getRAMSize, [uh]); (N_getRAM, [uh; CBuf l uint8 (zeros n)])] /\
          heap s' !! l = Some a /\ nd_shape a = [n] /\ nd_dtype a = uint8 /\
          length (nd_data a) = Z.to_nat n)
  /\ (let n := c_int_wrap (n_ret (native N_getNumLegalActions [CPtr p] (world s))) in
      0 <= n ->
      exists s' a,
        getLegalActionSet self s = (Ok (PyArr l), s') /\
        calls s' = calls s ++
          [(N_getNumLegalActions, [CPtr p]);
           (N_getLegalActionSet, [CPtr p; CBuf l int32 (zeros n)])] /\
        heap s' !! l = Some a /\ nd_shape a = [n] /\ nd_dtype a = int32 /\
        length (nd_data a) = Z.to_nat n).
Proof.
  intros Hp l. split; [|split].
  - intros w h Hw Hh Hwh.
    rewrite (getScreen_fresh _ _ _ _ _ Hw Hh Hp), decide_True by lia. cbv zeta.
    rewrite (c_int_wrap_id (w * h)) by (unfold fits_c_int; lia).
    eexists _, _. split; [reflexivity|]. norm. split; [done|].
    rewrite write_back_typed. split; [apply written_lookup, lookup_fresh|].
    rewrite written_shape, written_dtype, written_length. cbn.
    by rewrite length_zeros.
  - intros Hsz Hram uh n Hn Hn0.
    assert (n = c_int_wrap (n_ret (native N_getRAMSize [uh] (world s)))) as Hdef.
    { revert Hn. unfold getRAMSize, foreign_call.
      rewrite (proto_of_unset _ _ Hsz).
      cbn [marshal marshal_typed argtypes fproto_default].
      erewrite default_handle by exact Hp. cbn. by intros [= <-]. }
    rewrite (getRAM_fresh _ _ _ Hp Hsz Hram). cbv zeta. fold uh. rewrite <- Hdef.
    rewrite decide_True by lia.
    eexists _, _. split; [reflexivity|]. norm.
    split; [by rewrite <- app_assoc|].
    unfold uh. rewrite write_back_untyped.
    split; [apply written_lookup, lookup_fresh|].
    rewrite written_shape, written_dtype, written_length. cbn.
    by rewrite length_zeros.
  - intros n Hn0.
    rewrite (getLegalActionSet_spec _ _ _ Hp). cbv zeta. fold n.
    rewrite decide_True by lia.
    eexists _, _. split; [reflexivity|]. norm.
    split; [by rewrite <- app_assoc|].
    rewrite write_back_typed2.
    split; [apply written_lookup, lookup_fresh|].
    rewrite written_shape, written_dtype, written_length. cbn.
    by rewrite length_zeros.
Qed.


Lemma step_np_empty {B} a b c dt (k : pyval -> M B) s :
  0 <= a -> 0 <= b -> 0 <= c ->
  (let! x := np_empty [PyInt a; PyInt b; PyInt c] dt in k x) s
  = k (PyArr (length (heap s)))
      (upd_heap
         (heap s ++ [fresh [a; b; c] dt
                       (garbage dt (length (heap s)) (shape_size [a; b; c]))]) s).
Proof.
  intros Ha Hb Hc. unfold bind, np_empty. cbn [dims_of dim_of].
  unfold nonneg_shape. cbn [forallb].
  by rewrite !(proj2 (Z.leb_le 0 _)) by assumption.
Qed.

Lemma garbage_range l n : Forall (fun x => 0 <= x < 256) (garbage uint8 l n).
Proof.
  unfold garbage. apply Forall_map, Forall_forall. intros i _. cbn.
  apply Z.mod_pos_bound. lia.
Qed.

Lemma length_garbage dt l n : length (garbage dt l n) = Z.to_nat n.
Proof. unfold garbage. by rewrite length_map, length_seq. Qed.

Lemma write_back_fill p l dt d l' dt' d' n outs (h : list ndarray) a :
  l <> l' -> h !! l' = Some a ->
  write_back [CPtr p; CBuf l dt d; CBuf l' dt' d'; CInt n] outs h !! l'
  = Some (written (drop 1 outs) a).
Proof.
  intros Hne Hl. destruct outs as [|o1 [|o2 outs]]; cbn.
  - done.
  - by rewrite list_lookup_alter_ne.
  - by rewrite list_lookup_alter_eq, list_lookup_alter_ne, Hl.
Qed.

Lemma overwrite_full old new :
  length new = length old -> Forall (fun x => 0 <= x < 256) new ->
  overwrite uint8 old new = new.
Proof.
  intros Hlen Hnew. unfold overwrite.
  rewrite drop_ge, app_nil_r by lia.
  rewrite take_ge by (rewrite length_map; lia).
  clear Hlen. induction Hnew as [|x new Hx _ IH]; [done|]. cbn.
  by rewrite Z.mod_small, IH.
Qed.

(** C7.  [__init__] stores as [width] and [height] what [getScreenDims]
    returned; [getScreenRBG()] has the native [getScreen] fill a buffer of
    [height * width] palette indices, hands that filled buffer with a second
    one of shape [(height, width, 3)] to [fillRGBfromPalette], and returns
    the second as that call left it: when the native [getScreen] wrote the
    indices [idx] and the native [fillRGBfromPalette] the bytes [rgb], a full
    buffer each, then [fillRGBfromPalette] was handed [idx] and the array
    returned holds [rgb]. *)
Theorem getScreenRBG_resolves :
  (forall rom s0 self s1,
     init rom s0 = (Ok self, s1) ->
     exists p w h sc,
       handle_ptr (obj self) = Some p /\
       getScreenDims {| obj := obj self; width := None; height := None |} sc
       = (Ok (PyInt w, PyInt h), s1) /\
       width self = Some (PyInt w) /\ height self = Some (PyInt h))
  /\ (forall self s p w h,
        handle_ptr (obj self) = Some p ->
        width self = Some (PyInt w) -> height self = Some (PyInt h) ->
        0 <= w -> 0 <= h ->
        let l := length (heap s) in
        let n := c_int_wrap (shape_size [h; w; 1]) in
        let g := garbage uint8 l (shape_size [h; w; 1]) in
        let g' := garbage uint8 (S l) (shape_size [h; w; 3]) in
        let shown := native N_getScreen [CPtr p; CBuf l uint8 g; CInt n] (world s) in
        let d := nd_data (written (n_out shown) (fresh [h; w; 1] uint8 g)) in
        let filled :=
          native N_fillRGBfromPalette
            [CPtr p; CBuf l uint8 d; CBuf (S l) uint8 g'; CInt n] (n_world shown) in
        let a := written (drop 1 (n_out filled)) (fresh [h; w; 3] uint8 g') in
        exists s',
          getScreenRBG self PyNone s = (Ok (PyArr (S l)), s') /\
          calls s' = calls s ++
            [(N_getScreen, [CPtr p; CBuf l uint8 g; CInt n]);
             (N_fillRGBfromPalette,
              [CPtr p; CBuf l uint8 d; CBuf (S l) uint8 g'; CInt n])] /\
          heap s' !! S l = Some a /\
          nd_shape a = [h; w; 3] /\ nd_dtype a = uint8 /\
          length (nd_data a) = Z.to_nat (h * w * 3) /\
          Forall (fun x => 0 <= x < 256) (nd_data a) /\
          (forall idx o rgb,
             n_out shown = [idx] -> n_out filled = [o; rgb] ->
             length idx = Z.to_nat (h * w) ->
             Forall (fun x => 0 <= x < 256) idx ->
             length rgb = Z.to_nat (h * w * 3) ->
             Forall (fun x => 0 <= x < 256) rgb ->
             d = idx /\ nd_data a = rgb)).
Proof.
  split.
  - intros rom s0 self s1.
    destruct (utf8_encode rom) as [bs|] eqn:Hbs; cycle 1.
    { intros Hinit. pose proof (init_encode_error rom s0 Hbs) as Herr.
      rewrite Hinit in Herr. discriminate. }
    rewrite (init_spec _ _ _ Hbs). cbv zeta.
    set (o := convert_result _ _). set (sc := after_call _ _ _).
    assert (handle_ptr o = Some (ptr_wrap (n_ret (native N_NESInterface [CStr bs] (world s0)))))
      as Hp by apply handle_ptr_result.
    rewrite (getScreenDims_spec {| obj := o; width := None; height := None |} sc _ Hp).
    intros [= <- <-]. cbn [obj width height fst snd].
    eexists _, _, _, sc. split; [exact Hp|]. split; [|done].
    by rewrite (getScreenDims_spec {| obj := o; width := None; height := None |} sc _ Hp).
  - intros self s p w h Hp Hw Hh Hw0 Hh0 l n g g' shown d filled a.
    unfold getScreenRBG. cbn [is_None]. rewrite Hw, Hh.
    rewrite !bind_assoc, step_attr, !bind_assoc, step_attr.
    rewrite step_np_empty by lia. fold l. fold g.
    set (a1 := fresh [h; w; 1] uint8 g).
    rewrite declare.
    erewrite step_as_ctypes; [| apply lookup_fresh | done | done | done].
    erewrite step_py_size; [| apply lookup_fresh].
    rewrite step_mk_c_int.
    erewrite step_call; cycle 1.
    { rewrite proto_of_upd_eq. cbn [marshal marshal_typed argtypes].
      erewrite typed_handle by exact Hp.
      cbn [from_param]. erewrite buffer_of_lookup by apply lookup_fresh.
      reflexivity. }
    change (nd_size a1) with (shape_size [h; w; 1]). fold n.
    change (nd_dtype a1) with uint8. change (nd_data a1) with g.
    set (cs1 := [CPtr p; CBuf l uint8 g; CInt n]).
    set (s1 := after_call N_getScreen cs1 _).
    assert (heap s1 !! l = Some (written (n_out shown) a1)) as Hl1.
    { unfold s1, cs1. norm. rewrite write_back_typed.
      apply written_lookup, lookup_fresh. }
    assert (length (heap s1) = S l) as Hlen1.
    { unfold s1. rewrite heap_after_call, length_write_back. norm.
      rewrite length_app. cbn. lia. }
    assert (world s1 = n_world shown) as Hw1 by (unfold s1; by norm).
    rewrite step_attr, step_attr, step_np_empty by lia. rewrite Hlen1. fold g'.
    set (a3 := fresh [h; w; 3] uint8 g').
    rewrite declare.
    assert ((heap s1 ++ [a3]) !! l = Some (written (n_out shown) a1)) as Hl1'.
    { rewrite lookup_app_l; [exact Hl1|]. rewrite Hlen1. lia. }
    assert ((heap s1 ++ [a3]) !! S l = Some a3) as Hl3.
    { rewrite <- Hlen1. apply lookup_fresh. }
    erewrite step_as_ctypes;
      [| exact Hl1' | by destruct (n_out _) | by destruct (n_out _)
       | by rewrite written_shape].
    erewrite step_as_ctypes; [| exact Hl3 | done | done | done].
    erewrite step_py_size; [| exact Hl1'].
    rewrite step_mk_c_int.
    erewrite step_call; cycle 1.
    { rewrite proto_of_upd_eq. cbn [marshal marshal_typed argtypes].
      erewrite typed_handle by exact Hp.
      cbn [from_param]. norm.
      erewrite (buffer_of_lookup _ l) by exact Hl1'.
      erewrite (buffer_of_lookup _ (S l)) by exact Hl3.
      reflexivity. }
    unfold ret.
    unfold nd_size. rewrite written_shape, written_dtype.
    change (fold_right Z.mul 1 (nd_shape a1)) with (shape_size [h; w; 1]). fold n.
    change (nd_dtype a1) with uint8. change (nd_dtype a3) with uint8.
    change (nd_data a3) with g'. fold d.
    assert (length g' = Z.to_nat (h * w * 3)) as Hg'.
    { unfold g'. rewrite length_garbage. unfold shape_size. cbn. f_equal. lia. }
    assert (length g = Z.to_nat (h * w)) as Hg.
    { unfold g. rewrite length_garbage. unfold shape_size. cbn. f_equal. lia. }
    eexists. split; [reflexivity|].
    split. { norm. unfold s1. norm. by rewrite <- app_assoc. }
    split.
    { norm. rewrite Hw1. apply write_back_fill; [lia|exact Hl3]. }
    unfold a. rewrite written_shape, written_dtype, written_length.
    split; [done|]. split; [done|]. split; [exact Hg'|].
    split. { apply written_range; [done|]. apply garbage_range. }
    intros idx o rgb Hidx Hrgb Li Ri Lr Rr. split.
    + unfold d. rewrite Hidx. cbn. apply overwrite_full; [|done]. by rewrite Li, Hg.
    + rewrite Hrgb. cbn. apply overwrite_full; [|done]. by rewrite Lr, Hg'.
Qed.

(** ** Handles beyond 32 bits *)

Lemma untyped_handle_int p : untyped_handle (PyInt p) = CInt (c_int_wrap p).
Proof. reflexivity. Qed.

Lemma handle_ptr_int p :
  0 <= p < 18446744073709551616 -> handle_ptr (PyInt p) = Some p.
Proof. intros Hp. cbn. by rewrite decide_True. Qed.

(** C3.  One step of a session, for an instance whose handle is the
    address [p]: [act] and [getScreen], declared to take a pointer, reach the
    native code with [p]; [getRAMSize] and [getRAM], which the module calls
    without having declared a prototype, with [p] cut down to a C [int].
    The RAM read after the step is what the native code wrote for that
    number. *)
Theorem episode_step_handles self a s p w h :
  obj self = PyInt p -> 0 <= p < 18446744073709551616 ->
  width self = Some (PyInt w) -> height self = Some (PyInt h) ->
  ftab s !! N_getRAMSize = None -> ftab s !! N_getRAM = None ->
  let l := length (heap s) in
  let stepped := [CPtr p; CInt (c_int_wrap a)] in
  let shown := [CPtr p; CBuf l uint8 (zeros (w * h)); CInt (c_int_wrap (w * h))] in
  let sized := [CInt (c_int_wrap p)] in
  let w1 := n_world (native N_act stepped (world s)) in
  let w2 := n_world (native N_getScreen shown w1) in
  let w3 := n_world (native N_getRAMSize sized w2) in
  let n := c_int_wrap (n_ret (native N_getRAMSize sized w2)) in
  let read := [CInt (c_int_wrap p); CBuf (S l) uint8 (zeros n)] in
  0 <= w * h -> 0 <= n ->
  exists s',
    episode self [a] s
    = (Ok [(PyInt (c_int_wrap (n_ret (native N_act stepped (world s)))),
            nd_data (written (n_out (native N_getScreen shown w1))
                       (fresh [w * h] uint8 (zeros (w * h)))),
            nd_data (written (n_out (native N_getRAM read w3))
                       (fresh [n] uint8 (zeros n))))], s') /\
    calls s' = calls s ++
      [(N_act, stepped); (N_getScreen, shown); (N_getRAMSize, sized); (N_getRAM, read)].
Proof.
  intros Ho Hr Hw Hh Hsz Hram l stepped shown sized w1 w2 w3 n read Hwh Hn.
  assert (Hp : handle_ptr (obj self) = Some p) by (rewrite Ho; by apply handle_ptr_int).
  cbn [episode]. rewrite (bind_run _ _ _ _ _ (act_spec self a s p Hp)).
  fold stepped.
  set (s1 := after_call N_act stepped _).
  assert (heap s1 = heap s) as Hh1 by (unfold s1, stepped; by norm).
  assert (world s1 = w1) as Hw1 by (unfold s1; by norm).
  pose proof (getScreen_fresh self s1 w h p Hw Hh Hp) as E2.
  rewrite decide_True in E2 by exact Hwh. cbv zeta in E2.
  rewrite Hh1 in E2. fold l in E2. fold shown in E2.
  unfold read_screen at 1. rewrite bind_assoc, (bind_run _ _ _ _ _ E2). clear E2.
  set (s2 := after_call N_getScreen shown _).
  assert (heap s2 !! l
          = Some (written (n_out (native N_getScreen shown w1))
                    (fresh [w * h] uint8 (zeros (w * h))))) as Hl2.
  { unfold s2, shown. norm. rewrite Hw1, write_back_typed.
    apply written_lookup, lookup_fresh. }
  assert (length (heap s2) = S l) as Hlen2.
  { unfold s2. rewrite heap_after_call, length_write_back. norm.
    rewrite length_app. cbn. fold l. lia. }
  assert (world s2 = w2) as Hw2 by (unfold s2; norm; by rewrite Hw1).
  assert (ftab s2 !! N_getRAMSize = None /\ ftab s2 !! N_getRAM = None) as [Hsz2 Hram2].
  { unfold s2, s1. norm. unfold upd_proto. cbn. by rewrite !lookup_insert_ne. }
  erewrite step_contents by exact Hl2.
  pose proof (getRAM_fresh self s2 p Hp Hsz2 Hram2) as E3. cbv zeta in E3.
  rewrite Ho, untyped_handle_int, Hw2, Hlen2 in E3. fold sized in E3. fold n in E3.
  rewrite decide_True in E3 by exact Hn. fold read in E3.
  unfold read_ram at 1. rewrite bind_assoc, (bind_run _ _ _ _ _ E3). clear E3.
  set (s3 := after_call N_getRAM read _).
  assert (heap s3 !! S l
          = Some (written (n_out (native N_getRAM read w3)) (fresh [n] uint8 (zeros n))))
    as Hl3.
  { unfold s3, read. norm. rewrite Hw2. fold sized. fold w3.
    change (CInt (c_int_wrap p)) with (untyped_handle (PyInt p)).
    rewrite write_back_untyped, ?untyped_handle_no_buffer.
    apply written_lookup. rewrite <- Hlen2. apply lookup_fresh. }
  erewrite step_contents by exact Hl3.
  exists s3. split; [reflexivity|].
  unfold s3, s2, s1. norm. by rewrite <- !app_assoc.
Qed.

(** C4.  [restoreState(cloneState())], for an instance whose handle is
    the address [p]: neither native function has a declared prototype, so
    the native [cloneState] is handed [p] cut down to a C [int], its answer,
    the address of the new snapshot, comes back cut down to a C [int], and
    the native [restoreState] is handed these two numbers. *)
Theorem restore_clone_handles self s p :
  obj self = PyInt p -> 0 <= p < 18446744073709551616 ->
  ftab s !! N_cloneState = None -> ftab s !! N_restoreState = None ->
  let inst := CInt (c_int_wrap p) in
  let state := n_ret (native N_cloneState [inst] (world s)) in
  restore_clone self s
  = (Ok PyNone,
     after_call N_restoreState [inst; CInt (c_int_wrap state)]
       (after_call N_cloneState [inst] s)).
Proof.
  intros Ho Hr Hc Hrs inst state.
  assert (Hp : handle_ptr (obj self) = Some p) by (rewrite Ho; by apply handle_ptr_int).
  unfold restore_clone.
  rewrite (bind_run _ _ _ _ _ (cloneState_spec self s p Hp Hc)).
  rewrite (restoreState_spec self _ _ p Hp) by (norm; done || apply c_int_wrap_fits).
  by rewrite Ho, untyped_handle_int.
Qed.

End BindingFacts.

(** * The binding on the emulator core *)

Section CoreFacts.

Import Core.

Context `{Components} (u : nat -> nat -> Z) (e : bool).

Abbreviation process := (@pystate (platform u e)).

Implicit Types (s : process) (self : NESInterface) (lib : library)
  (m : Machine) (i : Emulator) (oi : option Emulator).

(** ** Handles *)

Lemma handle_of_untyped v p :
  handle_ptr v = Some p -> 0 <= p < 2147483648 ->
  handle_of (untyped_handle v) = Some p.
Proof.
  destruct v as [| |z|]; cbn; try discriminate.
  - by intros [= <-].
  - case_decide; [|discriminate]. intros [= <-] Hp.
    rewrite c_int_wrap_id by (unfold fits_c_int; lia).
    unfold ptr_wrap. by rewrite Z.mod_small by lia.
Qed.

Lemma instance_of lib c p :
  handle_of c = Some p ->
  instance lib c = (fun i => (p, i)) <$> instances lib !! p.
Proof. unfold instance. intros ->. by destruct (instances lib !! p). Qed.

Lemma instance_typed lib p :
  instance lib (CPtr p) = (fun i => (p, i)) <$> instances lib !! p.
Proof. by apply instance_of. Qed.

(** ** The surface, by the instance a handle names *)

Lemma surface_query (q : Machine -> Z) c p lib :
  handle_of c = Some p ->
  query q [c] lib = reply (from_option q 0 (live <$> instances lib !! p)) lib.
Proof.
  intros Hc. unfold query. rewrite (instance_of _ _ _ Hc).
  by destruct (instances lib !! p).
Qed.

Lemma surface_get_buffer (q : Machine -> list Z) c p l dt d lib :
  handle_of c = Some p ->
  get_buffer q [c; CBuf l dt d] lib
  = {| n_ret := 0;
       n_out := from_option (fun m => [q m]) [] (live <$> instances lib !! p);
       n_world := lib |}.
Proof.
  intros Hc. unfold get_buffer. rewrite (instance_of _ _ _ Hc).
  by destruct (instances lib !! p).
Qed.

Lemma surface_get_screen p l dt d n lib :
  get_screen [CPtr p; CBuf l dt d; CInt n] lib
  = {| n_ret := 0;
       n_out := from_option (fun fr => [take (Z.to_nat n) fr]) []
                  (frame <$> instances lib !! p);
       n_world := lib |}.
Proof.
  unfold get_screen. rewrite instance_typed.
  by destruct (instances lib !! p).
Qed.

Lemma surface_act p a lib :
  do_act [CPtr p; CInt a] lib
  = reply (from_option (fun i => snd (step a (live i))) 0 (instances lib !! p))
      (from_option (fun i => set_instance p (fst (step a (live i))) lib) lib
         (instances lib !! p)).
Proof.
  unfold do_act. rewrite instance_typed.
  by destruct (instances lib !! p).
Qed.

Lemma restore_capture_sized m m' :
  length (ram m) = length (ram m') -> restore m' (capture m) = Some m.
Proof.
  intros Hlen. unfold restore, capture. cbn. rewrite decide_True by done.
  by destruct m.
Qed.

Lemma advance_ram_size actions i :
  length (ram (live (advance actions i))) = length (ram (live i)).
Proof.
  revert i. induction actions as [|a rest IH]; intros i; cbn; [done|].
  by rewrite IH, step_ram_size.
Qed.

(** ** What the caller reads *)

Lemma native_surface f cs lib : @native (platform u e) f cs lib = surface f cs lib.
Proof. reflexivity. Qed.

Lemma read_ram_core self s p w h :
  bound self p w h -> undeclared s ->
  exists s',
    read_ram self s = (ram_view (live <$> instances (world s) !! p), s') /\
    world s' = world s /\ ftab s' = ftab s.
Proof.
  intros (Hp & Hr & Hw & Hh) (Hsz & Hram & _).
  pose proof (handle_of_untyped _ _ Hp Hr) as Hu.
  unfold read_ram, bind. rewrite (getRAM_fresh _ _ _ Hp Hsz Hram). cbv zeta.
  rewrite !native_surface. cbn [surface].
  rewrite (surface_query _ _ _ _ Hu). cbn [n_ret n_world reply].
  unfold ram_view.
  set (n := c_int_wrap _). case_decide; cycle 1.
  { eexists. split; [reflexivity|]. norm.
    rewrite !native_surface. cbn [surface].
    by rewrite (surface_query _ _ _ _ Hu). }
  unfold contents, bind, deref. norm.
  rewrite write_back_untyped.
  rewrite !native_surface. cbn [surface].
  rewrite (surface_query _ _ _ _ Hu), (surface_get_buffer _ _ _ _ _ _ _ Hu).
  cbn [n_out n_world reply].
  erewrite written_lookup by apply lookup_fresh.
  eexists. split; [reflexivity|]. norm.
  rewrite !native_surface. cbn [surface].
  by rewrite (surface_get_buffer _ _ _ _ _ _ _ Hu), (surface_query _ _ _ _ Hu).
Qed.

Lemma read_screen_core self s p w h :
  bound self p w h -> undeclared s ->
  exists s',
    read_screen self s = (screen_view w h (frame <$> instances (world s) !! p), s') /\
    world s' = world s /\ undeclared s'.
Proof.
  intros (Hp & Hr & Hw & Hh) Hun.
  unfold read_screen, bind. rewrite (getScreen_fresh _ _ _ _ _ Hw Hh Hp). cbv zeta.
  unfold screen_view. case_decide; [|by eexists].
  unfold contents, bind, deref. norm.
  rewrite write_back_typed.
  rewrite !native_surface. cbn [surface].
  rewrite surface_get_screen. cbn [n_out].
  erewrite written_lookup by apply lookup_fresh.
  eexists. split; [reflexivity|]. norm.
  rewrite !native_surface. cbn [surface]. rewrite surface_get_screen.
  split; [done|]. eapply undeclared_ftab; [apply ftab_after_call|].
  apply undeclared_upd_proto; try done.
Qed.

Lemma read_actions_core self s p w h :
  bound self p w h -> undeclared s ->
  exists s',
    read_actions self s = (actions_view (live <$> instances (world s) !! p), s') /\
    world s' = world s /\ undeclared s'.
Proof.
  intros (Hp & Hr & Hw & Hh) Hun.
  unfold read_actions, bind. rewrite (getLegalActionSet_spec _ _ _ Hp). cbv zeta.
  rewrite !native_surface. cbn [surface].
  rewrite (surface_query _ (CPtr p) p) by done. cbn [n_ret reply].
  unfold actions_view. set (n := c_int_wrap _). norm. case_decide; cycle 1.
  { eexists. split; [reflexivity|]. norm.
    rewrite !native_surface. cbn [surface].
    rewrite (surface_query _ (CPtr p) p) by done.
    split; [done|]. eapply undeclared_ftab; [apply ftab_after_call|].
    by apply undeclared_upd_proto. }
  unfold contents, bind, deref. norm.
  rewrite write_back_typed2.
  rewrite !native_surface. cbn [surface].
  rewrite (surface_query _ (CPtr p) p), (surface_get_buffer _ (CPtr p) p) by done.
  cbn [n_out n_world reply].
  erewrite written_lookup by apply lookup_fresh.
  eexists. split; [reflexivity|]. norm.
  rewrite !native_surface. cbn [surface].
  rewrite (surface_get_buffer _ (CPtr p) p), (surface_query _ (CPtr p) p) by done.
  split; [done|]. eapply undeclared_ftab; [apply ftab_after_call|].
  apply undeclared_upd_proto; try done.
  eapply undeclared_ftab; [apply ftab_upd_heap|].
  eapply undeclared_ftab; [apply ftab_after_call|].
  by apply undeclared_upd_proto.
Qed.

(** What a caller observes of an instance is decided by the instance
    behind its handle. *)
Lemma observe_core self s p w h :
  bound self p w h -> undeclared s ->
  fst (observe self s) = observation w h (instances (world s) !! p).
Proof.
  intros Hb Hun. unfold observe, observation.
  destruct (read_ram_core _ _ _ _ _ Hb Hun) as (s1 & E1 & W1 & F1).
  rewrite (bind_run _ _ _ _ _ E1). clear E1.
  destruct (ram_view _) as [r|?]; [|done].
  assert (undeclared s1) as Hun1 by (by eapply undeclared_ftab).
  destruct (read_screen_core _ _ _ _ _ Hb Hun1) as (s2 & E2 & W2 & Hun2).
  rewrite (bind_run _ _ _ _ _ E2), W1. clear E2.
  destruct (screen_view _ _ _) as [sc|?]; [|done].
  destruct (read_actions_core _ _ _ _ _ Hb Hun2) as (s3 & E3 & W3 & Hun3).
  rewrite (bind_run _ _ _ _ _ E3), W2, W1. clear E3.
  by destruct (actions_view _).
Qed.

(** The frame buffer apart, what a caller observes is decided by the live
    state. *)
Lemma without_screen_live w h oi oi' :
  live <$> oi = live <$> oi' ->
  without_screen (observation w h oi) = without_screen (observation w h oi').
Proof.
  intros Hl. unfold observation. rewrite Hl.
  destruct (ram_view _) as [r|?]; [|done].
  unfold screen_view. case_decide; [|done].
  by destruct (actions_view _).
Qed.

(** ** Stepping *)

Lemma act_core self a s p w h :
  bound self p w h -> undeclared s ->
  let oi := instances (world s) !! p in
  exists s',
    act self (PyInt a) s
    = (Ok (PyInt (c_int_wrap
                    (from_option (fun i => snd (step (c_int_wrap a) (live i))) 0 oi))), s') /\
    instances (world s')
    = from_option
        (fun i => <[p := fst (step (c_int_wrap a) (live i))]> (instances (world s)))
        (instances (world s)) oi /\
    snapshots (world s') = snapshots (world s) /\
    undeclared s'.
Proof.
  intros (Hp & Hr & Hw & Hh) Hun oi.
  rewrite (act_spec _ _ _ _ Hp). rewrite !native_surface. cbn [surface].
  rewrite surface_act. cbn [n_ret reply]. fold oi.
  eexists. split; [reflexivity|]. norm.
  rewrite !native_surface. cbn [surface]. rewrite surface_act. cbn [n_world reply].
  fold oi. split; [|split].
  - by destruct oi.
  - by destruct oi.
  - eapply undeclared_ftab; [apply ftab_after_call|].
    by apply undeclared_upd_proto.
Qed.

Lemma act_core_lookup a s p s' :
  instances (world s')
  = from_option
      (fun i => <[p := fst (step (c_int_wrap a) (live i))]> (instances (world s)))
      (instances (world s)) (instances (world s) !! p) ->
  instances (world s') !! p
  = (fun i => fst (step (c_int_wrap a) (live i))) <$> instances (world s) !! p.
Proof.
  intros ->. destruct (instances (world s) !! p) as [i|] eqn:E; cbn.
  - by rewrite lookup_insert_eq.
  - by rewrite E.
Qed.

Lemma play_core self actions s p w h :
  bound self p w h -> undeclared s ->
  let oi := instances (world s) !! p in
  exists s',
    play self actions s = (Ok tt, s') /\
    instances (world s')
    = from_option (fun i => <[p := advance actions i]> (instances (world s)))
        (instances (world s)) oi /\
    snapshots (world s') = snapshots (world s) /\
    undeclared s'.
Proof.
  intros Hb. revert s. induction actions as [|a rest IH]; intros s Hun oi.
  - exists s. cbn. split; [done|]. split; [|done].
    unfold oi. destruct (instances (world s) !! p) as [i|] eqn:E; cbn; [|done].
    by rewrite insert_id.
  - destruct (act_core _ a _ _ _ _ Hb Hun) as (s1 & E1 & I1 & S1 & Hun1).
    pose proof (act_core_lookup a s p s1 I1) as L1.
    destruct (IH s1 Hun1) as (s2 & E2 & I2 & S2 & Hun2).
    exists s2. cbn [play]. rewrite (bind_run _ _ _ _ _ E1).
    split; [exact E2|]. split; [|by rewrite S2].
    rewrite I2, L1, I1. unfold oi.
    destruct (instances (world s) !! p) as [i|]; cbn; [|done].
    by rewrite insert_insert_eq.
Qed.

(** ** Snapshots *)

Lemma surface_clone c p lib :
  handle_of c = Some p ->
  clone_state [c] lib
  = reply (from_option (fun _ => allocate (used lib)) 0 (instances lib !! p))
      (from_option
         (fun i => {| instances := instances lib;
                      snapshots := <[allocate (used lib) := capture (live i)]>
                                     (snapshots lib) |})
         lib (instances lib !! p)).
Proof.
  intros Hc. unfold clone_state. rewrite (instance_of _ _ _ Hc).
  by destruct (instances lib !! p).
Qed.

Lemma surface_restore c p z lib :
  handle_of c = Some p -> 0 <= z < 2147483648 ->
  restore_state [c; CInt z] lib
  = reply 0
      match instances lib !! p, snapshots lib !! z with
      | Some i, Some sn =>
          match restore (live i) sn with
          | Some m' => set_instance p {| live := m'; frame := frame i |} lib
          | None => lib
          end
      | _, _ => lib
      end.
Proof.
  intros Hc Hz. unfold restore_state, snapshot. rewrite (instance_of _ _ _ Hc).
  cbn [handle_of]. unfold ptr_wrap. rewrite Z.mod_small by lia.
  destruct (instances lib !! p) as [i|]; cbn; [|done].
  destruct (snapshots lib !! z) as [sn|]; [|done].
  by destruct (restore (live i) sn).
Qed.

Lemma clone_core self s p w h :
  bound self p w h -> undeclared s ->
  0 <= allocate (used (world s)) < 2147483648 ->
  let oi := instances (world s) !! p in
  exists s',
    cloneState self s
    = (Ok (PyInt (from_option (fun _ => allocate (used (world s))) 0 oi)), s') /\
    instances (world s') = instances (world s) /\
    snapshots (world s')
    = from_option
        (fun i => <[allocate (used (world s)) := capture (live i)]> (snapshots (world s)))
        (snapshots (world s)) oi /\
    undeclared s'.
Proof.
  intros (Hp & Hr & Hw & Hh) Hun Hn oi.
  pose proof (handle_of_untyped _ _ Hp Hr) as Hu.
  destruct Hun as (U1 & U2 & U3 & U4).
  rewrite (cloneState_spec _ _ _ Hp U3). cbv zeta.
  rewrite !native_surface. cbn [surface].
  rewrite (surface_clone _ _ _ Hu). cbn [n_ret reply]. fold oi.
  rewrite c_int_wrap_id by (unfold fits_c_int; destruct oi; cbn; lia).
  eexists. split; [reflexivity|]. norm.
  rewrite !native_surface. cbn [surface].
  rewrite (surface_clone _ _ _ Hu). cbn [n_world reply]. fold oi.
  split; [by destruct oi|]. split; [by destruct oi|]. done.
Qed.

Lemma restore_core self z s p w h :
  bound self p w h -> undeclared s -> 0 <= z < 2147483648 ->
  exists s',
    restoreState self (PyInt z) s = (Ok PyNone, s') /\
    instances (world s')
    = match instances (world s) !! p, snapshots (world s) !! z with
      | Some i, Some sn =>
          match restore (live i) sn with
          | Some m' => <[p := {| live := m'; frame := frame i |}]> (instances (world s))
          | None => instances (world s)
          end
      | _, _ => instances (world s)
      end /\
    undeclared s'.
Proof.
  intros (Hp & Hr & Hw & Hh) Hun Hz.
  pose proof (handle_of_untyped _ _ Hp Hr) as Hu.
  destruct Hun as (U1 & U2 & U3 & U4).
  rewrite (restoreState_spec _ _ _ _ Hp U4) by (unfold fits_c_int; lia). cbv zeta.
  eexists. split; [reflexivity|]. norm.
  rewrite !native_surface. cbn [surface].
  rewrite (surface_restore _ _ _ _ Hu Hz). cbn [n_world reply].
  split; [|done].
  destruct (instances (world s) !! p) as [i|]; [|done].
  destruct (snapshots (world s) !! z) as [sn|]; [|done].
  by destruct (restore (live i) sn).
Qed.

(** A snapshot taken and restored, whatever was played in between, leaves
    behind the handle the live state the snapshot was taken of, and the
    frame buffer of the last frame run. *)
Lemma clone_play_restore self actions s p w h :
  bound self p w h -> undeclared s ->
  0 <= allocate (used (world s)) < 2147483648 ->
  exists st s1 s2 s3,
    cloneState self s = (Ok st, s1) /\
    play self actions s1 = (Ok tt, s2) /\
    restoreState self st s2 = (Ok PyNone, s3) /\
    instances (world s3) !! p = rewound actions <$> instances (world s) !! p /\
    undeclared s3.
Proof.
  intros Hb Hun Hn.
  destruct (clone_core _ _ _ _ _ Hb Hun Hn) as (s1 & E1 & I1 & S1 & Hun1).
  destruct (play_core _ actions _ _ _ _ Hb Hun1) as (s2 & E2 & I2 & S2 & Hun2).
  set (z := from_option (fun _ => allocate (used (world s))) 0 (instances (world s) !! p))
    in *.
  assert (0 <= z < 2147483648) as Hz.
  { unfold z. destruct (instances (world s) !! p); cbn; lia. }
  destruct (restore_core _ z _ _ _ _ Hb Hun2 Hz) as (s3 & E3 & I3 & Hun3).
  exists (PyInt z), s1, s2, s3. repeat (split; [done|]). split; [|done].
  rewrite I3, I2, S2, S1, I1. unfold z.
  destruct (instances (world s) !! p) as [i|] eqn:Hi; cbn.
  - rewrite !lookup_insert_eq.
    rewrite (restore_capture_sized (live i) (live (advance actions i)))
      by (by rewrite advance_ram_size).
    by rewrite lookup_insert_eq.
  - by rewrite Hi.
Qed.

Lemma rewound_nil i : rewound [] i = i.
Proof. by destruct i. Qed.

(** ** The claim about the emulator behind the binding *)


End CoreFacts.

(** * The claims on the small cartridge *)

Section OnDemo.

Import Core.

Lemma demo_constructed : init Demo.rom Demo.boot = (Ok Demo.nes, Demo.started).
Proof.
  rewrite (surjective_pairing (init Demo.rom Demo.boot)).
  apply (f_equal2 pair); [vm_compute; reflexivity|reflexivity].
Defined.

Lemma demo_bound : bound Demo.nes 1 2 2.
Proof. unfold bound. cbn. repeat split; lia. Defined.

Lemma demo_observed :
  fst (observe Demo.nes Demo.started) = Ok ([5; 0], [1; 2; 3; 4], [0; 1; 2]).
Proof. vm_compute. reflexivity. Defined.

(** The handles the binding marshals without a declared prototype travel as
    C [int]s: a handle beyond 32 bits reaches the native code as another
    number. *)
Lemma untyped_handle_wide : untyped_handle (PyInt 4294967297) = CInt 1.
Proof. reflexivity. Qed.

(** C6 on the cartridge: action 1 from the started machine. *)
Lemma act_game_over_marshal_witness :
  handle_ptr (obj Demo.nes) = Some 1
  /\ fst (py_int (PyInt 1) Demo.started) = Ok (PyInt 1)
  /\ fits_c_int 1
  /\ fst (act Demo.nes (PyInt 1) Demo.started) = Ok (PyInt 1)
  /\ fst (game_over Demo.nes Demo.started) = Ok (PyBool false).
Proof.
  assert (Hp : handle_ptr (obj Demo.nes) = Some 1) by reflexivity.
  assert (Ha : fst (py_int (PyInt 1) Demo.started) = Ok (PyInt 1)) by reflexivity.
  assert (Hf : fits_c_int 1) by (unfold fits_c_int; lia).
  destruct (act_game_over_marshal Demo.nes (PyInt 1) 1 Demo.started 1 Hp Ha Hf)
    as [Eact Eover].
  split; [exact Hp|]. split; [exact Ha|]. split; [exact Hf|]. split.
  - rewrite Eact. vm_compute. reflexivity.
  - rewrite Eover. vm_compute. reflexivity.
Defined.

(** C10 on the cartridge: a four-pixel buffer is refused, and without a
    buffer the encoder is called and [None] comes back. *)
Lemma encodeState_returns_None_witness :
  encodeState Demo.nes (PyInt 2) PyNone Demo.saved
  = (fst (encodeState Demo.nes (PyInt 2) PyNone Demo.saved),
     snd (encodeState Demo.nes (PyInt 2) PyNone Demo.saved))
  /\ (exists a, heap Demo.shown !! 0%nat = Some a /\ (2 <= length (nd_data a))%nat)
  /\ default_param (heap Demo.saved) (AVal (PyInt 2)) = Ok (CInt 2)
  /\ ftab Demo.saved !! N_encodeStateLen = None
  /\ ftab Demo.saved !! N_encodeState = None
  /\ 0 <= c_int_wrap (n_ret (native N_encodeStateLen [CInt 2] (world Demo.saved)))
  /\ (fst (encodeState Demo.nes (PyInt 2) PyNone Demo.saved) = Ok PyNone
      \/ exists e, fst (encodeState Demo.nes (PyInt 2) PyNone Demo.saved) = Raise e)
  /\ encodeState Demo.nes (PyInt 2) (PyArr 0) Demo.shown = (Raise ValueError, Demo.shown)
  /\ exists s',
       encodeState Demo.nes (PyInt 2) PyNone Demo.saved = (Ok PyNone, s') /\
       calls s' = calls Demo.saved ++
         [(N_encodeStateLen, [CInt 2]);
          (N_encodeState, [CInt 2; CBuf 0 uint8 []; CInt 0])].
Proof.
  destruct (@encodeState_returns_None Demo.platform Demo.nes (PyInt 2)) as (Hres & Harr & Hnone).
  assert (Hrun : encodeState Demo.nes (PyInt 2) PyNone Demo.saved
                 = (fst (encodeState Demo.nes (PyInt 2) PyNone Demo.saved),
                    snd (encodeState Demo.nes (PyInt 2) PyNone Demo.saved)))
    by apply surjective_pairing.
  assert (Hheap : heap Demo.shown !! 0%nat
                  = Some (fresh [4] uint8 [1; 2; 3; 4])) by reflexivity.
  assert (Hlen : le 2 (length (nd_data (fresh [4] uint8 [1; 2; 3; 4]))))
    by (cbn; lia).
  assert (Hst : default_param (heap Demo.saved) (AVal (PyInt 2)) = Ok (CInt 2))
    by reflexivity.
  assert (Hl : ftab Demo.saved !! N_encodeStateLen = None) by reflexivity.
  assert (He : ftab Demo.saved !! N_encodeState = None) by reflexivity.
  assert (Hn : 0 <= c_int_wrap (n_ret (native N_encodeStateLen [CInt 2] (world Demo.saved))))
    by (vm_compute; discriminate).
  split; [exact Hrun|].
  split; [eexists; split; [exact Hheap|exact Hlen]|].
  split; [exact Hst|]. split; [exact Hl|]. split; [exact He|]. split; [exact Hn|].
  split; [exact (Hres _ _ _ _ Hrun)|].
  split; [exact (Harr _ _ _ Hheap Hlen)|].
  exact (Hnone _ _ Hst Hl He Hn).
Defined.

(** C2 on the cartridge: the buffers made for its 2 x 2 screen, its two RAM
    cells and its three actions. *)
Lemma fresh_buffers_sized_witness :
  handle_ptr (obj Demo.nes) = Some 1
  /\ 0 <= 2 * 2 < 2147483648
  /\ ftab Demo.started !! N_getRAMSize = None
  /\ ftab Demo.started !! N_getRAM = None
  /\ fst (getRAMSize Demo.nes Demo.started) = Ok (PyInt 2)
  /\ 0 <= c_int_wrap (n_ret (native N_getNumLegalActions [CPtr 1] (world Demo.started)))
  /\ (exists s' a,
        getScreen Demo.nes PyNone Demo.started = (Ok (PyArr 0), s') /\
        calls s' = calls Demo.started ++
          [(N_getScreen, [CPtr 1; CBuf 0 uint8 [0; 0; 0; 0]; CInt 4])] /\
        heap s' !! 0%nat = Some a /\ nd_shape a = [4] /\ nd_dtype a = uint8 /\
        length (nd_data a) = 4%nat)
  /\ (exists s' a,
        getRAM Demo.nes PyNone Demo.started = (Ok (PyArr 0), s') /\
        calls s' = calls Demo.started ++
          [(N_getRAMSize, [CInt 1]); (N_getRAM, [CInt 1; CBuf 0 uint8 [0; 0]])] /\
        heap s' !! 0%nat = Some a /\ nd_shape a = [2] /\ nd_dtype a = uint8 /\
        length (nd_data a) = 2%nat)
  /\ (exists s' a,
        getLegalActionSet Demo.nes Demo.started = (Ok (PyArr 0), s') /\
        calls s' = calls Demo.started ++
          [(N_getNumLegalActions, [CPtr 1]);
           (N_getLegalActionSet, [CPtr 1; CBuf 0 int32 [0; 0; 0]])] /\
        heap s' !! 0%nat = Some a /\ nd_shape a = [3] /\ nd_dtype a = int32 /\
        length (nd_data a) = 3%nat).
Proof.
  assert (Hp : handle_ptr (obj Demo.nes) = Some 1) by reflexivity.
  assert (Hwh : 0 <= 2 * 2 < 2147483648) by lia.
  assert (Hs : ftab Demo.started !! N_getRAMSize = None) by reflexivity.
  assert (Hr : ftab Demo.started !! N_getRAM = None) by reflexivity.
  assert (Hn : fst (getRAMSize Demo.nes Demo.started) = Ok (PyInt 2))
    by (vm_compute; reflexivity).
  assert (Ha : 0 <= c_int_wrap (n_ret (native N_getNumLegalActions [CPtr 1]
                                         (world Demo.started))))
    by (vm_compute; discriminate).
  destruct (fresh_buffers_sized Demo.nes Demo.started 1 Hp) as (Hscreen & Hram & Hacts).
  split; [exact Hp|]. split; [exact Hwh|]. split; [exact Hs|]. split; [exact Hr|].
  split; [exact Hn|]. split; [exact Ha|].
  split; [exact (Hscreen 2 2 eq_refl eq_refl Hwh)|].
  split; [exact (Hram Hs Hr 2 Hn ltac:(lia))|].
  exact (Hacts Ha).
Defined.

(** C2 as stated fails on the cartridge: the native [getRAM] is handed the
    handle and the two-byte buffer and no size at all, and the native
    [getLegalActionSet] likewise. *)
Lemma getRAM_call_unsized :
  fst (getRAMSize Demo.nes Demo.started) = Ok (PyInt 2)
  /\ last (calls (snd (getRAM Demo.nes PyNone Demo.started)))
     = Some (N_getRAM, [CInt 1; CBuf 0 uint8 [0; 0]])
  /\ ~ sized_call (N_getRAM, [CInt 1; CBuf 0 uint8 [0; 0]]) 2
  /\ last (calls (snd (getLegalActionSet Demo.nes Demo.started)))
     = Some (N_getLegalActionSet, [CPtr 1; CBuf 0 int32 [0; 0; 0]])
  /\ ~ sized_call (N_getLegalActionSet, [CPtr 1; CBuf 0 int32 [0; 0; 0]]) 3.
Proof.
  split; [vm_compute; reflexivity|].
  split; [vm_compute; reflexivity|].
  split; [intros (h & l & dt & d & E & _); cbn in E; congruence|].
  split; [vm_compute; reflexivity|].
  intros (h & l & dt & d & E & _); cbn in E; congruence.
Qed.


(** C7 on the cartridge: the interface constructed from the ROM, and its
    2 x 2 screen resolved through the palette into twelve bytes. *)
Lemma getScreenRBG_resolves_witness :
  init Demo.rom Demo.boot = (Ok Demo.nes, Demo.started)
  /\ handle_ptr (obj Demo.nes) = Some 1
  /\ width Demo.nes = Some (PyInt 2) /\ height Demo.nes = Some (PyInt 2)
  /\ 0 <= 2
  /\ (exists p w h sc,
        handle_ptr (obj Demo.nes) = Some p /\
        getScreenDims {| obj := obj Demo.nes; width := None; height := None |} sc
        = (Ok (PyInt w, PyInt h), Demo.started) /\
        width Demo.nes = Some (PyInt w) /\ height Demo.nes = Some (PyInt h))
  /\ (exists s' a,
        getScreenRBG Demo.nes PyNone Demo.started = (Ok (PyArr 1), s') /\
        calls s' = calls Demo.started ++
          [(N_getScreen, [CPtr 1; CBuf 0 uint8 [0; 1; 2; 3]; CInt 4]);
           (N_fillRGBfromPalette,
            [CPtr 1; CBuf 0 uint8 [1; 2; 3; 4];
             CBuf 1 uint8 [0; 1; 2; 3; 4; 5; 6; 7; 8; 9; 10; 11]; CInt 4])] /\
        heap s' !! 1%nat = Some a /\
        nd_shape a = [2; 2; 3] /\ nd_dtype a = uint8 /\
        nd_data a = [1; 86; 171; 2; 87; 172; 3; 88; 173; 4; 89; 174]).
Proof.
  assert (Hinit : init Demo.rom Demo.boot = (Ok Demo.nes, Demo.started))
    by exact demo_constructed.
  assert (Hp : handle_ptr (obj Demo.nes) = Some 1) by reflexivity.
  assert (Hw : width Demo.nes = Some (PyInt 2)) by reflexivity.
  assert (Hh : height Demo.nes = Some (PyInt 2)) by reflexivity.
  assert (H2 : 0 <= 2) by lia.
  destruct (@getScreenRBG_resolves Demo.platform) as [Hdims Hrgb].
  split; [exact Hinit|]. split; [exact Hp|]. split; [exact Hw|]. split; [exact Hh|].
  split; [exact H2|].
  split; [exact (Hdims _ _ _ _ Hinit)|].
  destruct (Hrgb Demo.nes Demo.started 1 2 2 Hp Hw Hh H2 H2)
    as (s' & E & Hc & Hl & Hshape & Hdt & _ & _ & Hfull).
  destruct (Hfull [1; 2; 3; 4] [] [1; 86; 171; 2; 87; 172; 3; 88; 173; 4; 89; 174]
              ltac:(vm_compute; reflexivity) ltac:(vm_compute; reflexivity)
              eq_refl ltac:(repeat constructor; lia)
              eq_refl ltac:(repeat constructor; lia)) as [_ Ha].
  exists s'. eexists. split; [exact E|]. split.
  - rewrite Hc. apply (f_equal (app (calls Demo.started))). vm_compute. reflexivity.
  - split; [exact Hl|]. split; [exact Hshape|]. split; [exact Hdt|exact Ha].
Defined.

(** C3 on the cartridge: in a process whose native library has reached
    the address 2^32 the new instance lies at 2^32 + 1; [getRAM] asks for
    the RAM at address 1, where nothing is, and the session reads no RAM at
    all, where the same session in a pristine process reads two bytes. *)
Lemma episode_step_handles_witness :
  init Demo.rom Demo.crowded = (Ok Demo.far, Demo.distant)
  /\ obj Demo.far = PyInt 4294967297
  /\ 0 <= 4294967297 < 18446744073709551616
  /\ width Demo.far = Some (PyInt 2) /\ height Demo.far = Some (PyInt 2)
  /\ ftab Demo.distant !! N_getRAMSize = None
  /\ ftab Demo.distant !! N_getRAM = None
  /\ 0 <= 2 * 2
  /\ (exists s',
        episode Demo.far [1] Demo.distant
        = (Ok [(PyInt 1, [2; 3; 4; 5], [])], s') /\
        calls s' = calls Demo.distant ++
          [(N_act, [CPtr 4294967297; CInt 1]);
           (N_getScreen, [CPtr 4294967297; CBuf 0 uint8 [0; 0; 0; 0]; CInt 4]);
           (N_getRAMSize, [CInt 1]);
           (N_getRAM, [CInt 1; CBuf 1 uint8 []])])
  /\ fst (session Demo.rom [1; 2] Demo.boot)
     = Ok [(PyInt 1, [2; 3; 4; 5], [6; 1]); (PyInt 2, [4; 5; 6; 7], [8; 3])]
  /\ fst (session Demo.rom [1; 2] Demo.crowded)
     = Ok [(PyInt 1, [2; 3; 4; 5], []); (PyInt 2, [4; 5; 6; 7], [])].
Proof.
  assert (Hinit : init Demo.rom Demo.crowded = (Ok Demo.far, Demo.distant)).
  { rewrite (surjective_pairing (init Demo.rom Demo.crowded)).
    apply (f_equal2 pair); [vm_compute; reflexivity|reflexivity]. }
  assert (Ho : obj Demo.far = PyInt 4294967297) by reflexivity.
  assert (Hr : 0 <= 4294967297 < 18446744073709551616) by lia.
  assert (Hw : width Demo.far = Some (PyInt 2)) by reflexivity.
  assert (Hh : height Demo.far = Some (PyInt 2)) by reflexivity.
  assert (Hs : ftab Demo.distant !! N_getRAMSize = None) by reflexivity.
  assert (Hg : ftab Demo.distant !! N_getRAM = None) by reflexivity.
  assert (Hwh : 0 <= 2 * 2) by lia.
  split; [exact Hinit|]. split; [exact Ho|]. split; [exact Hr|].
  split; [exact Hw|]. split; [exact Hh|]. split; [exact Hs|]. split; [exact Hg|].
  split; [exact Hwh|]. split.
  - destruct (episode_step_handles Demo.far 1 Demo.distant 4294967297 2 2
                Ho Hr Hw Hh Hs Hg Hwh ltac:(vm_compute; discriminate))
      as (s' & E & Hc).
    exists s'. split.
    + rewrite E. apply (f_equal (fun r => (Ok r, s'))). vm_compute. reflexivity.
    + rewrite Hc. apply (f_equal (app (calls Demo.distant))). vm_compute. reflexivity.
  - split; vm_compute; reflexivity.
Defined.

(** C4 on the cartridge: the instance at address 1 was stepped after the
    snapshot at address 2 was taken; the native [cloneState] places the new
    snapshot at 2^32 + 2, Python receives 2, and [restoreState] puts the old
    snapshot back: the RAM the caller reads is no longer what it was. *)
Lemma restore_clone_handles_witness :
  obj Demo.nes = PyInt 1
  /\ 0 <= 1 < 18446744073709551616
  /\ ftab Demo.late !! N_cloneState = None
  /\ ftab Demo.late !! N_restoreState = None
  /\ n_ret (native N_cloneState [CInt 1] (world Demo.late)) = 4294967298
  /\ restore_clone Demo.nes Demo.late
     = (Ok PyNone,
        after_call N_restoreState [CInt 1; CInt 2]
          (after_call N_cloneState [CInt 1] Demo.late))
  /\ fst (observe Demo.nes Demo.late) = Ok ([6; 1], [2; 3; 4; 5], [0; 1; 2])
  /\ fst (observe Demo.nes (snd (restore_clone Demo.nes Demo.late)))
     = Ok ([5; 0], [2; 3; 4; 5], [0; 1; 2]).
Proof.
  assert (Ho : obj Demo.nes = PyInt 1) by reflexivity.
  assert (Hr : 0 <= 1 < 18446744073709551616) by lia.
  assert (Hc : ftab Demo.late !! N_cloneState = None) by reflexivity.
  assert (Hs : ftab Demo.late !! N_restoreState = None) by reflexivity.
  assert (Hn : n_ret (native N_cloneState [CInt 1] (world Demo.late)) = 4294967298)
    by (vm_compute; reflexivity).
  pose proof (restore_clone_handles Demo.nes Demo.late 1 Ho Hr Hc Hs) as E.
  cbv zeta in E. change (c_int_wrap 1) with 1 in E. rewrite Hn in E.
  change (c_int_wrap 4294967298) with 2 in E.
  split; [exact Ho|]. split; [exact Hr|]. split; [exact Hc|]. split; [exact Hs|].
  split; [exact Hn|]. split; [exact E|].
  split; [vm_compute; reflexivity|].
  rewrite E. vm_compute. reflexivity.
Defined.



(** C1 on the cartridge: the snapshot 2 just taken is encoded, [None]
    comes back, and decoding it raises. *)
Lemma decode_encode_on_saved :
  fst (cloneState Demo.nes Demo.started) = Ok (PyInt 2)
  /\ fst (encodeState Demo.nes (PyInt 2) PyNone Demo.saved) = Ok PyNone
  /\ fst (decode_encode Demo.nes (PyInt 2) Demo.saved) = Raise AttributeError.
Proof. repeat split; vm_compute; reflexivity. Qed.

End OnDemo.

(** * Further facts about the binding *)

(** ** What every method keeps *)

Section Kept.

Context `{Platform}.

Notation "'let!' x ':=' m 'in' k" := (bind m (fun x => k))
  (at level 10, x name, m at level 100, k at level 200).
Notation "m '>>' k" := (bind m (fun _ => k))
  (at level 100, k at level 200, right associativity).

Implicit Types (s : pystate) (self : NESInterface) (f : symbol)
  (R : pystate -> pystate -> Prop).

#[global] Instance same_proto_refl f : Reflexive (same_proto f).
Proof. intros s. reflexivity. Qed.

#[global] Instance same_proto_trans f : Transitive (same_proto f).
Proof. intros s1 s2 s3 H12 H23. unfold same_proto in *. congruence. Qed.

#[global] Instance same_heap_refl : Reflexive same_heap.
Proof. intros s. reflexivity. Qed.

#[global] Instance same_heap_trans : Transitive same_heap.
Proof. intros s1 s2 s3 H12 H23. unfold same_heap in *. congruence. Qed.

Lemma keeps_ret {A} R `{!Reflexive R} (a : A) : keeps R (ret a).
Proof. intros s. reflexivity. Qed.

Lemma keeps_raise {A} R `{!Reflexive R} e : keeps R (@raise _ A e).
Proof. intros s. reflexivity. Qed.

Lemma keeps_bind {A B} R `{!Transitive R} (m : M A) (k : A -> M B) :
  keeps R m -> (forall a, keeps R (k a)) -> keeps R (bind m k).
Proof.
  intros Hm Hk s. unfold bind. specialize (Hm s).
  destruct (m s) as [[a|e] s1]; cbn in *; [|exact Hm].
  etransitivity; [exact Hm|apply Hk].
Qed.

Lemma keeps_lift {A} R (m : M A) : keeps R m -> keeps R (lift m).
Proof.
  intros Hm s. unfold lift. specialize (Hm s).
  by destruct (m s) as [[a|e] s1].
Qed.

Lemma keeps_bindS {A B} R `{!Transitive R} (m : MS A) (k : A -> MS B) :
  keeps R m -> (forall a, keeps R (k a)) -> keeps R (bindS m k).
Proof.
  intros Hm Hk s. unfold bindS. specialize (Hm s).
  destruct (m s) as [[a|e] s1]; cbn in *; [|exact Hm].
  etransitivity; [exact Hm|apply Hk].
Qed.

Lemma inert_keeps {A} R `{!Reflexive R} (m : M A) : inert m -> keeps R m.
Proof. intros Hm s. rewrite Hm. reflexivity. Qed.

Lemma inert_deref l : inert (deref l).
Proof. intros s. unfold deref. by destruct (heap s !! l). Qed.

Lemma inert_bind {A B} (m : M A) (k : A -> M B) :
  inert m -> (forall a, inert (k a)) -> inert (bind m k).
Proof.
  intros Hm Hk s. unfold bind. specialize (Hm s).
  destruct (m s) as [[a|e] s1]; cbn in *; subst; [apply Hk|done].
Qed.

Lemma inert_ret {A} (a : A) : inert (ret a).
Proof. done. Qed.

Lemma inert_raise {A} e : inert (@raise _ A e).
Proof. done. Qed.

Lemma inert_as_ctypes v : inert (as_ctypes v).
Proof.
  destruct v; try apply inert_raise.
  apply inert_bind; [apply inert_deref|].
  intros a. destruct (_ && _); [|apply inert_raise].
  destruct (nd_shape a); apply inert_ret.
Qed.

Lemma inert_py_size v : inert (py_size v).
Proof.
  destruct v; try apply inert_raise.
  apply inert_bind; [apply inert_deref|]. intros a. apply inert_ret.
Qed.

Lemma inert_py_len v : inert (py_len v).
Proof.
  destruct v; try apply inert_raise.
  apply inert_bind; [apply inert_deref|].
  intros a. destruct (nd_shape a); [apply inert_raise|apply inert_ret].
Qed.

Lemma inert_py_int v : inert (py_int v).
Proof. intros s. apply py_int_state. Qed.

Lemma inert_py_mul v w : inert (py_mul v w).
Proof.
  unfold py_mul. destruct (dim_of v), (dim_of w);
    first [apply inert_ret|apply inert_raise].
Qed.

Lemma inert_mk_c_int v : inert (mk_c_int v).
Proof. destruct v; first [apply inert_ret|apply inert_raise]. Qed.

Lemma inert_eq_None_truth v : inert (eq_None_truth v).
Proof.
  destruct v; try apply inert_ret.
  apply inert_bind; [apply inert_deref|].
  intros a. destruct (nd_data a) as [|x [|y r]];
    [destruct empty_truth_raises| |]; first [apply inert_ret|apply inert_raise].
Qed.

Lemma inert_attr o : inert (attr o).
Proof. destruct o; first [apply inert_ret|apply inert_raise]. Qed.

(** *** The prototypes *)

Lemma keeps_set_argtypes f g ts : f <> g -> keeps (same_proto f) (set_argtypes g ts).
Proof. intros Hne s. unfold same_proto. cbn. by rewrite lookup_insert_ne. Qed.

Lemma keeps_set_restype f g t : f <> g -> keeps (same_proto f) (set_restype g t).
Proof. intros Hne s. unfold same_proto. cbn. by rewrite lookup_insert_ne. Qed.

Lemma ftab_foreign_call g args s : ftab (snd (foreign_call g args s)) = ftab s.
Proof. unfold foreign_call. by destruct (marshal _ _ _). Qed.

Lemma keeps_proto_foreign_call f g args : keeps (same_proto f) (foreign_call g args).
Proof. intros s. unfold same_proto. by rewrite ftab_foreign_call. Qed.

Lemma keeps_proto_np_zeros f shape dt : keeps (same_proto f) (np_zeros shape dt).
Proof.
  intros s. unfold np_zeros.
  destruct (dims_of shape) as [sh|e]; [|done]. by destruct (nonneg_shape sh).
Qed.

Lemma keeps_proto_np_empty f shape dt : keeps (same_proto f) (np_empty shape dt).
Proof.
  intros s. unfold np_empty.
  destruct (dims_of shape) as [sh|e]; [|done]. by destruct (nonneg_shape sh).
Qed.

Lemma keeps_slice_all R `{!Reflexive R} v : keeps R (slice_all v).
Proof.
  intros s. destruct v as [| | |l]; try reflexivity.
  unfold slice_all, bindS, lift, deref.
  destruct (heap s !! l) as [a|]; [|reflexivity].
  destruct (nd_shape a); reflexivity.
Qed.

(** *** The arrays *)

Lemma keeps_heap_set_argtypes g ts : keeps same_heap (set_argtypes g ts).
Proof. by intros s. Qed.

Lemma keeps_heap_set_restype g t : keeps same_heap (set_restype g t).
Proof. by intros s. Qed.

Lemma from_param_val_no_buffer (h : list ndarray) t v c :
  from_param h t (AVal v) = Ok c -> forall l dt d, c <> CBuf l dt d.
Proof. destruct t, v; cbn; intros [= <-]; done. Qed.

Lemma default_param_val_scalar (h : list ndarray) v c :
  default_param h (AVal v) = Ok c -> forall l dt d, c <> CBuf l dt d.
Proof.
  destruct v; cbn; try case_decide; intros [= <-]; done.
Qed.

Lemma marshal_typed_vals (h : list ndarray) ts vs cs :
  marshal_typed h ts (map AVal vs) = Ok cs ->
  Forall (fun c => forall l dt d, c <> CBuf l dt d) cs.
Proof.
  revert ts cs. induction vs as [|v vs IH]; intros ts cs.
  - destruct ts; cbn; intros [= <-]; constructor.
  - destruct ts as [|t ts]; cbn [marshal_typed map].
    + destruct (default_param h (AVal v)) as [c|e] eqn:Ec;
        [|by destruct (marshal_typed h [] (map AVal vs))].
      destruct (marshal_typed h [] (map AVal vs)) as [cs'|e] eqn:Ecs; [|done].
      intros [= <-]. constructor; [by eapply default_param_val_scalar|by eapply IH].
    + destruct (from_param h t (AVal v)) as [c|e] eqn:Ec;
        [|by destruct (marshal_typed h ts (map AVal vs))].
      destruct (marshal_typed h ts (map AVal vs)) as [cs'|e] eqn:Ecs; [|done].
      intros [= <-]. constructor; [by eapply from_param_val_no_buffer|by eapply IH].
Qed.

Lemma write_back_scalars cs outs (h : list ndarray) :
  Forall (fun c => forall l dt d, c <> CBuf l dt d) cs -> write_back cs outs h = h.
Proof.
  induction 1 as [|c cs Hc _ IH]; [done|].
  destruct c; cbn; try exact IH. by destruct (Hc l dt data).
Qed.

Lemma heap_foreign_call_vals g vs s :
  heap (snd (foreign_call g (map AVal vs) s)) = heap s.
Proof.
  unfold foreign_call.
  destruct (marshal _ _ _) as [cs|e] eqn:E; [|done]. cbn.
  apply write_back_scalars. unfold marshal in E.
  destruct (argtypes _); by eapply marshal_typed_vals.
Qed.

Lemma keeps_heap_call1 g v : keeps same_heap (foreign_call g [AVal v]).
Proof. intros s. apply (heap_foreign_call_vals g [v]). Qed.

Lemma keeps_heap_call2 g v w : keeps same_heap (foreign_call g [AVal v; AVal w]).
Proof. intros s. apply (heap_foreign_call_vals g [v; w]). Qed.

End Kept.

Create HintDb inert.

#[global] Hint Resolve inert_deref inert_ret inert_raise inert_as_ctypes inert_py_size
  inert_py_len inert_py_int inert_py_mul inert_mk_c_int inert_eq_None_truth
  inert_attr : inert.

(** The symbol declared is none of those never declared. *)
Ltac undeclared_side :=
  first
    [ discriminate
    | intros ->;
      match goal with
      | Hf : In _ never_declared |- _ => cbn in Hf; intuition discriminate
      end ].

(** One step through a method, for a relation it keeps. *)
Ltac kept_step :=
  first
    [ match goal with
      | |- Transitive _ => apply _
      | |- Reflexive _ => apply _
      end
    | apply keeps_bind; [..|intros ?]
    | apply keeps_bindS; [..|intros ?]
    | apply keeps_lift
    | apply keeps_ret
    | apply keeps_raise
    | apply keeps_slice_all
    | apply keeps_set_argtypes; undeclared_side
    | apply keeps_set_restype; undeclared_side
    | apply keeps_proto_foreign_call
    | apply keeps_proto_np_zeros
    | apply keeps_proto_np_empty
    | apply keeps_heap_set_argtypes
    | apply keeps_heap_set_restype
    | apply keeps_heap_call1
    | apply keeps_heap_call2
    | apply inert_keeps; [..|solve [auto with inert]]
    | match goal with
      | |- keeps _ (if ?b then _ else _) => destruct b
      | |- keeps _ (match ?x with _ => _ end) => destruct x
      end ].

Ltac kept := repeat kept_step.

Section KeptByMethods.

Context `{Platform}.

Implicit Types (s : pystate) (self : NESInterface) (f : symbol).

Lemma init_proto f rom :
  In f never_declared -> keeps (same_proto f) (init rom).
Proof.
  intros Hf. unfold init, getScreenDims; kept.
Qed.

Lemma effect_proto self c f :
  In f never_declared -> forall s, ftab (effect self c s) !! f = ftab s !! f.
Proof.
  intros Hf. change (keeps (same_proto f) (fun s => (tt, effect self c s))).
  destruct c; intros s; cbn [effect snd];
    match goal with
    | |- same_proto ?f s (snd (?m s)) => revert s; change (keeps (same_proto f) m)
    end;
    unfold act, game_over, reset_game, getMinimalActionSet, getLegalActionSet,
      getFrameNumber, lives, getEpisodeFrameNumber, getScreenDims, getScreen,
      getScreenRBG, getScreenGrayscale, getRAMSize, getRAM, saveState, loadState,
      cloneState, restoreState, cloneSystemState, restoreSystemState, deleteState,
      encodeStateLen, encodeState, decodeState, __del__;
    kept.
Qed.

Lemma effects_cons self c cs s :
  effects self (c :: cs) s = effects self cs (effect self c s).
Proof. reflexivity. Qed.

(** X1.  No method, and no sequence of methods, assigns a prototype to
    one of the ten symbols the module calls without declaring them, and
    neither does the constructor: whatever was called before, these symbols
    are called with the prototype they had. *)
Theorem prototypes_never_assigned self cs rom s :
  Forall (fun f =>
            ftab (effects self cs s) !! f = ftab s !! f /\
            ftab (snd (init rom s)) !! f = ftab s !! f)
         never_declared.
Proof.
  apply Forall_forall. intros f Hf. apply list_elem_of_In in Hf. split.
  - revert s. induction cs as [|c cs IH]; intros s; [done|].
    rewrite effects_cons, IH. by apply effect_proto.
  - by apply init_proto.
Qed.

Lemma effect_heap self c s : scalar c = true -> heap (effect self c s) = heap s.
Proof.
  intros Hc. destruct c; try discriminate Hc; cbn [effect];
    match goal with
    | |- heap (snd (?m s)) = heap s => revert s; change (keeps same_heap m)
    end;
    unfold act, game_over, reset_game, getFrameNumber, lives,
      getEpisodeFrameNumber, getScreenDims, getRAMSize, saveState, loadState,
      cloneState, restoreState, cloneSystemState, restoreSystemState, deleteState,
      encodeStateLen, __del__;
    kept.
Qed.

(** X2.  The calls that hand the native code only numbers and handles
    leave every numpy array of the process as it is, whether they return or
    raise, and so does any sequence of them. *)
Theorem scalar_calls_leave_arrays self cs s :
  forallb scalar cs = true -> heap (effects self cs s) = heap s.
Proof.
  revert s. induction cs as [|c cs IH]; intros s Hcs; [done|].
  cbn in Hcs. apply andb_prop in Hcs as [Hc Hcs].
  rewrite effects_cons, IH by done. by apply effect_heap.
Qed.

End KeptByMethods.

(** ** Construction and stepping *)

Section Construction.

Context `{Platform}.

Notation "'let!' x ':=' m 'in' k" := (bind m (fun x => k))
  (at level 10, x name, m at level 100, k at level 200).
Notation "m '>>' k" := (bind m (fun _ => k))
  (at level 100, k at level 200, right associativity).

Implicit Types (s : pystate) (self : NESInterface) (f : symbol).

Lemma convert_void_p raw :
  convert_result (Some c_void_p) raw
  = if ptr_wrap raw =? 0 then PyNone else PyInt (ptr_wrap raw).
Proof. reflexivity. Qed.

(** X3.  [__init__] never checks what the native constructor answered:
    for every ROM path that can be encoded it returns an instance after
    exactly three native calls, the constructor on the encoded path and the
    two dimension queries on the handle; when the constructor answers the
    null pointer, [obj] is [None] and the queries are made on the null
    pointer. *)
Theorem init_never_fails rom bs s :
  utf8_encode rom = Some bs ->
  let p := ptr_wrap (n_ret (native N_NESInterface [CStr bs] (world s))) in
  exists self s',
    init rom s = (Ok self, s') /\
    obj self = (if p =? 0 then PyNone else PyInt p) /\
    calls s' = calls s ++
      [(N_NESInterface, [CStr bs]);
       (N_getScreenWidth, [CPtr p]); (N_getScreenHeight, [CPtr p])].
Proof.
  intros Hbs p. rewrite (init_spec _ _ _ Hbs). cbv zeta.
  erewrite getScreenDims_spec by apply handle_ptr_result. cbv zeta.
  eexists _, _. split; [reflexivity|]. split; [apply convert_void_p|].
  norm. by rewrite <- !app_assoc.
Qed.

Lemma utf8_surrogate rom c :
  In c rom -> 55296 <= c < 57344 -> utf8_encode rom = None.
Proof.
  induction rom as [|x rom IH]; [done|].
  intros [->|Hin] Hc; cbn [utf8_encode].
  - unfold utf8_char. repeat (case_decide; try lia). done.
  - rewrite (IH Hin Hc). by destruct (utf8_char x).
Qed.

(** X4.  A ROM path holding a surrogate code point cannot be encoded:
    [__init__] raises [UnicodeEncodeError] once the prototype of
    [NESInterface] is declared and before any native call; nothing but that
    prototype has changed, the library and the arrays are untouched. *)
Theorem init_unencodable rom c s :
  In c rom -> 55296 <= c < 57344 ->
  let declared :=
    upd_proto N_NESInterface
      {| argtypes := Some [c_char_p]; restype := Some c_void_p |} s in
  init rom s = (Raise UnicodeEncodeError, declared) /\
  calls declared = calls s /\ world declared = world s /\ heap declared = heap s.
Proof.
  intros Hin Hc declared. unfold init.
  rewrite declare, (utf8_surrogate _ _ Hin Hc).
  split; [reflexivity|]. by norm.
Qed.

Lemma c_int_wrap_period a k : c_int_wrap (a + k * 4294967296) = c_int_wrap a.
Proof.
  unfold c_int_wrap.
  replace (a + k * 4294967296 + 2147483648) with (a + 2147483648 + k * 4294967296) by lia.
  by rewrite Z.mod_add.
Qed.

Lemma act_int self a s :
  act self (PyInt a) s
  = foreign_call N_act [AVal (obj self); AVal (PyInt (c_int_wrap a))]
      (upd_proto N_act
         {| argtypes := Some [c_void_p; c_int]; restype := Some c_int |} s).
Proof.
  unfold act. rewrite declare. cbn [py_int]. rewrite step_ret.
  unfold foreign_call. rewrite proto_of_upd_eq.
  cbn [marshal marshal_typed argtypes from_param].
  assert (Hw : c_int_wrap (c_int_wrap a) = c_int_wrap a)
    by (apply c_int_wrap_id, c_int_wrap_fits).
  by rewrite Hw.
Qed.

(** X5.  [act] takes its action modulo 2^32: an index outside the range
    of a C [int] is not refused, it is the action it wraps to. *)
Theorem act_wraps_action self a k s :
  act self (PyInt (a + k * 4294967296)) s = act self (PyInt a) s.
Proof. by rewrite (act_int _ (a + _)), c_int_wrap_period, <- act_int. Qed.

(** X6.  An action [int()] refuses, [None] or an array that does not
    hold exactly one element, makes [act] raise what [int()] raises, after
    the prototype of the native [act] has been declared and without a
    native call. *)
Theorem act_refuses_action self action e s :
  fst (py_int action s) = Raise e ->
  act self action s
  = (Raise e,
     upd_proto N_act {| argtypes := Some [c_void_p; c_int]; restype := Some c_int |} s).
Proof.
  intros He. unfold act. rewrite declare.
  set (s0 := upd_proto _ _ s).
  assert (Hs0 : py_int action s0 = (Raise e, s0)).
  { rewrite (surjective_pairing (py_int action s0)), py_int_state.
    by rewrite (py_int_heap action s s0), He. }
  by rewrite (bind_run _ _ _ _ _ Hs0).
Qed.

End Construction.

(** ** Handles and numbers across the boundary *)

Section Scalars.

Context `{Platform}.

Notation "'let!' x ':=' m 'in' k" := (bind m (fun x => k))
  (at level 10, x name, m at level 100, k at level 200).
Notation "m '>>' k" := (bind m (fun _ => k))
  (at level 100, k at level 200, right associativity).

Implicit Types (s : pystate) (self : NESInterface) (f : symbol).

(** A method that declares [f] as taking the handle and calls it on
    [self.obj]. *)
Lemma declared_query f rt self s p :
  handle_ptr (obj self) = Some p ->
  (set_argtypes f [c_void_p] >> set_restype f rt >>
   foreign_call f [AVal (obj self)]) s
  = (Ok (convert_result rt (n_ret (native f [CPtr p] (world s)))),
     after_call f [CPtr p]
       (upd_proto f {| argtypes := Some [c_void_p]; restype := rt |} s)).
Proof.
  intros Hp. rewrite declare. unfold foreign_call. rewrite proto_of_upd_eq.
  cbn [marshal marshal_typed argtypes].
  erewrite typed_handle by exact Hp. reflexivity.
Qed.

Lemma declared_command f self s p :
  handle_ptr (obj self) = Some p ->
  (set_argtypes f [c_void_p] >> set_restype f None >>
   foreign_call f [AVal (obj self)] >> ret PyNone) s
  = (Ok PyNone,
     after_call f [CPtr p]
       (upd_proto f {| argtypes := Some [c_void_p]; restype := None |} s)).
Proof.
  intros Hp. rewrite declare.
  erewrite step_call; cycle 1.
  { rewrite proto_of_upd_eq. cbn [marshal marshal_typed argtypes].
    erewrite typed_handle by exact Hp. reflexivity. }
  reflexivity.
Qed.

(** X7.  The counters and commands marshal alike: [getFrameNumber],
    [lives] and [getEpisodeFrameNumber] hand their native function the
    instance handle as a pointer and return its answer as a C [int];
    [loadState] returns the answer as a boolean; [reset_game], [saveState]
    and [__del__] return [None].  Each makes that one native call. *)
Theorem counters_and_commands self s p :
  handle_ptr (obj self) = Some p ->
  let declared f rt := upd_proto f {| argtypes := Some [c_void_p]; restype := rt |} s in
  let answer f := n_ret (native f [CPtr p] (world s)) in
  getFrameNumber self s
  = (Ok (PyInt (c_int_wrap (answer N_getFrameNumber))),
     after_call N_getFrameNumber [CPtr p] (declared N_getFrameNumber (Some c_int)))
  /\ lives self s
     = (Ok (PyInt (c_int_wrap (answer N_lives))),
        after_call N_lives [CPtr p] (declared N_lives (Some c_int)))
  /\ getEpisodeFrameNumber self s
     = (Ok (PyInt (c_int_wrap (answer N_getEpisodeFrameNumber))),
        after_call N_getEpisodeFrameNumber [CPtr p]
          (declared N_getEpisodeFrameNumber (Some c_int)))
  /\ loadState self s
     = (Ok (PyBool (negb (answer N_loadState mod 256 =? 0))),
        after_call N_loadState [CPtr p] (declared N_loadState (Some c_bool)))
  /\ reset_game self s
     = (Ok PyNone, after_call N_resetGame [CPtr p] (declared N_resetGame None))
  /\ saveState self s
     = (Ok PyNone, after_call N_saveState [CPtr p] (declared N_saveState None))
  /\ __del__ self s
     = (Ok PyNone, after_call N_delete_NES [CPtr p] (declared N_delete_NES None)).
Proof.
  intros Hp declared answer.
  split; [exact (declared_query _ _ _ _ _ Hp)|].
  split; [exact (declared_query _ _ _ _ _ Hp)|].
  split; [exact (declared_query _ _ _ _ _ Hp)|].
  split; [exact (declared_query _ _ _ _ _ Hp)|].
  split; [exact (declared_command _ _ _ _ Hp)|].
  split; [exact (declared_query _ _ _ _ _ Hp)|].
  exact (declared_command _ _ _ _ Hp).
Qed.

(** *** Calls without a prototype *)

Lemma default_param_low_bits (h h' : list ndarray) z z' :
  -9223372036854775808 <= z < 18446744073709551616 ->
  -9223372036854775808 <= z' < 18446744073709551616 ->
  z mod 4294967296 = z' mod 4294967296 ->
  default_param h (AVal (PyInt z)) = default_param h' (AVal (PyInt z')).
Proof.
  intros Hz Hz' Hm. cbn. rewrite !decide_True by done.
  do 2 f_equal. unfold c_int_wrap.
  rewrite (Z.add_mod z), (Z.add_mod z'), Hm by lia. reflexivity.
Qed.

Lemma untyped_call_congr f v v' rest s :
  ftab s !! f = None ->
  default_param (heap s) (AVal v) = default_param (heap s) (AVal v') ->
  foreign_call f (AVal v :: rest) s = foreign_call f (AVal v' :: rest) s.
Proof.
  intros Hf Hv. unfold foreign_call. rewrite (proto_of_unset _ _ Hf).
  cbn [marshal marshal_typed argtypes fproto_default]. by rewrite Hv.
Qed.

Lemma untyped_call_congr2 f u v v' s :
  ftab s !! f = None ->
  default_param (heap s) (AVal v) = default_param (heap s) (AVal v') ->
  foreign_call f [u; AVal v] s = foreign_call f [u; AVal v'] s.
Proof.
  intros Hf Hv. unfold foreign_call. rewrite (proto_of_unset _ _ Hf).
  cbn [marshal marshal_typed argtypes fproto_default]. by rewrite Hv.
Qed.

Lemma bind_congr {A B} (m m' : M A) (k k' : A -> M B) s :
  m s = m' s -> (forall a, k a (snd (m s)) = k' a (snd (m s))) ->
  bind m k s = bind m' k' s.
Proof.
  intros Hm Hk. unfold bind. rewrite <- Hm.
  destruct (m s) as [[a|e] s1]; [apply Hk|done].
Qed.

Lemma ftab_inert {A} (m : M A) s : inert m -> ftab (snd (m s)) = ftab s.
Proof. intros Hm. by rewrite Hm. Qed.

Lemma ftab_np_zeros shape dt s : ftab (snd (np_zeros shape dt s)) = ftab s.
Proof.
  unfold np_zeros. destruct (dims_of shape) as [sh|e]; [|done].
  by destruct (nonneg_shape sh).
Qed.

Lemma heap_inert {A} (m : M A) s : inert m -> heap (snd (m s)) = heap s.
Proof. intros Hm. by rewrite Hm. Qed.

Lemma unset_lookup s f : unset s -> In f never_declared -> ftab s !! f = None.
Proof.
  intros Hs Hf. unfold unset in Hs. rewrite Forall_forall in Hs.
  apply Hs. by apply list_elem_of_In.
Qed.

(** X8.  The calls without a prototype see only the low 32 bits of a
    handle: two instances whose handles agree modulo 2^32 are the same
    instance to [getRAMSize], [getRAM], [cloneState], [restoreState],
    [cloneSystemState] and [restoreSystemState], and two state handles that
    agree modulo 2^32 are the same state to [restoreState], [deleteState]
    and [encodeStateLen]. *)
Theorem untyped_calls_truncate_handles self self' p p' s :
  unset s ->
  obj self = PyInt p -> obj self' = PyInt p' ->
  0 <= p < 18446744073709551616 -> 0 <= p' < 18446744073709551616 ->
  p mod 4294967296 = p' mod 4294967296 ->
  getRAMSize self s = getRAMSize self' s
  /\ (forall ram, getRAM self ram s = getRAM self' ram s)
  /\ cloneState self s = cloneState self' s
  /\ cloneSystemState self s = cloneSystemState self' s
  /\ (forall state,
        restoreState self state s = restoreState self' state s /\
        restoreSystemState self state s = restoreSystemState self' state s)
  /\ (forall z z',
        0 <= z < 18446744073709551616 -> 0 <= z' < 18446744073709551616 ->
        z mod 4294967296 = z' mod 4294967296 ->
        restoreState self (PyInt z) s = restoreState self (PyInt z') s /\
        deleteState self (PyInt z) s = deleteState self (PyInt z') s /\
        encodeStateLen self (PyInt z) s = encodeStateLen self (PyInt z') s).
Proof.
  intros Hs Ho Ho' Hp Hp' Hm.
  assert (Hobj : forall h : list ndarray,
            default_param h (AVal (obj self)) = default_param h (AVal (obj self'))).
  { intros h. rewrite Ho, Ho'. apply default_param_low_bits; [lia|lia|done]. }
  assert (Hf : forall f, In f never_declared -> ftab s !! f = None)
    by (intros f; by apply unset_lookup).
  split; [apply untyped_call_congr; [apply Hf; cbn; tauto|apply Hobj]|].
  split.
  { intros ram. unfold getRAM. apply bind_congr.
    - destruct (is_None ram); [|done].
      apply bind_congr; [|done].
      apply untyped_call_congr; [apply Hf; cbn; tauto|apply Hobj].
    - intros a. apply bind_congr; [done|]. intros b.
      apply bind_congr; [|done].
      apply untyped_call_congr; [|apply Hobj].
      rewrite (ftab_inert _ _ (inert_as_ctypes a)).
      match goal with
      | |- ftab (snd (?m s)) !! ?f = None =>
          assert (Hk : keeps (same_proto f) m) by kept; rewrite (Hk s)
      end.
      apply Hf; cbn; tauto. }
  split; [apply untyped_call_congr; [apply Hf; cbn; tauto|apply Hobj]|].
  split; [apply untyped_call_congr; [apply Hf; cbn; tauto|apply Hobj]|].
  split.
  { intros state. split.
    - unfold restoreState. apply bind_congr; [|done].
      apply untyped_call_congr; [apply Hf; cbn; tauto|apply Hobj].
    - unfold restoreSystemState. apply bind_congr; [|done].
      apply untyped_call_congr; [apply Hf; cbn; tauto|apply Hobj]. }
  intros z z' Hz Hz' Hzm.
  assert (Hst : forall h : list ndarray,
            default_param h (AVal (PyInt z)) = default_param h (AVal (PyInt z'))).
  { intros h. apply default_param_low_bits; [lia|lia|done]. }
  split; [|split].
  - unfold restoreState. apply bind_congr; [|done].
    apply untyped_call_congr2; [apply Hf; cbn; tauto|apply Hst].
  - unfold deleteState. apply bind_congr; [|done].
    apply untyped_call_congr; [apply Hf; cbn; tauto|apply Hst].
  - apply untyped_call_congr; [apply Hf; cbn; tauto|apply Hst].
Qed.

Lemma untyped_result f args s r s' :
  ftab s !! f = None -> foreign_call f args s = (Ok r, s') ->
  exists z, r = PyInt z /\ fits_c_int z.
Proof.
  intros Hf. unfold foreign_call. rewrite (proto_of_unset _ _ Hf).
  destruct (marshal _ _ _) as [cs|e]; [|done].
  intros [= <- _]. eexists. split; [reflexivity|apply c_int_wrap_fits].
Qed.

(** X9.  What the calls without a prototype return is a C [int]: the
    state handles of [cloneState], [cloneSystemState] and [decodeState] and
    the sizes of [getRAMSize] and [encodeStateLen] come back as integers
    within 32 bits, whatever the native code answered. *)
Theorem untyped_results_are_c_ints self s :
  unset s ->
  (forall r s', cloneState self s = (Ok r, s') -> exists z, r = PyInt z /\ fits_c_int z)
  /\ (forall r s', cloneSystemState self s = (Ok r, s') ->
        exists z, r = PyInt z /\ fits_c_int z)
  /\ (forall r s', getRAMSize self s = (Ok r, s') -> exists z, r = PyInt z /\ fits_c_int z)
  /\ (forall state r s', encodeStateLen self state s = (Ok r, s') ->
        exists z, r = PyInt z /\ fits_c_int z)
  /\ (forall serialized r s', decodeState self serialized s = (Ok r, s') ->
        exists z, r = PyInt z /\ fits_c_int z).
Proof.
  intros Hs.
  assert (Hf : forall f, In f never_declared -> ftab s !! f = None)
    by (intros f; by apply unset_lookup).
  split; [intros r s'; apply untyped_result; apply Hf; cbn; tauto|].
  split; [intros r s'; apply untyped_result; apply Hf; cbn; tauto|].
  split; [intros r s'; apply untyped_result; apply Hf; cbn; tauto|].
  split; [intros state r s'; apply untyped_result; apply Hf; cbn; tauto|].
  intros serialized r s'. unfold decodeState, bind.
  destruct (as_ctypes serialized s) as [[b|e] s1] eqn:E1; [|done].
  destruct (py_len serialized s1) as [[n|e] s2] eqn:E2; [|done].
  apply untyped_result.
  assert (H2 : s2 = s1) by (rewrite <- (inert_py_len serialized s1); by rewrite E2).
  assert (H1 : s1 = s) by (rewrite <- (inert_as_ctypes serialized s); by rewrite E1).
  subst s2 s1. apply Hf; cbn; tauto.
Qed.

(** X10.  A state argument is converted by the ctypes defaults: [None]
    reaches the native code as the null pointer, and an array or an integer
    beyond 64 bits makes [restoreState], [restoreSystemState] and
    [deleteState] raise [ArgumentError] before anything is called. *)
Theorem state_argument_conversion self st s uh :
  unset s ->
  default_param (heap s) (AVal (obj self)) = Ok uh ->
  ((exists l, st = PyArr l) \/
   (exists z, st = PyInt z /\ ~ -9223372036854775808 <= z < 18446744073709551616) ->
   restoreState self st s = (Raise ArgumentError, s) /\
   restoreSystemState self st s = (Raise ArgumentError, s) /\
   deleteState self st s = (Raise ArgumentError, s))
  /\ restoreState self PyNone s
     = (Ok PyNone, after_call N_restoreState [uh; CPtr 0] s)
  /\ restoreSystemState self PyNone s
     = (Ok PyNone, after_call N_restoreSystemState [uh; CPtr 0] s)
  /\ deleteState self PyNone s = (Ok PyNone, after_call N_deleteState [CPtr 0] s).
Proof.
  intros Hs Huh.
  assert (Hf : forall f, In f never_declared -> ftab s !! f = None)
    by (intros f; by apply unset_lookup).
  assert (Hr : proto_of s N_restoreState = fproto_default)
    by (apply proto_of_unset, Hf; cbn; tauto).
  assert (Hrs : proto_of s N_restoreSystemState = fproto_default)
    by (apply proto_of_unset, Hf; cbn; tauto).
  assert (Hd : proto_of s N_deleteState = fproto_default)
    by (apply proto_of_unset, Hf; cbn; tauto).
  split.
  { intros Hst.
    assert (Hbad : forall h : list ndarray, default_param h (AVal st) = Raise ArgumentError).
    { intros h. destruct Hst as [[l ->]|(z & -> & Hz)]; cbn; [done|].
      by rewrite decide_False. }
    unfold restoreState, restoreSystemState, deleteState, bind, foreign_call.
    rewrite Hr, Hrs, Hd. cbn [marshal marshal_typed argtypes fproto_default].
    by rewrite Huh, Hbad. }
  unfold restoreState, restoreSystemState, deleteState, bind, foreign_call.
  rewrite Hr, Hrs, Hd. cbn [marshal marshal_typed argtypes fproto_default].
  rewrite Huh. cbn [default_param]. done.
Qed.

End Scalars.

(** ** Buffers *)

Section Buffers.

Context `{Platform}.

Notation "'let!' x ':=' m 'in' k" := (bind m (fun x => k))
  (at level 10, x name, m at level 100, k at level 200).
Notation "m '>>' k" := (bind m (fun _ => k))
  (at level 100, k at level 200, right associativity).

Implicit Types (s : pystate) (self : NESInterface) (f : symbol).

(** X11.  A size the native code answers as a negative C [int] is not
    checked: [getLegalActionSet] and [getRAM] raise the [ValueError] of
    [np.zeros] after the size query, without the call that fills the
    buffer and without allocating, and [getScreen] raises it before any
    native call when [width * height] is negative. *)
Theorem negative_sizes_raise self s p :
  handle_ptr (obj self) = Some p ->
  (c_int_wrap (n_ret (native N_getNumLegalActions [CPtr p] (world s))) < 0 ->
   exists s',
     getLegalActionSet self s = (Raise ValueError, s') /\
     calls s' = calls s ++ [(N_getNumLegalActions, [CPtr p])] /\
     heap s' = heap s)
  /\ (ftab s !! N_getRAMSize = None -> ftab s !! N_getRAM = None ->
      c_int_wrap (n_ret (native N_getRAMSize [untyped_handle (obj self)] (world s))) < 0 ->
      exists s',
        getRAM self PyNone s = (Raise ValueError, s') /\
        calls s' = calls s ++ [(N_getRAMSize, [untyped_handle (obj self)])] /\
        heap s' = heap s)
  /\ (forall w h,
        width self = Some (PyInt w) -> height self = Some (PyInt h) -> w * h < 0 ->
        getScreen self PyNone s = (Raise ValueError, s)).
Proof.
  intros Hp. split; [|split].
  - intros Hn. rewrite (getLegalActionSet_spec _ _ _ Hp). cbv zeta.
    rewrite decide_False by lia. eexists. split; [reflexivity|]. by norm.
  - intros Hsz Hram Hn. rewrite (getRAM_fresh _ _ _ Hp Hsz Hram). cbv zeta.
    rewrite decide_False by lia. eexists. split; [reflexivity|].
    norm. by rewrite untyped_handle_no_buffer.
  - intros w h Hw Hh Hn. rewrite (getScreen_fresh _ _ _ _ _ Hw Hh Hp).
    by rewrite decide_False by lia.
Qed.

Lemma as_ctypes_refused l a s :
  heap s !! l = Some a -> nd_contiguous a && nd_writeable a = false ->
  as_ctypes (PyArr l) s = (Raise TypeError, s).
Proof.
  intros Hl Hf. unfold as_ctypes, bind, deref. by rewrite Hl, Hf.
Qed.

Lemma as_ctypes_scalar v s :
  (forall l, v <> PyArr l) -> as_ctypes v s = (Raise AttributeError, s).
Proof. intros Hv. destruct v; try done. by destruct (Hv l). Qed.

(** X12.  [decodeState] hands the native code the memory of the array
    and, as the length, its first dimension, and returns the answer as a
    C [int]; an array that is read-only or not contiguous is refused with
    [TypeError], anything that is not an array with [AttributeError], both
    before the native code is called. *)
Theorem decodeState_marshals self s :
  ftab s !! N_decodeState = None ->
  (forall l a d sh,
     heap s !! l = Some a -> nd_contiguous a = true -> nd_writeable a = true ->
     nd_shape a = d :: sh -> 0 <= d < 18446744073709551616 ->
     let cs := [CBuf l (nd_dtype a) (nd_data a); CInt (c_int_wrap d)] in
     decodeState self (PyArr l) s
     = (Ok (PyInt (c_int_wrap (n_ret (native N_decodeState cs (world s))))),
        after_call N_decodeState cs s))
  /\ (forall l a,
        heap s !! l = Some a -> nd_contiguous a && nd_writeable a = false ->
        decodeState self (PyArr l) s = (Raise TypeError, s))
  /\ (forall v, (forall l, v <> PyArr l) ->
        decodeState self v s = (Raise AttributeError, s)).
Proof.
  intros Hf. split; [|split].
  - intros l a d sh Hl Hc Hw Hsh Hd cs. unfold decodeState.
    erewrite step_as_ctypes; [|exact Hl|done|done|by rewrite Hsh].
    erewrite step_py_len by eassumption.
    unfold foreign_call. rewrite (proto_of_unset _ _ Hf).
    cbn [marshal marshal_typed argtypes fproto_default default_param].
    erewrite buffer_of_lookup by exact Hl.
    rewrite decide_True by lia. reflexivity.
  - intros l a Hl Hbad. unfold decodeState.
    by rewrite (bind_run _ _ _ _ _ (as_ctypes_refused _ _ _ Hl Hbad)).
  - intros v Hv. unfold decodeState.
    by rewrite (bind_run _ _ _ _ _ (as_ctypes_scalar _ _ Hv)).
Qed.

(** X13.  A buffer that is read-only or not contiguous is refused:
    [getScreen], [getScreenRBG] and [getRAM] raise [TypeError] on it without
    calling the native code, and every array is as it was; what is neither
    [None] nor an array is refused with [AttributeError] in the same way. *)
Theorem unusable_buffers_refused self v s :
  let declared :=
    upd_proto N_getScreen
      {| argtypes := Some [c_void_p; c_void_p; c_int]; restype := None |} s in
  (forall l a,
     v = PyArr l -> heap s !! l = Some a ->
     nd_contiguous a && nd_writeable a = false ->
     getScreen self v s = (Raise TypeError, declared) /\
     getScreenRBG self v s = (Raise TypeError, declared) /\
     getRAM self v s = (Raise TypeError, s))
  /\ (v <> PyNone -> (forall l, v <> PyArr l) ->
      getScreen self v s = (Raise AttributeError, declared) /\
      getScreenRBG self v s = (Raise AttributeError, declared) /\
      getRAM self v s = (Raise AttributeError, s)).
Proof.
  intros declared. split.
  - intros l a -> Hl Hbad.
    unfold getScreen, getScreenRBG, getRAM. cbn [is_None].
    rewrite !step_ret, !declare. fold declared.
    assert (Hl' : heap declared !! l = Some a) by exact Hl.
    rewrite !(bind_run _ _ _ _ _ (as_ctypes_refused _ _ _ Hl' Hbad)).
    by rewrite (bind_run _ _ _ _ _ (as_ctypes_refused _ _ _ Hl Hbad)).
  - intros Hnone Hv.
    unfold getScreen, getScreenRBG, getRAM.
    assert (Hn : is_None v = false) by (by destruct v).
    rewrite Hn, !step_ret, !declare. fold declared.
    rewrite !(bind_run _ _ _ _ _ (as_ctypes_scalar _ declared Hv)).
    by rewrite (bind_run _ _ _ _ _ (as_ctypes_scalar _ s Hv)).
Qed.

Lemma written_contiguous outs a : nd_contiguous (written outs a) = nd_contiguous a.
Proof. by destruct outs. Qed.

Lemma written_writeable outs a : nd_writeable (written outs a) = nd_writeable a.
Proof. by destruct outs. Qed.

(** X14.  [getScreenRBG] with a buffer from the caller, a contiguous
    writeable array of one dimension or more, uses it for the palette
    indices only: the native [getScreen] fills it, it is handed on to
    [fillRGBfromPalette] together with a newly allocated array of shape
    [(height, width, 3)], and that new array, never the caller's, is what is
    returned. *)
Theorem getScreenRBG_supplied self l a s p w h :
  handle_ptr (obj self) = Some p ->
  width self = Some (PyInt w) -> height self = Some (PyInt h) ->
  0 <= w -> 0 <= h ->
  heap s !! l = Some a -> nd_contiguous a = true -> nd_writeable a = true ->
  nd_shape a <> [] ->
  let n := c_int_wrap (nd_size a) in
  let cs := [CPtr p; CBuf l (nd_dtype a) (nd_data a); CInt n] in
  let a' := written (n_out (native N_getScreen cs (world s))) a in
  let new := length (heap s) in
  exists s' g b,
    getScreenRBG self (PyArr l) s = (Ok (PyArr new), s') /\
    calls s' = calls s ++
      [(N_getScreen, cs);
       (N_fillRGBfromPalette,
        [CPtr p; CBuf l (nd_dtype a) (nd_data a'); CBuf new uint8 g; CInt n])] /\
    l <> new /\ heap s' !! new = Some b /\
    nd_shape b = [h; w; 3] /\ nd_dtype b = uint8.
Proof.
  intros Hp Hw Hh Hw0 Hh0 Hl Hc Hwr Hsh n cs a' new.
  assert (Hlt : (l < new)%nat) by (by eapply lookup_lt_Some).
  unfold getScreenRBG. cbn [is_None]. rewrite step_ret, declare.
  erewrite step_as_ctypes; [|exact Hl|done|done|exact Hsh].
  erewrite step_py_size; [|exact Hl].
  rewrite step_mk_c_int. fold n.
  erewrite step_call; cycle 1.
  { rewrite proto_of_upd_eq. cbn [marshal marshal_typed argtypes].
    erewrite typed_handle by exact Hp.
    cbn [from_param]. erewrite buffer_of_lookup by exact Hl.
    reflexivity. }
  fold cs. set (s1 := after_call N_getScreen cs _).
  assert (Hl1 : heap s1 !! l = Some a').
  { unfold s1, cs. norm. rewrite write_back_typed. by apply written_lookup. }
  assert (Hlen1 : length (heap s1) = new).
  { unfold s1. rewrite heap_after_call, length_write_back. by norm. }
  rewrite Hw, Hh, step_attr, step_attr, step_np_empty by lia. rewrite Hlen1.
  set (g := garbage uint8 new (shape_size [h; w; 3])).
  set (a3 := fresh [h; w; 3] uint8 g).
  rewrite declare.
  assert (Hl1' : (heap s1 ++ [a3]) !! l = Some a').
  { rewrite lookup_app_l; [exact Hl1|]. rewrite Hlen1. lia. }
  assert (Hl3 : (heap s1 ++ [a3]) !! new = Some a3).
  { rewrite <- Hlen1. apply lookup_fresh. }
  erewrite step_as_ctypes;
    [|exact Hl1'|unfold a'; by rewrite written_contiguous
     |unfold a'; by rewrite written_writeable
     |unfold a'; by rewrite written_shape].
  erewrite step_as_ctypes; [|exact Hl3|done|done|done].
  erewrite step_py_size; [|exact Hl1'].
  rewrite step_mk_c_int.
  erewrite step_call; cycle 1.
  { rewrite proto_of_upd_eq. cbn [marshal marshal_typed argtypes].
    erewrite typed_handle by exact Hp.
    cbn [from_param]. norm.
    erewrite (buffer_of_lookup _ l) by exact Hl1'.
    erewrite (buffer_of_lookup _ new) by exact Hl3.
    reflexivity. }
  unfold ret.
  assert (Hsz : nd_size a' = nd_size a).
  { unfold nd_size, a'. by rewrite written_shape. }
  assert (Hdt : nd_dtype a' = nd_dtype a) by apply written_dtype.
  rewrite Hsz, Hdt. fold n.
  change (nd_dtype a3) with uint8. change (nd_data a3) with g.
  eexists _, g, _. split; [reflexivity|].
  split. { norm. unfold s1. norm. by rewrite <- app_assoc. }
  split; [lia|].
  split. { norm. apply write_back_fill; [lia|exact Hl3]. }
  by rewrite written_shape, written_dtype.
Qed.

(** *** [getScreenGrayscale] *)

Lemma bindS_lift {A B} (m : M A) (k : A -> MS B) s r s' :
  m s = (r, s') ->
  bindS (lift m) k s = match r with
                       | Ok a => k a s'
                       | Raise e => (Failed (Std e), s')
                       end.
Proof. intros Hm. unfold bindS, lift. rewrite Hm. by destruct r. Qed.

Lemma lift_bind {A B} (m : M A) (k : A -> M B) s :
  lift (bind m k) s = bindS (lift m) (fun a => lift (k a)) s.
Proof. unfold lift, bindS, bind. by destruct (m s) as [[a|e] s1]. Qed.

Lemma lift_bind_ext {A B} (m : M A) (k : A -> M B) (k' : A -> MS B) s :
  (forall a s1, k' a s1 = lift (k a) s1) ->
  bindS (lift m) k' s = lift (bind m k) s.
Proof. intros Hk. rewrite lift_bind. unfold bindS. by destruct (lift m s) as [[a|e] s1]. Qed.

Lemma lift_run {A} (m m' : M A) s s' : m s = m' s' -> lift m s = lift m' s'.
Proof. unfold lift. by intros ->. Qed.

Lemma slice_all_array {B} l a (k : pyval -> MS B) s :
  heap s !! l = Some a -> nd_shape a <> [] ->
  bindS (slice_all (PyArr l)) k s = k (PyArr l) s.
Proof.
  intros Hl Hsh. unfold bindS at 1, slice_all, bindS, lift, deref. rewrite Hl.
  destruct (nd_shape a); [done|reflexivity].
Qed.

Lemma np_empty_3 a b c dt s :
  0 <= a -> 0 <= b -> 0 <= c ->
  np_empty [PyInt a; PyInt b; PyInt c] dt s
  = (Ok (PyArr (length (heap s))),
     upd_heap
       (heap s ++ [fresh [a; b; c] dt
                     (garbage dt (length (heap s)) (shape_size [a; b; c]))]) s).
Proof.
  intros Ha Hb Hc. unfold np_empty. cbn [dims_of dim_of].
  unfold nonneg_shape. cbn [forallb].
  by rewrite !(proj2 (Z.leb_le 0 _)) by assumption.
Qed.

(** X15.  [getScreenGrayscale] converts nothing to grey: on an array of
    one dimension or more it is [getScreen], and without a buffer it makes
    the one native call [getScreen] on an uninitialised array of shape
    [(height, width, 1)] and returns that array of palette indices. *)
Theorem getScreenGrayscale_is_getScreen self s :
  (forall l a,
     heap s !! l = Some a -> nd_shape a <> [] ->
     getScreenGrayscale self (PyArr l) s = lift (getScreen self (PyArr l)) s)
  /\ (forall p w h,
        handle_ptr (obj self) = Some p ->
        width self = Some (PyInt w) -> height self = Some (PyInt h) ->
        0 <= w -> 0 <= h ->
        let l := length (heap s) in
        let g := garbage uint8 l (shape_size [h; w; 1]) in
        let cs := [CPtr p; CBuf l uint8 g; CInt (c_int_wrap (shape_size [h; w; 1]))] in
        getScreenGrayscale self PyNone s
        = (Fine (PyArr l),
           after_call N_getScreen cs
             (upd_proto N_getScreen
                {| argtypes := Some [c_void_p; c_void_p; c_int]; restype := None |}
                (upd_heap (heap s ++ [fresh [h; w; 1] uint8 g]) s)))).
Proof.
  split.
  - intros l a Hl Hsh.
    assert (Hr : getScreen self (PyArr l) s
                 = (let! b := as_ctypes (PyArr l) in
                    let! n := py_size (PyArr l) in
                    let! size := mk_c_int n in
                    foreign_call N_getScreen [AVal (obj self); b; size] >>
                    ret (PyArr l))
                     (upd_proto N_getScreen
                        {| argtypes := Some [c_void_p; c_void_p; c_int];
                           restype := None |} s)).
    { unfold getScreen. cbn [is_None]. by rewrite step_ret, declare. }
    rewrite (lift_run _ _ _ _ Hr). clear Hr.
    unfold getScreenGrayscale. cbn [is_None].
    erewrite bindS_lift by reflexivity. cbv beta iota.
    erewrite bindS_lift by reflexivity. cbv beta iota.
    erewrite bindS_lift by reflexivity. cbv beta iota.
    rewrite proto_of_upd_eq, upd_proto_twice. cbn [argtypes].
    set (s0 := upd_proto _ _ _).
    erewrite slice_all_array; [|exact Hl|exact Hsh].
    apply lift_bind_ext. intros b s1.
    apply lift_bind_ext. intros n s2.
    apply lift_bind_ext. intros size s3.
    apply lift_bind_ext. intros _ s4. reflexivity.
  - intros p w h Hp Hw Hh Hw0 Hh0 l g cs.
    unfold getScreenGrayscale. cbn [is_None]. rewrite Hw, Hh.
    erewrite bindS_lift; cycle 1.
    { rewrite step_attr, step_attr. by apply np_empty_3. }
    fold l g. cbv beta iota.
    set (a1 := fresh [h; w; 1] uint8 g).
    erewrite bindS_lift by reflexivity. cbv beta iota.
    erewrite bindS_lift by reflexivity. cbv beta iota.
    rewrite proto_of_upd_eq, upd_proto_twice. cbn [argtypes].
    set (s0 := upd_proto _ _ _).
    assert (Hl : heap s0 !! l = Some a1) by apply lookup_fresh.
    erewrite slice_all_array; [|exact Hl|done].
    erewrite bindS_lift; cycle 1.
    { unfold as_ctypes. erewrite step_deref by exact Hl. reflexivity. }
    cbv beta iota.
    erewrite bindS_lift; cycle 1.
    { unfold py_size. erewrite step_deref by exact Hl. reflexivity. }
    cbv beta iota.
    erewrite bindS_lift by reflexivity. cbv beta iota.
    erewrite bindS_lift; cycle 1.
    { unfold foreign_call, s0. rewrite proto_of_upd_eq.
      cbn [marshal marshal_typed argtypes].
      erewrite typed_handle by exact Hp.
      cbn [from_param]. erewrite buffer_of_lookup by exact Hl.
      reflexivity. }
    reflexivity.
Qed.

Lemma lookup_write_fresh c (h : list ndarray) b dt d rest outs l a :
  (forall l' dt' d', c <> CBuf l' dt' d') ->
  Forall (fun c' => forall l' dt' d', c' <> CBuf l' dt' d') rest ->
  h !! l = Some a ->
  write_back (c :: CBuf (length h) dt d :: rest) outs (h ++ [b]) !! l = Some a.
Proof.
  intros Hc Hrest Hl.
  assert (Hlt : (l < length h)%nat) by (by eapply lookup_lt_Some).
  assert (Hgo : write_back (c :: CBuf (length h) dt d :: rest) outs (h ++ [b])
                = write_back (CBuf (length h) dt d :: rest) outs (h ++ [b])).
  { destruct c; try reflexivity. by destruct (Hc l0 dt0 data). }
  rewrite Hgo. cbn [write_back]. destruct outs as [|o outs].
  - by rewrite lookup_app_l.
  - rewrite write_back_scalars by done.
    rewrite list_lookup_alter_ne by lia. by rewrite lookup_app_l.
Qed.

Lemma untyped_handle_scalar v l dt d : untyped_handle v <> CBuf l dt d.
Proof. by destruct v. Qed.

(** X16.  The calls that allocate their own buffer write to nothing
    else: after [getScreen()], [getRAM()], [getLegalActionSet()] and
    [encodeState(state)], whether they returned or raised, every array that
    existed before holds what it held. *)
Theorem own_buffer_calls_spare_arrays self s p l a :
  handle_ptr (obj self) = Some p ->
  heap s !! l = Some a ->
  (forall w h,
     width self = Some (PyInt w) -> height self = Some (PyInt h) ->
     heap (snd (getScreen self PyNone s)) !! l = Some a)
  /\ (ftab s !! N_getRAMSize = None -> ftab s !! N_getRAM = None ->
      heap (snd (getRAM self PyNone s)) !! l = Some a)
  /\ heap (snd (getLegalActionSet self s)) !! l = Some a
  /\ (forall state st,
        default_param (heap s) (AVal state) = Ok st ->
        ftab s !! N_encodeStateLen = None -> ftab s !! N_encodeState = None ->
        heap (snd (encodeState self state PyNone s)) !! l = Some a).
Proof.
  intros Hp Hl. split; [|split; [|split]].
  - intros w h Hw Hh. rewrite (getScreen_fresh _ _ _ _ _ Hw Hh Hp).
    case_decide; [|exact Hl]. cbv zeta. cbn [snd]. norm.
    apply lookup_write_fresh; [done|by repeat constructor|exact Hl].
  - intros Hsz Hram. rewrite (getRAM_fresh _ _ _ Hp Hsz Hram). cbv zeta.
    case_decide; cbn [snd]; norm; rewrite ?untyped_handle_no_buffer; [|exact Hl].
    apply lookup_write_fresh;
      [apply untyped_handle_scalar|by repeat constructor|exact Hl].
  - rewrite (getLegalActionSet_spec _ _ _ Hp). cbv zeta.
    case_decide; cbn [snd]; norm; [|exact Hl].
    apply lookup_write_fresh; [done|by repeat constructor|exact Hl].
  - intros state st Hst Hlen Henc.
    rewrite (encodeState_fresh _ _ _ _ Hst Hlen Henc). cbv zeta.
    assert (Hsc : forall l' dt' d', st <> CBuf l' dt' d')
      by (by eapply default_param_val_scalar).
    assert (Hkeep : write_back [st] (n_out (native N_encodeStateLen [st] (world s))) (heap s)
                    = heap s) by (apply write_back_scalars; by repeat constructor).
    case_decide; cbn [snd]; norm; rewrite ?Hkeep; [|exact Hl].
    apply lookup_write_fresh; [exact Hsc|by repeat constructor|exact Hl].
Qed.

End Buffers.

(** ** The prototypes the module declares *)

Section Prototypes.

Context `{Platform}.

Notation "'let!' x ':=' m 'in' k" := (bind m (fun x => k))
  (at level 10, x name, m at level 100, k at level 200).
Notation "m '>>' k" := (bind m (fun _ => k))
  (at level 100, k at level 200, right associativity).

Implicit Types (s : pystate) (self : NESInterface) (f : symbol).

#[global] Instance declared_or_same_refl f : Reflexive (declared_or_same f).
Proof. intros s. by left. Qed.

#[global] Instance declared_or_same_trans f : Transitive (declared_or_same f).
Proof.
  intros s1 s2 s3 [H12|H12] [H23|H23]; unfold declared_or_same;
    [left|right|right|right]; congruence.
Qed.

Lemma keeps_declare {A} f g ts rt (k : M A) :
  g <> f \/ module_proto f = Some {| argtypes := Some ts; restype := rt |} ->
  keeps (declared_or_same f) k ->
  keeps (declared_or_same f) (set_argtypes g ts >> set_restype g rt >> k).
Proof.
  intros Hg Hk s. rewrite declare.
  transitivity (upd_proto g {| argtypes := Some ts; restype := rt |} s); [|apply Hk].
  unfold declared_or_same. cbn [ftab upd_proto].
  destruct (decide (g = f)) as [->|Hne].
  - right. rewrite lookup_insert_eq. destruct Hg as [Hg|Hg]; [done|by rewrite Hg].
  - left. by rewrite lookup_insert_ne.
Qed.

Lemma keeps_declare_last f g ts rt :
  g <> f \/ module_proto f = Some {| argtypes := Some ts; restype := rt |} ->
  keeps (declared_or_same f) (set_argtypes g ts >> set_restype g rt).
Proof.
  intros Hg s.
  assert (Hs : (set_argtypes g ts >> set_restype g rt) s
               = (set_argtypes g ts >> set_restype g rt >> ret tt) s).
  { unfold bind, set_argtypes, set_restype, ret. reflexivity. }
  rewrite Hs. apply (keeps_declare f g ts rt (ret tt)); [done|].
  apply keeps_ret. apply _.
Qed.

Lemma keeps_declareS {A} f g ts rt (k : MS A) :
  g <> f \/ module_proto f = Some {| argtypes := Some ts; restype := rt |} ->
  keeps (declared_or_same f) k ->
  keeps (declared_or_same f)
    (bindS (lift (set_argtypes g ts)) (fun _ =>
     bindS (lift (set_restype g rt)) (fun _ => k))).
Proof.
  intros Hg Hk s.
  assert (Hs : bindS (lift (set_argtypes g ts))
                 (fun _ => bindS (lift (set_restype g rt)) (fun _ => k)) s
               = k (upd_proto g {| argtypes := Some ts; restype := rt |} s)).
  { unfold bindS, lift, set_argtypes, set_restype.
    by rewrite proto_of_upd_eq, upd_proto_twice. }
  rewrite Hs.
  transitivity (upd_proto g {| argtypes := Some ts; restype := rt |} s); [|apply Hk].
  unfold declared_or_same. cbn [ftab upd_proto].
  destruct (decide (g = f)) as [->|Hne].
  - right. rewrite lookup_insert_eq. destruct Hg as [Hg|Hg]; [done|by rewrite Hg].
  - left. by rewrite lookup_insert_ne.
Qed.

Lemma keeps_same_ftab {A} f (m : M A) :
  (forall s, ftab (snd (m s)) = ftab s) -> keeps (declared_or_same f) m.
Proof. intros Hm s. left. by rewrite Hm. Qed.

Lemma ftab_np_empty shape dt s : ftab (snd (np_empty shape dt s)) = ftab s.
Proof.
  unfold np_empty. destruct (dims_of shape) as [sh|e]; [|done].
  by destruct (nonneg_shape sh).
Qed.

End Prototypes.

(** The symbol declared is another one, or it is declared as the module
    declares it. *)
Ltac declared_side :=
  match goal with
  | |- ?g <> ?f \/ _ =>
      destruct (decide (g = f)) as [<-|?]; [right; reflexivity|by left]
  end.

(** One step through a method, for the prototypes it declares. *)
Ltac declared_step :=
  first
    [ match goal with
      | |- Transitive _ => apply _
      | |- Reflexive _ => apply _
      end
    | apply keeps_declare; [declared_side|]
    | apply keeps_declareS; [declared_side|]
    | apply keeps_declare_last; declared_side
    | apply keeps_bind; [..|intros ?]
    | apply keeps_bindS; [..|intros ?]
    | apply keeps_lift
    | apply keeps_ret
    | apply keeps_raise
    | apply keeps_slice_all
    | apply keeps_same_ftab; intros ?;
      first [apply ftab_foreign_call|apply ftab_np_zeros|apply ftab_np_empty]
    | apply inert_keeps; [..|solve [auto with inert]]
    | match goal with
      | |- keeps _ (if ?b then _ else _) => destruct b
      | |- keeps _ (match ?x with _ => _ end) => destruct x
      end ].

Section DeclaredByMethods.

Context `{Platform}.

Implicit Types (s : pystate) (self : NESInterface) (f : symbol).

Lemma init_declared f rom : keeps (declared_or_same f) (init rom).
Proof. unfold init, getScreenDims; repeat declared_step. Qed.

Lemma effect_declared self c f s : declared_or_same f s (effect self c s).
Proof.
  destruct c; cbn [effect];
    match goal with
    | |- declared_or_same ?f s (snd (?m s)) =>
        revert s; change (keeps (declared_or_same f) m)
    end;
    unfold act, game_over, reset_game, getMinimalActionSet, getLegalActionSet,
      getFrameNumber, lives, getEpisodeFrameNumber, getScreenDims, getScreen,
      getScreenRBG, getScreenGrayscale, getRAMSize, getRAM, saveState, loadState,
      cloneState, restoreState, cloneSystemState, restoreSystemState, deleteState,
      encodeStateLen, encodeState, decodeState, __del__;
    repeat declared_step.
Qed.

(** X17.  The module declares every symbol in one way only: after the
    constructor and any sequence of method calls, the prototype of a symbol
    is what it was before or the single prototype the module gives it, so
    no method marshals differently for what was called before it. *)
Theorem prototypes_declared_consistently self rom cs f s :
  let s' := effects self cs (snd (init rom s)) in
  ftab s' !! f = ftab s !! f \/ ftab s' !! f = module_proto f.
Proof.
  cbv zeta. change (declared_or_same f s (effects self cs (snd (init rom s)))).
  transitivity (snd (init rom s)); [apply init_declared|].
  generalize (snd (init rom s)). clear s. intros s.
  revert s. induction cs as [|c cs IH]; intros s; [reflexivity|].
  rewrite effects_cons.
  transitivity (effect self c s); [apply effect_declared|apply IH].
Qed.

End DeclaredByMethods.

(** * The further facts on the small cartridge *)

Section MoreOnDemo.

Import Core.

Lemma demo_started_unset : unset Demo.started.
Proof. unfold unset, never_declared. repeat constructor. Defined.

Lemma demo_shown_unset : unset Demo.shown.
Proof. unfold unset, never_declared. repeat constructor. Defined.

(** X2 on the cartridge: three calls that hand over numbers only, in the
    process that holds the four-pixel array. *)
Lemma scalar_calls_leave_arrays_witness :
  forallb scalar [Call_act (PyInt 1); Call_cloneState; Call_restoreState (PyInt 2)]
  = true
  /\ heap (effects Demo.nes
             [Call_act (PyInt 1); Call_cloneState; Call_restoreState (PyInt 2)]
             Demo.shown)
     = [fresh [4] uint8 [1; 2; 3; 4]].
Proof.
  assert (Hs : forallb scalar
                 [Call_act (PyInt 1); Call_cloneState; Call_restoreState (PyInt 2)]
               = true) by reflexivity.
  split; [exact Hs|].
  rewrite (scalar_calls_leave_arrays Demo.nes _ Demo.shown Hs). reflexivity.
Defined.

(** X3 on the cartridge: the ROM [a.nes] loads, the empty path does
    not and still gives an instance, with [obj] [None]. *)
Lemma init_never_fails_witness :
  utf8_encode Demo.rom = Some Demo.rom
  /\ utf8_encode [] = Some []
  /\ (exists self s',
        init Demo.rom Demo.boot = (Ok self, s') /\
        obj self = PyInt 1 /\
        calls s' = [(N_NESInterface, [CStr Demo.rom]);
                    (N_getScreenWidth, [CPtr 1]); (N_getScreenHeight, [CPtr 1])])
  /\ (exists self s',
        init [] Demo.boot = (Ok self, s') /\
        obj self = PyNone /\
        calls s' = [(N_NESInterface, [CStr []]);
                    (N_getScreenWidth, [CPtr 0]); (N_getScreenHeight, [CPtr 0])]).
Proof.
  assert (Hrom : utf8_encode Demo.rom = Some Demo.rom) by reflexivity.
  assert (Hnil : utf8_encode [] = Some []) by reflexivity.
  split; [exact Hrom|]. split; [exact Hnil|]. split.
  - exact (init_never_fails Demo.rom Demo.rom Demo.boot Hrom).
  - exact (init_never_fails [] [] Demo.boot Hnil).
Defined.

(** X4 on the cartridge: a path with a lone surrogate. *)
Lemma init_unencodable_witness :
  In 55296 [97; 55296] /\ 55296 <= 55296 < 57344
  /\ init [97; 55296] Demo.boot
     = (Raise UnicodeEncodeError,
        upd_proto N_NESInterface
          {| argtypes := Some [c_char_p]; restype := Some c_void_p |} Demo.boot)
  /\ ftab (snd (init [97; 55296] Demo.boot)) !! N_NESInterface
     = Some {| argtypes := Some [c_char_p]; restype := Some c_void_p |}
  /\ calls (snd (init [97; 55296] Demo.boot)) = [].
Proof.
  assert (Hin : In 55296 [97; 55296]) by (right; left; reflexivity).
  assert (Hc : 55296 <= 55296 < 57344) by lia.
  destruct (init_unencodable [97; 55296] 55296 Demo.boot Hin Hc) as (E & Hcalls & _).
  split; [exact Hin|]. split; [exact Hc|]. split; [exact E|].
  rewrite E. split; [reflexivity|exact Hcalls].
Defined.

(** X6 on the cartridge: [act(None)]. *)
Lemma act_refuses_action_witness :
  fst (py_int PyNone Demo.started) = Raise TypeError
  /\ fst (act Demo.nes PyNone Demo.started) = Raise TypeError
  /\ calls (snd (act Demo.nes PyNone Demo.started)) = calls Demo.started.
Proof.
  assert (He : fst (py_int PyNone Demo.started) = Raise TypeError) by reflexivity.
  split; [exact He|].
  rewrite (act_refuses_action Demo.nes PyNone TypeError Demo.started He).
  split; reflexivity.
Defined.

(** X7 on the cartridge. *)
Lemma counters_and_commands_witness :
  handle_ptr (obj Demo.nes) = Some 1
  /\ fst (reset_game Demo.nes Demo.started) = Ok PyNone
  /\ calls (snd (__del__ Demo.nes Demo.started))
     = calls Demo.started ++ [(N_delete_NES, [CPtr 1])].
Proof.
  assert (Hp : handle_ptr (obj Demo.nes) = Some 1) by reflexivity.
  destruct (counters_and_commands Demo.nes Demo.started 1 Hp)
    as (_ & _ & _ & _ & Hreset & _ & Hdel).
  split; [exact Hp|]. split.
  - rewrite Hreset. reflexivity.
  - rewrite Hdel. reflexivity.
Defined.

(** X8 on the cartridge: the handles 1 and 2^32 + 1. *)
Lemma untyped_calls_truncate_handles_witness :
  unset Demo.started
  /\ obj Demo.nes = PyInt 1 /\ obj Demo.far = PyInt 4294967297
  /\ 0 <= 1 < 18446744073709551616
  /\ 0 <= 4294967297 < 18446744073709551616
  /\ 1 mod 4294967296 = 4294967297 mod 4294967296
  /\ getRAM Demo.nes PyNone Demo.started = getRAM Demo.far PyNone Demo.started
  /\ cloneState Demo.nes Demo.started = cloneState Demo.far Demo.started
  /\ restoreState Demo.nes (PyInt 2) Demo.saved
     = restoreState Demo.nes (PyInt 4294967298) Demo.saved.
Proof.
  assert (H1 : 0 <= 1 < 18446744073709551616) by lia.
  assert (H2 : 0 <= 4294967297 < 18446744073709551616) by lia.
  assert (Hm : 1 mod 4294967296 = 4294967297 mod 4294967296) by reflexivity.
  destruct (untyped_calls_truncate_handles Demo.nes Demo.far 1 4294967297
              Demo.started demo_started_unset eq_refl eq_refl H1 H2 Hm)
    as (_ & Hram & Hclone & _ & _ & _).
  assert (Hsaved : unset Demo.saved)
    by (unfold unset, never_declared; repeat constructor).
  destruct (untyped_calls_truncate_handles Demo.nes Demo.far 1 4294967297
              Demo.saved Hsaved eq_refl eq_refl H1 H2 Hm)
    as (_ & _ & _ & _ & _ & Hstate).
  split; [exact demo_started_unset|]. split; [reflexivity|]. split; [reflexivity|].
  split; [exact H1|]. split; [exact H2|]. split; [exact Hm|].
  split; [exact (Hram PyNone)|]. split; [exact Hclone|].
  assert (Hz : 0 <= 2 < 18446744073709551616) by lia.
  assert (Hz' : 0 <= 4294967298 < 18446744073709551616) by lia.
  exact (proj1 (Hstate 2 4294967298 Hz Hz' eq_refl)).
Defined.

(** X9 on the cartridge. *)
Lemma untyped_results_are_c_ints_witness :
  unset Demo.started
  /\ cloneState Demo.nes Demo.started = (Ok (PyInt 2), Demo.saved)
  /\ exists z, PyInt 2 = PyInt z /\ fits_c_int z.
Proof.
  assert (Hrun : cloneState Demo.nes Demo.started = (Ok (PyInt 2), Demo.saved)).
  { rewrite (surjective_pairing (cloneState Demo.nes Demo.started)).
    apply (f_equal2 pair); [vm_compute; reflexivity|reflexivity]. }
  split; [exact demo_started_unset|]. split; [exact Hrun|].
  exact (proj1 (untyped_results_are_c_ints Demo.nes Demo.started demo_started_unset)
           _ _ Hrun).
Defined.

(** X10 on the cartridge: the four-pixel array offered as a state. *)
Lemma state_argument_conversion_witness :
  unset Demo.shown
  /\ default_param (heap Demo.shown) (AVal (obj Demo.nes)) = Ok (CInt 1)
  /\ (exists l, PyArr 0 = PyArr l)
  /\ restoreState Demo.nes (PyArr 0) Demo.shown = (Raise ArgumentError, Demo.shown)
  /\ deleteState Demo.nes (PyArr 0) Demo.shown = (Raise ArgumentError, Demo.shown)
  /\ calls (snd (restoreState Demo.nes PyNone Demo.shown))
     = calls Demo.shown ++ [(N_restoreState, [CInt 1; CPtr 0])].
Proof.
  assert (Huh : default_param (heap Demo.shown) (AVal (obj Demo.nes)) = Ok (CInt 1))
    by reflexivity.
  assert (Hst : exists l, PyArr 0 = PyArr l) by (by exists 0%nat).
  destruct (state_argument_conversion Demo.nes (PyArr 0) Demo.shown (CInt 1)
              demo_shown_unset Huh) as (Hbad & Hnone & _ & _).
  destruct (Hbad (or_introl Hst)) as (Hr & _ & Hd).
  split; [exact demo_shown_unset|]. split; [exact Huh|]. split; [exact Hst|].
  split; [exact Hr|]. split; [exact Hd|].
  rewrite Hnone. reflexivity.
Defined.

(** X11 on a library that answers -1 to every query. *)
Lemma negative_sizes_raise_witness :
  handle_ptr (obj Demo.unsized) = Some 1
  /\ c_int_wrap (n_ret (@native Demo.refusing N_getNumLegalActions [CPtr 1]
                          (world Demo.refused))) < 0
  /\ ftab Demo.refused !! N_getRAMSize = None
  /\ ftab Demo.refused !! N_getRAM = None
  /\ -1 * 2 < 0
  /\ (exists s',
        getLegalActionSet Demo.unsized Demo.refused = (Raise ValueError, s') /\
        calls s' = [(N_getNumLegalActions, [CPtr 1])] /\ heap s' = [])
  /\ (exists s',
        getRAM Demo.unsized PyNone Demo.refused = (Raise ValueError, s') /\
        calls s' = [(N_getRAMSize, [CInt 1])] /\ heap s' = [])
  /\ getScreen Demo.unsized PyNone Demo.refused = (Raise ValueError, Demo.refused).
Proof.
  assert (Hp : handle_ptr (obj Demo.unsized) = Some 1) by reflexivity.
  assert (Hn : c_int_wrap (n_ret (@native Demo.refusing N_getNumLegalActions [CPtr 1]
                                    (world Demo.refused))) < 0)
    by (vm_compute; reflexivity).
  assert (Hs : ftab Demo.refused !! N_getRAMSize = None) by reflexivity.
  assert (Hr : ftab Demo.refused !! N_getRAM = None) by reflexivity.
  assert (Hwh : -1 * 2 < 0) by lia.
  destruct (@negative_sizes_raise Demo.refusing Demo.unsized Demo.refused 1 Hp)
    as (Hacts & Hram & Hscreen).
  split; [exact Hp|]. split; [exact Hn|]. split; [exact Hs|]. split; [exact Hr|].
  split; [exact Hwh|].
  split; [exact (Hacts Hn)|].
  split; [exact (Hram Hs Hr Hn)|].
  exact (Hscreen (-1) 2 eq_refl eq_refl Hwh).
Defined.

(** X12 on the cartridge: the four-pixel array, the read-only array and
    [None] offered as serialized states. *)
Lemma decodeState_marshals_witness :
  ftab Demo.frozen !! N_decodeState = None
  /\ heap Demo.frozen !! 0%nat = Some (fresh [4] uint8 [1; 2; 3; 4])
  /\ 0 <= 4 < 18446744073709551616
  /\ (exists a, heap Demo.frozen !! 1%nat = Some a /\
                nd_contiguous a && nd_writeable a = false)
  /\ (forall l, PyNone <> PyArr l)
  /\ calls (snd (decodeState Demo.nes (PyArr 0) Demo.frozen))
     = calls Demo.frozen ++ [(N_decodeState, [CBuf 0 uint8 [1; 2; 3; 4]; CInt 4])]
  /\ decodeState Demo.nes (PyArr 1) Demo.frozen = (Raise TypeError, Demo.frozen)
  /\ decodeState Demo.nes PyNone Demo.frozen = (Raise AttributeError, Demo.frozen).
Proof.
  assert (Hf : ftab Demo.frozen !! N_decodeState = None) by reflexivity.
  assert (H0 : heap Demo.frozen !! 0%nat = Some (fresh [4] uint8 [1; 2; 3; 4]))
    by reflexivity.
  assert (Hd : 0 <= 4 < 18446744073709551616) by lia.
  assert (H1 : heap Demo.frozen !! 1%nat
               = Some {| nd_shape := [2]; nd_dtype := uint8; nd_data := [7; 8];
                         nd_contiguous := true; nd_writeable := false |})
    by reflexivity.
  assert (Hv : forall l, PyNone <> PyArr l) by discriminate.
  destruct (decodeState_marshals Demo.nes Demo.frozen Hf) as (Hok & Hro & Hnone).
  split; [exact Hf|]. split; [exact H0|]. split; [exact Hd|].
  split; [eexists; split; [exact H1|reflexivity]|].
  split; [exact Hv|].
  split.
  { rewrite (Hok 0%nat _ 4 [] H0 eq_refl eq_refl eq_refl Hd). reflexivity. }
  split; [exact (Hro 1%nat _ H1 eq_refl)|].
  exact (Hnone PyNone Hv).
Defined.

(** X13 on the cartridge: the read-only array and the number 5 offered
    as buffers. *)
Lemma unusable_buffers_refused_witness :
  (exists a, heap Demo.frozen !! 1%nat = Some a /\
             nd_contiguous a && nd_writeable a = false)
  /\ PyInt 5 <> PyNone /\ (forall l, PyInt 5 <> PyArr l)
  /\ fst (getScreen Demo.nes (PyArr 1) Demo.frozen) = Raise TypeError
  /\ getRAM Demo.nes (PyArr 1) Demo.frozen = (Raise TypeError, Demo.frozen)
  /\ getRAM Demo.nes (PyInt 5) Demo.frozen = (Raise AttributeError, Demo.frozen).
Proof.
  assert (H1 : heap Demo.frozen !! 1%nat
               = Some {| nd_shape := [2]; nd_dtype := uint8; nd_data := [7; 8];
                         nd_contiguous := true; nd_writeable := false |})
    by reflexivity.
  assert (Hn : PyInt 5 <> PyNone) by discriminate.
  assert (Hv : forall l, PyInt 5 <> PyArr l) by discriminate.
  destruct (proj1 (unusable_buffers_refused Demo.nes (PyArr 1) Demo.frozen)
              1%nat _ eq_refl H1 eq_refl) as (Hscreen & _ & Hram).
  destruct (proj2 (unusable_buffers_refused Demo.nes (PyInt 5) Demo.frozen) Hn Hv)
    as (_ & _ & Hram5).
  split; [eexists; split; [exact H1|reflexivity]|].
  split; [exact Hn|]. split; [exact Hv|].
  split; [by rewrite Hscreen|]. split; [exact Hram|exact Hram5].
Defined.

(** X14 on the cartridge: the four-pixel array offered to
    [getScreenRBG]. *)
Lemma getScreenRBG_supplied_witness :
  handle_ptr (obj Demo.nes) = Some 1
  /\ width Demo.nes = Some (PyInt 2) /\ height Demo.nes = Some (PyInt 2)
  /\ 0 <= 2
  /\ heap Demo.shown !! 0%nat = Some (fresh [4] uint8 [1; 2; 3; 4])
  /\ nd_shape (fresh [4] uint8 [1; 2; 3; 4]) <> []
  /\ exists s' b,
       getScreenRBG Demo.nes (PyArr 0) Demo.shown = (Ok (PyArr 1), s') /\
       heap s' !! 1%nat = Some b /\ nd_shape b = [2; 2; 3] /\ nd_dtype b = uint8.
Proof.
  assert (Hp : handle_ptr (obj Demo.nes) = Some 1) by reflexivity.
  assert (H2 : 0 <= 2) by lia.
  assert (H0 : heap Demo.shown !! 0%nat = Some (fresh [4] uint8 [1; 2; 3; 4]))
    by reflexivity.
  assert (H1 : nd_shape (fresh [4] uint8 [1; 2; 3; 4]) <> []) by discriminate.
  destruct (getScreenRBG_supplied Demo.nes 0%nat _ Demo.shown 1 2 2
              Hp eq_refl eq_refl H2 H2 H0 eq_refl eq_refl H1)
    as (s' & g & b & E & _ & _ & Hb & Hsh & Hdt).
  split; [exact Hp|]. split; [reflexivity|]. split; [reflexivity|].
  split; [exact H2|]. split; [exact H0|]. split; [exact H1|].
  exists s', b. split; [exact E|]. split; [exact Hb|]. split; [exact Hsh|exact Hdt].
Defined.

(** X15 on the cartridge. *)
Lemma getScreenGrayscale_is_getScreen_witness :
  heap Demo.shown !! 0%nat = Some (fresh [4] uint8 [1; 2; 3; 4])
  /\ nd_shape (fresh [4] uint8 [1; 2; 3; 4]) <> []
  /\ handle_ptr (obj Demo.nes) = Some 1
  /\ 0 <= 2
  /\ getScreenGrayscale Demo.nes (PyArr 0) Demo.shown
     = lift (getScreen Demo.nes (PyArr 0)) Demo.shown
  /\ fst (getScreenGrayscale Demo.nes PyNone Demo.shown) = Fine (PyArr 1)
  /\ calls (snd (getScreenGrayscale Demo.nes PyNone Demo.shown))
     = calls Demo.shown ++ [(N_getScreen, [CPtr 1; CBuf 1 uint8 [0; 1; 2; 3]; CInt 4])].
Proof.
  assert (H0 : heap Demo.shown !! 0%nat = Some (fresh [4] uint8 [1; 2; 3; 4]))
    by reflexivity.
  assert (Hsh : nd_shape (fresh [4] uint8 [1; 2; 3; 4]) <> []) by discriminate.
  assert (Hp : handle_ptr (obj Demo.nes) = Some 1) by reflexivity.
  assert (H2 : 0 <= 2) by lia.
  destruct (getScreenGrayscale_is_getScreen Demo.nes Demo.shown) as [Hsame Hnone].
  split; [exact H0|]. split; [exact Hsh|]. split; [exact Hp|]. split; [exact H2|].
  split; [exact (Hsame 0%nat _ H0 Hsh)|].
  rewrite (Hnone 1 2 2 Hp eq_refl eq_refl H2 H2).
  split; reflexivity.
Defined.

(** X16 on the cartridge: the four-pixel array after further calls. *)
Lemma own_buffer_calls_spare_arrays_witness :
  handle_ptr (obj Demo.nes) = Some 1
  /\ heap Demo.shown !! 0%nat = Some (fresh [4] uint8 [1; 2; 3; 4])
  /\ ftab Demo.shown !! N_getRAMSize = None /\ ftab Demo.shown !! N_getRAM = None
  /\ heap (snd (getScreen Demo.nes PyNone Demo.shown)) !! 0%nat
     = Some (fresh [4] uint8 [1; 2; 3; 4])
  /\ heap (snd (getRAM Demo.nes PyNone Demo.shown)) !! 0%nat
     = Some (fresh [4] uint8 [1; 2; 3; 4])
  /\ heap (snd (getLegalActionSet Demo.nes Demo.shown)) !! 0%nat
     = Some (fresh [4] uint8 [1; 2; 3; 4]).
Proof.
  assert (Hp : handle_ptr (obj Demo.nes) = Some 1) by reflexivity.
  assert (H0 : heap Demo.shown !! 0%nat = Some (fresh [4] uint8 [1; 2; 3; 4]))
    by reflexivity.
  assert (Hs : ftab Demo.shown !! N_getRAMSize = None) by reflexivity.
  assert (Hr : ftab Demo.shown !! N_getRAM = None) by reflexivity.
  destruct (own_buffer_calls_spare_arrays Demo.nes Demo.shown 1 0%nat _ Hp H0)
    as (Hscreen & Hram & Hacts & _).
  split; [exact Hp|]. split; [exact H0|]. split; [exact Hs|]. split; [exact Hr|].
  split; [exact (Hscreen 2 2 eq_refl eq_refl)|].
  split; [exact (Hram Hs Hr)|exact Hacts].
Defined.

End MoreOnDemo.

(** ** A returned buffer handed back *)

Section Reuse.

Context `{Platform}.

Implicit Types (s : pystate) (self : NESInterface) (f : symbol).

(** X18.  The array [getScreen()] or [getRAM()] returned can be handed
    back as the buffer of the next call: that call does not raise, returns
    the same array without allocating, and hands the native code the array
    with the size it was allocated with. *)
Theorem returned_buffer_reusable self s p :
  handle_ptr (obj self) = Some p ->
  (forall w h,
     width self = Some (PyInt w) -> height self = Some (PyInt h) ->
     0 <= w * h < 2147483648 ->
     exists l s1 s2 d,
       getScreen self PyNone s = (Ok (PyArr l), s1) /\
       getScreen self (PyArr l) s1 = (Ok (PyArr l), s2) /\
       length (heap s2) = length (heap s1) /\
       calls s2 = calls s1 ++ [(N_getScreen, [CPtr p; CBuf l uint8 d; CInt (w * h)])] /\
       length d = Z.to_nat (w * h))
  /\ (ftab s !! N_getRAMSize = None -> ftab s !! N_getRAM = None ->
      0 <= c_int_wrap (n_ret (native N_getRAMSize [untyped_handle (obj self)] (world s))) ->
      exists l s1 s2 d,
        getRAM self PyNone s = (Ok (PyArr l), s1) /\
        getRAM self (PyArr l) s1 = (Ok (PyArr l), s2) /\
        length (heap s2) = length (heap s1) /\
        calls s2 = calls s1 ++ [(N_getRAM, [untyped_handle (obj self); CBuf l uint8 d])] /\
        length d
        = Z.to_nat (c_int_wrap (n_ret (native N_getRAMSize [untyped_handle (obj self)]
                                         (world s))))).
Proof.
  intros Hp. split.
  - intros w h Hw Hh Hwh.
    rewrite (getScreen_fresh _ _ _ _ _ Hw Hh Hp), decide_True by lia. cbv zeta.
    set (l := length (heap s)).
    set (a := fresh [w * h] uint8 (zeros (w * h))).
    set (cs := [CPtr p; CBuf l uint8 (zeros (w * h)); CInt (c_int_wrap (w * h))]).
    set (s1 := after_call N_getScreen cs _).
    set (a1 := written (n_out (native N_getScreen cs (world s))) a).
    assert (Hl1 : heap s1 !! l = Some a1).
    { unfold s1, cs. norm. rewrite write_back_typed.
      apply written_lookup, lookup_fresh. }
    assert (Hc1 : nd_contiguous a1 = true) by (unfold a1; by rewrite written_contiguous).
    assert (Hw1 : nd_writeable a1 = true) by (unfold a1; by rewrite written_writeable).
    assert (Hs1 : nd_shape a1 <> []) by (unfold a1; by rewrite written_shape).
    exists l, s1. eexists _, (nd_data a1). split; [reflexivity|].
    rewrite (getScreen_supplied _ _ _ _ _ Hl1 Hc1 Hw1 Hs1 Hp).
    split; [reflexivity|].
    split. { rewrite heap_after_call, length_write_back. by norm. }
    split.
    + norm. unfold a1 at 1 3. rewrite written_dtype.
      unfold nd_size, a1. rewrite written_shape. cbn [nd_shape nd_dtype a fresh fold_right].
      by rewrite Z.mul_1_r, c_int_wrap_id by (unfold fits_c_int; lia).
    + unfold a1. rewrite written_length. cbn [nd_data a fresh]. apply length_zeros.
  - intros Hsz Hram Hn.
    rewrite (getRAM_fresh _ _ _ Hp Hsz Hram). cbv zeta.
    rewrite decide_True by lia.
    set (uh := untyped_handle (obj self)).
    set (n := c_int_wrap (n_ret (native N_getRAMSize [uh] (world s)))).
    set (l := length (heap s)).
    set (a := fresh [n] uint8 (zeros n)).
    set (s0 := after_call N_getRAMSize [uh] s).
    set (cs := [uh; CBuf l uint8 (zeros n)]).
    set (s1 := after_call N_getRAM cs _).
    set (a1 := written (n_out (native N_getRAM cs (world s0))) a).
    assert (Hl1 : heap s1 !! l = Some a1).
    { unfold s1, cs, uh. norm. rewrite write_back_untyped.
      unfold a1, s0. norm. apply written_lookup, lookup_fresh. }
    assert (Hc1 : nd_contiguous a1 = true) by (unfold a1; by rewrite written_contiguous).
    assert (Hw1 : nd_writeable a1 = true) by (unfold a1; by rewrite written_writeable).
    assert (Hs1 : nd_shape a1 <> []) by (unfold a1; by rewrite written_shape).
    assert (Hram1 : ftab s1 !! N_getRAM = None) by (unfold s1, s0; by norm).
    exists l, s1. eexists _, (nd_data a1). split; [reflexivity|].
    rewrite (getRAM_supplied _ _ _ _ _ Hl1 Hc1 Hw1 Hs1 Hp Hram1).
    split; [reflexivity|].
    split. { rewrite heap_after_call, length_write_back. done. }
    split.
    + norm. unfold a1 at 1. by rewrite written_dtype.
    + unfold a1. rewrite written_length. cbn [nd_data a fresh]. apply length_zeros.
Qed.

End Reuse.

Section ReuseOnDemo.

(** X18 on the cartridge. *)
Lemma returned_buffer_reusable_witness :
  handle_ptr (obj Demo.nes) = Some 1
  /\ 0 <= 2 * 2 < 2147483648
  /\ ftab Demo.started !! N_getRAMSize = None
  /\ ftab Demo.started !! N_getRAM = None
  /\ 0 <= c_int_wrap (n_ret (native N_getRAMSize [untyped_handle (obj Demo.nes)]
                               (world Demo.started)))
  /\ (exists l s1 s2,
        getScreen Demo.nes PyNone Demo.started = (Ok (PyArr l), s1) /\
        getScreen Demo.nes (PyArr l) s1 = (Ok (PyArr l), s2) /\
        length (heap s2) = length (heap s1))
  /\ (exists l s1 s2,
        getRAM Demo.nes PyNone Demo.started = (Ok (PyArr l), s1) /\
        getRAM Demo.nes (PyArr l) s1 = (Ok (PyArr l), s2) /\
        length (heap s2) = length (heap s1)).
Proof.
  assert (Hp : handle_ptr (obj Demo.nes) = Some 1) by reflexivity.
  assert (Hwh : 0 <= 2 * 2 < 2147483648) by lia.
  assert (Hs : ftab Demo.started !! N_getRAMSize = None) by reflexivity.
  assert (Hr : ftab Demo.started !! N_getRAM = None) by reflexivity.
  assert (Hn : 0 <= c_int_wrap (n_ret (native N_getRAMSize [untyped_handle (obj Demo.nes)]
                                         (world Demo.started))))
    by (vm_compute; discriminate).
  destruct (returned_buffer_reusable Demo.nes Demo.started 1 Hp) as [Hscreen Hram].
  split; [exact Hp|]. split; [exact Hwh|]. split; [exact Hs|]. split; [exact Hr|].
  split; [exact Hn|]. split.
  - destruct (Hscreen 2 2 eq_refl eq_refl Hwh) as (l & s1 & s2 & d & E1 & E2 & Hlen & _).
    exists l, s1, s2. split; [exact E1|]. split; [exact E2|exact Hlen].
  - destruct (Hram Hs Hr Hn) as (l & s1 & s2 & d & E1 & E2 & Hlen & _).
    exists l, s1, s2. split; [exact E1|]. split; [exact E2|exact Hlen].
Defined.

End ReuseOnDemo.
